(** * Budget RPC layer of the Hemis governance engine

    A shallow embedding of the budget RPC commands (rpc/budget.cpp):
    [checkBudgetInputs], [submitbudget], [parseVote], [getnextsuperblock],
    [getbudgetinfo], [gmbudgetrawvote], [GetFinalizedBudgetStatus] and the
    [show] branch of [gmfinalbudget].

    Conventions.
    - A C++ [int] is a [Z] in the 32-bit signed range; arithmetic on it
      wraps ([wrap32]).  [CAmount] is a 64-bit signed integer, also a [Z].
    - A C++ function that may throw runs in the monad [M S], which threads
      the budget manager state [S] and returns [Ok v] or [Throw e].
    - Objects whose classes are declared in other translation units
      ([CBudgetProposal], [CFinalizedBudget], the budget manager, chain
      parameters) are represented by what their accessors return. *)

From Stdlib Require Import ZArith List String Ascii Bool Lia.
From Stdlib Require Import DecimalString HexString.
Import ListNotations.

Set Warnings "-register-all".

Local Open Scope list_scope.
Local Open Scope string_scope.
Local Open Scope Z_scope.

(* ------------------------------------------------------------------ *)
(** ** Machine integers *)

Definition INT_MIN : Z := - 2 ^ 31.
Definition INT_MAX : Z := 2 ^ 31 - 1.

Definition in_int (z : Z) : Prop := INT_MIN <= z <= INT_MAX.
Definition in_intb (z : Z) : bool := (INT_MIN <=? z) && (z <=? INT_MAX).

(** Two's complement reduction of a mathematical result to an [int]. *)
Definition wrap32 (z : Z) : Z := (z + 2 ^ 31) mod 2 ^ 32 - 2 ^ 31.

Definition int_add (a b : Z) : Z := wrap32 (a + b).
Definition int_sub (a b : Z) : Z := wrap32 (a - b).
(** C++ [%] truncates towards zero. *)
Definition int_rem (a b : Z) : Z := Z.rem a b.

(** Reduction to a signed 64-bit integer. *)
Definition wrap64 (z : Z) : Z := (z + 2 ^ 63) mod 2 ^ 64 - 2 ^ 63.

(** [strprintf("%d", n)] *)
Definition itostr (n : Z) : string := NilZero.string_of_int (Z.to_int n).

(* ------------------------------------------------------------------ *)
(** ** Exceptions and the state-and-exception monad *)

Inductive RPCErrorCode : Type :=
| RPC_MISC_ERROR
| RPC_INVALID_PARAMETER
| RPC_INVALID_ADDRESS_OR_KEY
| RPC_IN_WARMUP
| RPC_WALLET_ERROR
| RPC_CLIENT_IN_INITIAL_DOWNLOAD.

Inductive Exn : Type :=
| JSONRPCError (code : RPCErrorCode) (message : string)
| runtime_error (what : string).

Inductive Outcome (A : Type) : Type :=
| Ok (a : A)
| Throw (e : Exn).
Arguments Ok {A} a.
Arguments Throw {A} e.

Definition M (S A : Type) : Type := S -> Outcome A * S.

Definition ret {S A} (a : A) : M S A := fun s => (Ok a, s).
Definition throw {S A} (e : Exn) : M S A := fun s => (Throw e, s).
Definition bind {S A B} (m : M S A) (k : A -> M S B) : M S B :=
  fun s => match m s with
           | (Ok a, s') => k a s'
           | (Throw e, s') => (Throw e, s')
           end.
(** Read-only access to the state (a [const] member function). *)
Definition gets {S A} (f : S -> A) : M S A := fun s => (Ok (f s), s).
(** A member function that may update the state. *)
Definition call {S A} (f : S -> A * S) : M S A :=
  fun s => let '(a, s') := f s in (Ok a, s').
(** A pure computation that may throw. *)
Definition lift {S A} (o : Outcome A) : M S A := fun s => (o, s).

Definition result {S A} (m : M S A) (s : S) : Outcome A := fst (m s).
Definition final {S A} (m : M S A) (s : S) : S := snd (m s).

(** A computation that leaves every state as it found it. *)
Definition readonly {S A} (m : M S A) : Prop := forall s, final m s = s.

Declare Scope rpc_scope.
Delimit Scope rpc_scope with rpc.
Notation "x <- m ;; k" := (bind m (fun x => k))
  (at level 61, m at next level, right associativity) : rpc_scope.
Notation "m ;;; k" := (bind m (fun _ => k))
  (at level 61, right associativity) : rpc_scope.
Local Open Scope rpc_scope.

(** [if (c) throw e;] *)
Definition throw_if {S} (c : bool) (e : Exn) : M S unit :=
  if c then throw e else ret tt.

(* ------------------------------------------------------------------ *)
(** ** JSON values *)

(** A [double] is carried around as its IEEE-754 binary64 bit pattern;
    the RPC layer never computes on it. *)
Definition double : Type := Z.

Inductive UniValue : Type :=
| VNULL
| VBOOL (b : bool)
| VNUM (n : Z)
| VREAL (d : double)
| VSTR (s : string)
| VARR (items : list UniValue)
| VOBJ (entries : list (string * UniValue)).

(** [params[i]]: an index past the end yields the null value. *)
Definition idx (params : list UniValue) (i : nat) : UniValue :=
  nth i params VNULL.

Definition get_str (v : UniValue) : Outcome string :=
  match v with
  | VSTR s => Ok s
  | _ => Throw (runtime_error "JSON value is not a string as expected")
  end.

Definition get_int (v : UniValue) : Outcome Z :=
  match v with
  | VNUM n => if in_intb n then Ok n
              else Throw (runtime_error "JSON integer out of range")
  | _ => Throw (runtime_error "JSON value is not an integer as expected")
  end.

Definition INT64_MIN : Z := - 2 ^ 63.
Definition INT64_MAX : Z := 2 ^ 63 - 1.

Definition get_int64 (v : UniValue) : Outcome Z :=
  match v with
  | VNUM n => if (INT64_MIN <=? n) && (n <=? INT64_MAX) then Ok n
              else Throw (runtime_error "JSON integer out of range")
  | _ => Throw (runtime_error "JSON value is not an integer as expected")
  end.

(** [obj.pushKV(k, v)] on an object that does not hold the key [k] yet: the
    entry is appended.  Class UniValue is not part of these sources; what
    it does with a key that is already present is not modelled, so the
    definition stands for the calls that write a new key. *)
Definition pushKV (o : list (string * UniValue)) (k : string) (v : UniValue)
  : list (string * UniValue) := o ++ [(k, v)].

(* ------------------------------------------------------------------ *)
(** ** Data model *)

Definition uint256 : Type := Z.
(** A script is its byte string. *)
Definition CScript : Type := string.
(** Amounts are integer minor units held in a signed 64-bit integer. *)
Definition CAmount : Type := Z.
Definition CKeyID : Type := Z.

Inductive CTxDestination : Type :=
| CNoDestination
| CKeyDestination (id : CKeyID)
| CScriptDestination (id : Z).

Record COutPoint : Type := { prevout_hash : uint256; prevout_n : Z }.
Record CTxIn : Type := { prevout : COutPoint }.
Record CGamemaster : Type := { pubKeyGamemaster_GetID : CKeyID }.
Record CValidationState : Type :=
  { GetRejectReason : string; GetDebugMessage : string }.

Module CBudgetVote.
Inductive VoteDirection : Type := VOTE_ABSTAIN | VOTE_YES | VOTE_NO.
Record t : Type :=
  { vin : CTxIn;
    nProposalHash : uint256;
    nVote : VoteDirection;
    nTime : Z;
    vchSig : list Byte.byte }.
(** CBudgetVote vote(vin, hashProposal, nVote): the time and signature
    set by the constructor are overwritten by the setters below before the
    vote is used. *)
Definition new (vin : CTxIn) (h : uint256) (d : VoteDirection) : t :=
  {| vin := vin; nProposalHash := h; nVote := d; nTime := 0; vchSig := [] |}.
Definition SetTime (v : t) (time : Z) : t :=
  {| vin := vin v; nProposalHash := nProposalHash v; nVote := nVote v;
     nTime := time; vchSig := vchSig v |}.
Definition SetVchSig (v : t) (sig : list Byte.byte) : t :=
  {| vin := vin v; nProposalHash := nProposalHash v; nVote := nVote v;
     nTime := nTime v; vchSig := sig |}.
End CBudgetVote.

Record CTxBudgetPayment : Type :=
  { nProposalHash : uint256; payee : CScript; nAmount : CAmount }.

(** A proposal as seen through its accessors. *)
Module CBudgetProposal.
Record t : Type :=
  { GetName : string;
    GetURL : string;
    GetHash : uint256;
    GetFeeTXHash : uint256;
    GetBlockStart : Z;
    GetBlockEnd : Z;
    GetTotalPaymentCount : Z;
    GetRemainingPaymentCount : Z -> Z;
    GetPayee : CScript;
    GetRatio : double;
    GetYeas : Z;
    GetNays : Z;
    GetAbstains : Z;
    GetAmount : CAmount;
    IsEstablished : bool;
    IsValid : bool;
    IsInvalidReason : string;
    GetAllotted : CAmount }.
End CBudgetProposal.

(** A finalized budget as seen through its accessors.
    [GetBudgetPaymentByBlock h] is [Some p] when the call returns true and
    stores [p] in its output argument, [None] when it returns false. *)
Module CFinalizedBudget.
Record t : Type :=
  { GetName : string;
    GetHash : uint256;
    GetFeeTXHash : uint256;
    GetBlockStart : Z;
    GetBlockEnd : Z;
    GetBudgetPaymentByBlock : Z -> option CTxBudgetPayment;
    GetProposalsStr : string;
    GetVoteCount : Z;
    GetVotes : list (COutPoint * Z);
    IsValid : bool;
    IsInvalidReason : string }.
End CFinalizedBudget.

Record JSONRPCRequest : Type := { fHelp : bool; params : list UniValue }.

(* ------------------------------------------------------------------ *)
(** ** Collaborators *)

(** Everything the commands use from outside this translation unit and
    outside the budget manager: string utilities, consensus parameters, the
    chain tip, address and amount codecs, the gamemaster list and the
    signature check. *)
Record Node : Type :=
  { SanitizeString : string -> string;
    validateURL : string -> bool * string;
    nMaxProposalPayments : Z;
    nBudgetCycleBlocks : Z;
    (** height of [GetChainTip()], [None] for a null pointer *)
    GetChainTip : option Z;
    chainActive_Height : Z;
    DecodeDestination : string -> CTxDestination;
    IsValidDestination : CTxDestination -> bool;
    ExtractDestination : CScript -> CTxDestination;
    EncodeDestination : CTxDestination -> string;
    GetScriptForDestination : CTxDestination -> CScript;
    COIN : CAmount;
    CURRENCY_UNIT : string;
    FormatMoney : CAmount -> string;
    AmountFromValue : UniValue -> Outcome CAmount;
    ValueFromAmount : CAmount -> UniValue;
    ParseHashV : UniValue -> string -> Outcome uint256;
    ToString : uint256 -> string;
    IsBlockchainSynced : bool;
    DecodeBase64 : string -> list Byte.byte * bool;
    gamemasterman_Find : COutPoint -> option CGamemaster;
    CheckSignature : CBudgetVote.t -> CKeyID -> bool;
    CTxIn_ToString : CTxIn -> string;
    (** the constructor CBudgetProposal(name, url, count, payee, amount,
        start, feeTxHash) *)
    CBudgetProposal_new :
      string -> string -> Z -> CScript -> CAmount -> Z -> uint256 ->
      CBudgetProposal.t;
    (** the help text thrown on a malformed call *)
    usage : string -> string }.

(** The budget manager [g_budgetman] over its state [S].  Queries read the
    state; [AddProposal] and [ProcessProposalVote] may update it.
    [AddProposal] also returns the proposal, whose invalid reason it may
    have set. *)
Record BudgetManager (S : Type) : Type :=
  { GetTotalBudget : S -> Z -> CAmount;
    GetBestHeight : S -> Z;
    GetProposal : S -> uint256 -> option CBudgetProposal.t;
    FindProposalByName : S -> string -> option CBudgetProposal.t;
    GetAllProposalsOrdered : S -> list CBudgetProposal.t;
    GetFinalizedBudgets : S -> list CFinalizedBudget.t;
    AddProposal : CBudgetProposal.t -> S -> (bool * CBudgetProposal.t) * S;
    ProcessProposalVote :
      CBudgetVote.t -> S -> (bool * CValidationState) * S }.
Arguments GetTotalBudget {S}.
Arguments GetBestHeight {S}.
Arguments GetProposal {S}.
Arguments FindProposalByName {S}.
Arguments GetAllProposalsOrdered {S}.
Arguments GetFinalizedBudgets {S}.
Arguments AddProposal {S}.
Arguments ProcessProposalVote {S}.

(* ------------------------------------------------------------------ *)
(** ** The RPC commands *)

(** [s != t] and [s.empty()] on [std::string]. *)
Definition str_ne (s t : string) : bool := negb (String.eqb s t).
Definition empty (s : string) : bool :=
  match s with EmptyString => true | String _ _ => false end.

(** static CBudgetVote::VoteDirection parseVote(const std::string& strVote) *)
Definition parseVote (strVote : string)
  : Outcome CBudgetVote.VoteDirection :=
  if str_ne strVote "yes" && str_ne strVote "no"
  then Throw (JSONRPCError RPC_MISC_ERROR "You can only vote 'yes' or 'no'")
  else
    let nVote := CBudgetVote.VOTE_ABSTAIN in
    let nVote :=
      if String.eqb strVote "yes" then CBudgetVote.VOTE_YES else nVote in
    let nVote :=
      if String.eqb strVote "no" then CBudgetVote.VOTE_NO else nVote in
    Ok nVote.

(** The values [checkBudgetInputs] stores in its reference arguments. *)
Record BudgetInputs : Type :=
  { strProposalName : string;
    strURL : string;
    nPaymentCount : Z;
    nBlockStart : Z;
    address : CTxDestination;
    in_nAmount : CAmount }.

(** The next cycle boundary after [nHeight], in [int] arithmetic:
    nHeight - nHeight % nBlocksPerCycle + nBlocksPerCycle. *)
Definition nextCycleStart (nHeight nBlocksPerCycle : Z) : Z :=
  int_add (int_sub nHeight (int_rem nHeight nBlocksPerCycle)) nBlocksPerCycle.

Definition err_name : Exn :=
  JSONRPCError RPC_INVALID_PARAMETER
    "Invalid proposal name, limit of 20 characters.".
Definition err_count_low : Exn :=
  JSONRPCError RPC_INVALID_PARAMETER
    "Invalid payment count, must be more than zero.".
Definition err_count_high (nMaxPayments : Z) : Exn :=
  JSONRPCError RPC_INVALID_PARAMETER
    ("Invalid payment count, must be <= " ++ itostr nMaxPayments).
Definition err_warmup : Exn :=
  JSONRPCError RPC_IN_WARMUP "Try again after active chain is loaded".
Definition err_start (nBlockMin : Z) : Exn :=
  JSONRPCError RPC_INVALID_PARAMETER
    ("Invalid block start - must be a budget cycle block. Next valid block: "
     ++ itostr nBlockMin).
Definition err_address : Exn :=
  JSONRPCError RPC_INVALID_ADDRESS_OR_KEY "Invalid hemis address".
Definition err_vote : Exn :=
  JSONRPCError RPC_MISC_ERROR "You can only vote 'yes' or 'no'".

(** What [gmbudgetrawvote] answers after [ProcessProposalVote] returned. *)
Definition vote_reply (processed : bool * CValidationState) : UniValue :=
  if fst processed then VSTR "Voted successfully"
  else VSTR ("Error voting : " ++ GetRejectReason (snd processed) ++ ". "
             ++ GetDebugMessage (snd processed)).

Section Commands.
Context {S : Type} (node : Node) (g_budgetman : BudgetManager S).

Definition err_amount_low (nAmount : CAmount) : Exn :=
  JSONRPCError RPC_INVALID_PARAMETER
    ("Invalid amount - Payment of " ++ FormatMoney node nAmount
     ++ " is less than minimum 10 " ++ CURRENCY_UNIT node ++ " allowed").
Definition err_amount_high (nAmount nTotalBudget : CAmount) : Exn :=
  JSONRPCError RPC_INVALID_PARAMETER
    ("Invalid amount - Payment of " ++ FormatMoney node nAmount
     ++ " more than max of " ++ FormatMoney node nTotalBudget).

(** void checkBudgetInputs(const UniValue& params, std::string&
    strProposalName, std::string& strURL, int& nPaymentCount,
    int& nBlockStart, CTxDestination& address, CAmount& nAmount) *)
Definition checkBudgetInputs (params : list UniValue) : M S BudgetInputs :=
  p0 <- lift (get_str (idx params 0)) ;;
  let strProposalName := SanitizeString node p0 in
  throw_if (Nat.ltb 20 (String.length strProposalName)) err_name ;;;
  p1 <- lift (get_str (idx params 1)) ;;
  let strURL := SanitizeString node p1 in
  let '(fURL, strErr) := validateURL node strURL in
  throw_if (negb fURL) (JSONRPCError RPC_INVALID_PARAMETER strErr) ;;;
  nPaymentCount <- lift (get_int (idx params 2)) ;;
  throw_if (nPaymentCount <? 1) err_count_low ;;;
  let nMaxPayments := nMaxProposalPayments node in
  throw_if (nPaymentCount >? nMaxPayments) (err_count_high nMaxPayments) ;;;
  match GetChainTip node with
  | None => throw err_warmup
  | Some pHeight =>
    (* Start must be in the next budget cycle or later *)
    let budgetCycleBlocks := nBudgetCycleBlocks node in
    let nBlockMin := nextCycleStart pHeight budgetCycleBlocks in
    nBlockStart <- lift (get_int (idx params 3)) ;;
    throw_if ((nBlockStart <? nBlockMin)
              || negb (int_rem nBlockStart budgetCycleBlocks =? 0))
             (err_start nBlockMin) ;;;
    p4 <- lift (get_str (idx params 4)) ;;
    let address := DecodeDestination node p4 in
    throw_if (negb (IsValidDestination node address)) err_address ;;;
    nAmount <- lift (AmountFromValue node (idx params 5)) ;;
    throw_if (nAmount <? 10 * COIN node) (err_amount_low nAmount) ;;;
    nTotalBudget <- gets (fun s => GetTotalBudget g_budgetman s nBlockStart) ;;
    throw_if (nAmount >? nTotalBudget)
             (err_amount_high nAmount nTotalBudget) ;;;
    ret {| strProposalName := strProposalName; strURL := strURL;
           nPaymentCount := nPaymentCount; nBlockStart := nBlockStart;
           address := address; in_nAmount := nAmount |}
  end.

(** UniValue submitbudget(const JSONRPCRequest& request) *)
Definition submitbudget (request : JSONRPCRequest) : M S UniValue :=
  throw_if (fHelp request || negb (Nat.eqb (List.length (params request)) 7))
           (runtime_error (usage node "submitbudget")) ;;;
  inp <- checkBudgetInputs (params request) ;;
  (* Parse hemis address *)
  let scriptPubKey := GetScriptForDestination node (address inp) in
  hash <- lift (ParseHashV node (idx (params request) 6) "parameter 1") ;;
  throw_if (negb (IsBlockchainSynced node))
    (runtime_error
       "Must wait for client to sync with gamemaster network. Try again in a minute or so.") ;;;
  (* create the proposal in case we're the first to make it *)
  let proposal :=
    CBudgetProposal_new node (strProposalName inp) (strURL inp)
      (nPaymentCount inp) scriptPubKey (in_nAmount inp) (nBlockStart inp)
      hash in
  added <- call (AddProposal g_budgetman proposal) ;;
  let '(fAdded, proposal) := added in
  throw_if (negb fAdded)
    (runtime_error ("invalid budget proposal - "
                    ++ CBudgetProposal.IsInvalidReason proposal)) ;;;
  (* proposal.Relay() hands the proposal to the network layer *)
  ret (VSTR (ToString node (CBudgetProposal.GetHash proposal))).

(** UniValue getnextsuperblock(const JSONRPCRequest& request) *)
Definition getnextsuperblock (request : JSONRPCRequest) : M S UniValue :=
  throw_if (fHelp request || negb (Nat.eqb (List.length (params request)) 0))
           (runtime_error (usage node "getnextsuperblock")) ;;;
  let nChainHeight := chainActive_Height node in
  if nChainHeight <? 0 then ret (VSTR "unknown")
  else
    let nBlocksPerCycle := nBudgetCycleBlocks node in
    let nNext := nextCycleStart nChainHeight nBlocksPerCycle in
    ret (VNUM nNext).

(** void budgetToJSON(const CBudgetProposal* pbudgetProposal,
    UniValue& bObj, int nCurrentHeight) *)
Definition budgetToJSON (p : CBudgetProposal.t)
    (bObj : list (string * UniValue)) (nCurrentHeight : Z)
  : list (string * UniValue) :=
  let address1 := ExtractDestination node (CBudgetProposal.GetPayee p) in
  let bObj := pushKV bObj "Name" (VSTR (CBudgetProposal.GetName p)) in
  let bObj := pushKV bObj "URL" (VSTR (CBudgetProposal.GetURL p)) in
  let bObj := pushKV bObj "Hash"
                (VSTR (ToString node (CBudgetProposal.GetHash p))) in
  let bObj := pushKV bObj "FeeHash"
                (VSTR (ToString node (CBudgetProposal.GetFeeTXHash p))) in
  let bObj := pushKV bObj "BlockStart"
                (VNUM (CBudgetProposal.GetBlockStart p)) in
  let bObj := pushKV bObj "BlockEnd" (VNUM (CBudgetProposal.GetBlockEnd p)) in
  let bObj := pushKV bObj "TotalPaymentCount"
                (VNUM (CBudgetProposal.GetTotalPaymentCount p)) in
  let bObj := pushKV bObj "RemainingPaymentCount"
                (VNUM (CBudgetProposal.GetRemainingPaymentCount p
                         nCurrentHeight)) in
  let bObj := pushKV bObj "PaymentAddress"
                (VSTR (EncodeDestination node address1)) in
  let bObj := pushKV bObj "Ratio" (VREAL (CBudgetProposal.GetRatio p)) in
  let bObj := pushKV bObj "Yeas" (VNUM (CBudgetProposal.GetYeas p)) in
  let bObj := pushKV bObj "Nays" (VNUM (CBudgetProposal.GetNays p)) in
  let bObj := pushKV bObj "Abstains" (VNUM (CBudgetProposal.GetAbstains p)) in
  let bObj := pushKV bObj "TotalPayment"
                (ValueFromAmount node
                   (wrap64 (CBudgetProposal.GetAmount p
                            * CBudgetProposal.GetTotalPaymentCount p))) in
  let bObj := pushKV bObj "MonthlyPayment"
                (ValueFromAmount node (CBudgetProposal.GetAmount p)) in
  let bObj := pushKV bObj "IsEstablished"
                (VBOOL (CBudgetProposal.IsEstablished p)) in
  let fValid := CBudgetProposal.IsValid p in
  let bObj := pushKV bObj "IsValid" (VBOOL fValid) in
  let bObj := if negb fValid
              then pushKV bObj "IsInvalidReason"
                     (VSTR (CBudgetProposal.IsInvalidReason p))
              else bObj in
  pushKV bObj "Allotted" (ValueFromAmount node (CBudgetProposal.GetAllotted p)).

(** The loop of [getbudgetinfo] over all proposals:
    for (p : winningProps) { if (!p->IsValid()) continue; ... push_back } *)
Fixpoint getbudgetinfo_loop (winningProps : list CBudgetProposal.t)
    (nCurrentHeight : Z) (ret : list UniValue) : list UniValue :=
  match winningProps with
  | [] => ret
  | pbudgetProposal :: rest =>
    if negb (CBudgetProposal.IsValid pbudgetProposal)
    then getbudgetinfo_loop rest nCurrentHeight ret
    else
      let bObj := budgetToJSON pbudgetProposal [] nCurrentHeight in
      getbudgetinfo_loop rest nCurrentHeight (ret ++ [VOBJ bObj])
  end.

(** UniValue getbudgetinfo(const JSONRPCRequest& request) *)
Definition getbudgetinfo (request : JSONRPCRequest) : M S UniValue :=
  throw_if (fHelp request || Nat.ltb 1 (List.length (params request)))
           (runtime_error (usage node "getbudgetinfo")) ;;;
  let ret0 : list UniValue := [] in
  nCurrentHeight <- gets (GetBestHeight g_budgetman) ;;
  if Nat.eqb (List.length (params request)) 1 then
    p0 <- lift (get_str (idx (params request) 0)) ;;
    let strProposalName := SanitizeString node p0 in
    found <- gets (fun s => FindProposalByName g_budgetman s strProposalName) ;;
    match found with
    | None => throw (runtime_error "Unknown proposal name")
    | Some pbudgetProposal =>
      let bObj := budgetToJSON pbudgetProposal [] nCurrentHeight in
      ret (VARR (ret0 ++ [VOBJ bObj]))
    end
  else
    winningProps <- gets (GetAllProposalsOrdered g_budgetman) ;;
    ret (VARR (getbudgetinfo_loop winningProps nCurrentHeight ret0)).

(** UniValue gmbudgetrawvote(const JSONRPCRequest& request) *)
Definition gmbudgetrawvote (request : JSONRPCRequest) : M S UniValue :=
  throw_if (fHelp request || negb (Nat.eqb (List.length (params request)) 6))
           (runtime_error (usage node "gmbudgetrawvote")) ;;;
  hashGmTx <- lift (ParseHashV node (idx (params request) 0) "gm tx hash") ;;
  nGmTxIndex <- lift (get_int (idx (params request) 1)) ;;
  let vin := {| prevout := {| prevout_hash := hashGmTx;
                              prevout_n := nGmTxIndex |} |} in
  hashProposal <-
    lift (ParseHashV node (idx (params request) 2) "Proposal hash") ;;
  p3 <- lift (get_str (idx (params request) 3)) ;;
  nVote <- lift (parseVote p3) ;;
  nTime <- lift (get_int64 (idx (params request) 4)) ;;
  strSig <- lift (get_str (idx (params request) 5)) ;;
  let '(vchSig, fInvalid) := DecodeBase64 node strSig in
  throw_if fInvalid
    (JSONRPCError RPC_INVALID_ADDRESS_OR_KEY "Malformed base64 encoding") ;;;
  match gamemasterman_Find node (prevout vin) with
  | None =>
    ret (VSTR ("Failure to find gamemaster in list : "
               ++ CTxIn_ToString node vin))
  | Some pgm =>
    let vote := CBudgetVote.new vin hashProposal nVote in
    let vote := CBudgetVote.SetTime vote nTime in
    let vote := CBudgetVote.SetVchSig vote vchSig in
    if negb (CheckSignature node vote (pubKeyGamemaster_GetID pgm))
    then ret (VSTR "Failure to verify signature.")
    else
      processed <- call (ProcessProposalVote g_budgetman vote) ;;
      let '(fOk, state) := processed in
      if fOk then ret (VSTR "Voted successfully")
      else ret (VSTR ("Error voting : " ++ GetRejectReason state ++ ". "
                      ++ GetDebugMessage state))
  end.

(** [acc += (acc.empty() ? "" : ", ") + h.ToString()] *)
Definition append_hash (acc : string) (h : uint256) : string :=
  acc ++ ((if empty acc then "" else ", ") ++ ToString node h).

(** One iteration of the loop of [GetFinalizedBudgetStatus]; the pair is
    (retBadHashes, retBadPayeeOrAmount). *)
Definition status_body (fb : CFinalizedBudget.t) (nBlockHeight : Z)
    (acc : string * string) : M S (string * string) :=
  let '(retBadHashes, retBadPayeeOrAmount) := acc in
  match CFinalizedBudget.GetBudgetPaymentByBlock fb nBlockHeight with
  | None => ret acc   (* logged, then continue *)
  | Some budgetPayment =>
    found <- gets (fun s => GetProposal g_budgetman s
                              (nProposalHash budgetPayment)) ;;
    match found with
    | None =>
      ret (append_hash retBadHashes (nProposalHash budgetPayment),
           retBadPayeeOrAmount)
    | Some bp =>
      if str_ne (CBudgetProposal.GetPayee bp) (payee budgetPayment)
         || negb (CBudgetProposal.GetAmount bp =? nAmount budgetPayment)
      then ret (retBadHashes,
                append_hash retBadPayeeOrAmount (nProposalHash budgetPayment))
      else ret acc
    end
  end.

(** for (int h = nBlockHeight; h <= nBlockEnd; h++) body, with [count] the
    number of iterations left. *)
Fixpoint status_loop (fb : CFinalizedBudget.t) (count : nat)
    (nBlockHeight : Z) (acc : string * string) : M S (string * string) :=
  match count with
  | O => ret acc
  | Datatypes.S count' =>
    acc' <- status_body fb nBlockHeight acc ;;
    status_loop fb count' (nBlockHeight + 1) acc'
  end.

(** Number of iterations of [for (h = nBlockStart; h <= nBlockEnd; h++)].
    This is the loop for [int] heights with [nBlockEnd] below [INT_MAX]; at
    [nBlockEnd = INT_MAX] the condition of the C++ loop never fails and
    its increment overflows, which the count does not follow. *)
Definition iterations (nBlockStart nBlockEnd : Z) : nat :=
  Z.to_nat (nBlockEnd + 1 - nBlockStart).

(** static std::string GetFinalizedBudgetStatus(CFinalizedBudget* fb) *)
Definition GetFinalizedBudgetStatus (fb : CFinalizedBudget.t) : M S string :=
  let nBlockStart := CFinalizedBudget.GetBlockStart fb in
  let nBlockEnd := CFinalizedBudget.GetBlockEnd fb in
  acc <- status_loop fb (iterations nBlockStart nBlockEnd) nBlockStart
           ("", "") ;;
  let '(retBadHashes, retBadPayeeOrAmount) := acc in
  if empty retBadHashes && String.eqb retBadPayeeOrAmount "" then ret "OK"
  else
    let retBadHashes :=
      if negb (empty retBadHashes)
      then "Unknown proposal(s) hash! Check this proposal(s) before voting: "
           ++ retBadHashes
      else retBadHashes in
    let retBadPayeeOrAmount :=
      if negb (empty retBadPayeeOrAmount)
      then "Budget payee/nAmount doesn't match our proposal(s)! "
           ++ retBadPayeeOrAmount
      else retBadPayeeOrAmount in
    ret (retBadHashes ++ " -- " ++ retBadPayeeOrAmount).

(** The [show] branch of [gmfinalbudget]: one entry per stored finalized
    budget, with its status. *)
Fixpoint show_loop (winningFbs : list CFinalizedBudget.t)
    (resultObj : list (string * UniValue)) : M S (list (string * UniValue)) :=
  match winningFbs with
  | [] => ret resultObj
  | finalizedBudget :: rest =>
    let nHash := CFinalizedBudget.GetHash finalizedBudget in
    let bObj : list (string * UniValue) := [] in
    let bObj := pushKV bObj "FeeTX"
        (VSTR (ToString node (CFinalizedBudget.GetFeeTXHash finalizedBudget))) in
    let bObj := pushKV bObj "BlockStart"
        (VNUM (CFinalizedBudget.GetBlockStart finalizedBudget)) in
    let bObj := pushKV bObj "BlockEnd"
        (VNUM (CFinalizedBudget.GetBlockEnd finalizedBudget)) in
    let bObj := pushKV bObj "Proposals"
        (VSTR (CFinalizedBudget.GetProposalsStr finalizedBudget)) in
    let bObj := pushKV bObj "VoteCount"
        (VNUM (CFinalizedBudget.GetVoteCount finalizedBudget)) in
    status <- GetFinalizedBudgetStatus finalizedBudget ;;
    let bObj := pushKV bObj "Status" (VSTR status) in
    let fValid := CFinalizedBudget.IsValid finalizedBudget in
    let bObj := pushKV bObj "IsValid" (VBOOL fValid) in
    let bObj := if negb fValid
                then pushKV bObj "IsInvalidReason"
                       (VSTR (CFinalizedBudget.IsInvalidReason finalizedBudget))
                else bObj in
    let strName := CFinalizedBudget.GetName finalizedBudget ++ " ("
                   ++ ToString node nHash ++ ")" in
    show_loop rest (pushKV resultObj strName (VOBJ bObj))
  end.

Definition gmfinalbudget_show : M S UniValue :=
  winningFbs <- gets (GetFinalizedBudgets g_budgetman) ;;
  resultObj <- show_loop winningFbs [] ;;
  ret (VOBJ resultObj).

End Commands.

(* ------------------------------------------------------------------ *)
(** ** Reading the checks of [checkBudgetInputs] off a request *)

Section Checks.
Context {S : Type} (node : Node) (g_budgetman : BudgetManager S).

(** Each predicate says that the corresponding argument has the expected
    JSON type and passes the check made on it. *)
Definition name_ok (params : list UniValue) : Prop :=
  exists s, get_str (idx params 0) = Ok s
            /\ (String.length (SanitizeString node s) <= 20)%nat.

Definition url_ok (params : list UniValue) : Prop :=
  exists s, get_str (idx params 1) = Ok s
            /\ fst (validateURL node (SanitizeString node s)) = true.

Definition count_ok (params : list UniValue) : Prop :=
  exists c, get_int (idx params 2) = Ok c
            /\ 1 <= c <= nMaxProposalPayments node.

Definition address_ok (params : list UniValue) : Prop :=
  exists s, get_str (idx params 4) = Ok s
            /\ IsValidDestination node (DecodeDestination node s) = true.

(** The requested start is below the next cycle boundary after height [h],
    or is not a multiple of the cycle length. *)
Definition bad_start (h start : Z) : Prop :=
  let c := nBudgetCycleBlocks node in
  start < h - h mod c + c \/ ~ (c | start).

Definition amount_in_bounds (st : S) (start amount : Z) : Prop :=
  10 * COIN node <= amount <= GetTotalBudget g_budgetman st start.

(** The chain tip is known and the requested start passes the check made
    on it, as the code computes it. *)
Definition start_ok (params : list UniValue) : Prop :=
  exists h start,
    GetChainTip node = Some h
    /\ get_int (idx params 3) = Ok start
    /\ nextCycleStart h (nBudgetCycleBlocks node) <= start
    /\ int_rem start (nBudgetCycleBlocks node) = 0.

Definition amount_ok (st : S) (params : list UniValue) : Prop :=
  exists start a,
    get_int (idx params 3) = Ok start
    /\ AmountFromValue node (idx params 5) = Ok a
    /\ amount_in_bounds st start a.

(** The reading of the amount rule under which every amount above zero and
    at most the cycle's total budget is accepted, the other arguments being
    fine. *)
Definition accepts_amounts_above_zero (st : S) (params : list UniValue)
  : Prop :=
  forall start a,
    name_ok params -> url_ok params -> count_ok params -> start_ok params ->
    address_ok params ->
    get_int (idx params 3) = Ok start ->
    AmountFromValue node (idx params 5) = Ok a ->
    0 < a <= GetTotalBudget g_budgetman st start ->
    exists inp, result (checkBudgetInputs node g_budgetman params) st = Ok inp.

End Checks.

(* ------------------------------------------------------------------ *)
(** ** What a finalized budget's status reports, stated over heights *)

Section StatusSpec.
Context {S : Type} (node : Node) (g_budgetman : BudgetManager S).

(** The [count] heights from, from+1, ... *)
Definition heights_from (from : Z) (count : nat) : list Z :=
  map (fun i => from + Z.of_nat i) (seq 0 count).

(** The heights start, start+1, ..., end (both included). *)
Definition closed_range (nBlockStart nBlockEnd : Z) : list Z :=
  heights_from nBlockStart (Z.to_nat (nBlockEnd + 1 - nBlockStart)).










End StatusSpec.

(* ------------------------------------------------------------------ *)
(** ** A test bench: an in-memory budget manager and a regtest-like node *)

Module Bench.

Record Store : Type :=
  { mapProposals : list CBudgetProposal.t;
    mapFinalizedBudgets : list CFinalizedBudget.t;
    mapSeenProposalVotes : list CBudgetVote.t }.

Definition find_proposal (h : uint256) (l : list CBudgetProposal.t)
  : option CBudgetProposal.t :=
  find (fun p => CBudgetProposal.GetHash p =? h) l.

Definition manager : BudgetManager Store :=
  {| GetTotalBudget := fun _ _ => 648000 * 100000000;
     GetBestHeight := fun _ => 900;
     GetProposal := fun s h => find_proposal h (mapProposals s);
     FindProposalByName := fun s name =>
       find (fun p => String.eqb (CBudgetProposal.GetName p) name)
            (mapProposals s);
     GetAllProposalsOrdered := mapProposals;
     GetFinalizedBudgets := mapFinalizedBudgets;
     AddProposal := fun p s =>
       match find_proposal (CBudgetProposal.GetHash p) (mapProposals s) with
       | Some _ => ((false, p), s)
       | None =>
         ((true, p),
          {| mapProposals := mapProposals s ++ [p];
             mapFinalizedBudgets := mapFinalizedBudgets s;
             mapSeenProposalVotes := mapSeenProposalVotes s |})
       end;
     ProcessProposalVote := fun v s =>
       match find_proposal (CBudgetVote.nProposalHash v) (mapProposals s) with
       | None =>
         ((false, {| GetRejectReason := "unknown proposal";
                     GetDebugMessage := "" |}), s)
       | Some _ =>
         ((true, {| GetRejectReason := ""; GetDebugMessage := "" |}),
          {| mapProposals := mapProposals s;
             mapFinalizedBudgets := mapFinalizedBudgets s;
             mapSeenProposalVotes := mapSeenProposalVotes s ++ [v] |})
       end |}.

Definition proposal (name : string) (h : uint256) (script : CScript)
    (amount : CAmount) (start : Z) (count : Z) (valid : bool)
  : CBudgetProposal.t :=
  {| CBudgetProposal.GetName := name;
     CBudgetProposal.GetURL := "https://forum.hemis.org/t/" ++ name;
     CBudgetProposal.GetHash := h;
     CBudgetProposal.GetFeeTXHash := h + 1;
     CBudgetProposal.GetBlockStart := start;
     CBudgetProposal.GetBlockEnd := start + 43200 * count;
     CBudgetProposal.GetTotalPaymentCount := count;
     CBudgetProposal.GetRemainingPaymentCount := fun _ => count;
     CBudgetProposal.GetPayee := script;
     CBudgetProposal.GetRatio := 0;
     CBudgetProposal.GetYeas := 0;
     CBudgetProposal.GetNays := 0;
     CBudgetProposal.GetAbstains := 0;
     CBudgetProposal.GetAmount := amount;
     CBudgetProposal.IsEstablished := valid;
     CBudgetProposal.IsValid := valid;
     CBudgetProposal.IsInvalidReason :=
       if valid then "" else "Proposal is not established";
     CBudgetProposal.GetAllotted := 0 |}.

Definition node_at (tip : Z) : Node :=
  {| SanitizeString := fun s => s;
     validateURL := fun s =>
       if Nat.ltb 64 (String.length s)
       then (false, "Invalid URL, 65 characters or more")
       else (true, "");
     nMaxProposalPayments := 12;
     nBudgetCycleBlocks := 43200;
     GetChainTip := Some tip;
     chainActive_Height := tip;
     DecodeDestination := fun s =>
       if empty s then CNoDestination else CKeyDestination 1;
     IsValidDestination := fun d =>
       match d with CNoDestination => false | _ => true end;
     ExtractDestination := fun _ => CKeyDestination 1;
     EncodeDestination := fun _ => "D9oc6C3dttUbv8zd7zGNq1qKBGf4ZQ1XEE";
     GetScriptForDestination := fun _ => "X";
     COIN := 100000000;
     CURRENCY_UNIT := "HMS";
     FormatMoney := itostr;
     AmountFromValue := fun v =>
       match v with
       | VNUM a => Ok a
       | _ => Throw (JSONRPCError RPC_INVALID_PARAMETER "Invalid amount")
       end;
     ValueFromAmount := VNUM;
     ParseHashV := fun v strName =>
       match v with
       | VSTR s => Ok (HexString.to_Z s)
       | _ => Throw (JSONRPCError RPC_INVALID_PARAMETER
                       (strName ++ " must be hexadecimal string"))
       end;
     ToString := HexString.of_Z;
     IsBlockchainSynced := true;
     DecodeBase64 := fun s => (list_byte_of_string s, false);
     gamemasterman_Find := fun o =>
       if prevout_hash o =? 7
       then Some {| pubKeyGamemaster_GetID := 1 |} else None;
     CheckSignature := fun v _ =>
       match CBudgetVote.vchSig v with [] => false | _ :: _ => true end;
     CTxIn_ToString := fun i => HexString.of_Z (prevout_hash (prevout i));
     CBudgetProposal_new := fun name url count script amount start fee =>
       proposal name fee script amount start count true;
     usage := fun name => name |}.

(** The node with its chain tip at height 900. *)
Definition node : Node := node_at 900.

(** A well-formed [submitbudget] request on [node]. *)
Definition request (name : string) (count start amount : Z) : JSONRPCRequest :=
  {| fHelp := false;
     params := [VSTR name; VSTR "https://forum.hemis.org/t/test-proposal";
                VNUM count; VNUM start;
                VSTR "D9oc6C3dttUbv8zd7zGNq1qKBGf4ZQ1XEE"; VNUM amount;
                VSTR "0x2a"] |}.

(** A raw vote for proposal 0x2a by the gamemaster with the given
    collateral. *)
Definition rawvote (collat : string) (sig : string) : JSONRPCRequest :=
  {| fHelp := false;
     params := [VSTR collat; VNUM 0; VSTR "0x2a"; VSTR "yes"; VNUM 100;
                VSTR sig] |}.

(** Proposal 0x2a pays 500 to script Y. *)
Definition store : Store :=
  {| mapProposals :=
       [proposal "alpha" 42 "Y" 500 43200 2 true;
        proposal "beta" 43 "Z" 700 43200 1 false];
     mapFinalizedBudgets := [];
     mapSeenProposalVotes := [] |}.

Definition budget (nBlockStart nBlockEnd : Z)
    (payments : Z -> option CTxBudgetPayment) : CFinalizedBudget.t :=
  {| CFinalizedBudget.GetName := "main";
     CFinalizedBudget.GetHash := 99;
     CFinalizedBudget.GetFeeTXHash := 98;
     CFinalizedBudget.GetBlockStart := nBlockStart;
     CFinalizedBudget.GetBlockEnd := nBlockEnd;
     CFinalizedBudget.GetBudgetPaymentByBlock := payments;
     CFinalizedBudget.GetProposalsStr := "";
     CFinalizedBudget.GetVoteCount := 0;
     CFinalizedBudget.GetVotes := [];
     CFinalizedBudget.IsValid := true;
     CFinalizedBudget.IsInvalidReason := "" |}.

(** Scenario D: the budget pays 500 to script X for proposal 0x2a, which is
    known with payee Y. *)
Definition budget_mismatch : CFinalizedBudget.t :=
  budget 43200 43201
    (fun h => if h =? 43200
              then Some {| nProposalHash := 42; payee := "X"; nAmount := 500 |}
              else None).

Definition store_with (fb : CFinalizedBudget.t) : Store :=
  {| mapProposals := mapProposals store;
     mapFinalizedBudgets := [fb];
     mapSeenProposalVotes := [] |}.

(** A budget manager that only records, in order, the votes handed to
    [ProcessProposalVote]. *)
Definition recorder : BudgetManager (list CBudgetVote.t) :=
  {| GetTotalBudget := fun _ _ => 0;
     GetBestHeight := fun _ => 0;
     GetProposal := fun _ _ => None;
     FindProposalByName := fun _ _ => None;
     GetAllProposalsOrdered := fun _ => [];
     GetFinalizedBudgets := fun _ => [];
     AddProposal := fun p log => ((false, p), log);
     ProcessProposalVote := fun v (log : list CBudgetVote.t) =>
       ((true, {| GetRejectReason := ""; GetDebugMessage := "" |}),
        (log ++ [v])%list) |}.

End Bench.


(* ------------------------------------------------------------------ *)
(** ** The rest of the RPC surface *)

Definition get_bool (v : UniValue) : Outcome bool :=
  match v with
  | VBOOL b => Ok b
  | _ => Throw (runtime_error "JSON value is not a boolean as expected")
  end.

Definition get_array (v : UniValue) : Outcome (list UniValue) :=
  match v with
  | VARR items => Ok items
  | _ => Throw (runtime_error "JSON value is not an array as expected")
  end.

(** [get_obj] hands back the value itself once it is known to be an
    object. *)
Definition get_obj (v : UniValue) : Outcome UniValue :=
  match v with
  | VOBJ _ => Ok v
  | _ => Throw (runtime_error "JSON value is not an object as expected")
  end.

Fixpoint find_key (entries : list (string * UniValue)) (name : string)
  : UniValue :=
  match entries with
  | [] => VNULL
  | (k, v) :: rest => if String.eqb k name then v else find_key rest name
  end.

(** [find_value(obj, name)]: the first value under [name], else null. *)
Definition find_value (obj : UniValue) (name : string) : UniValue :=
  match obj with
  | VOBJ entries => find_key entries name
  | _ => VNULL
  end.

Definition UINT256_ZERO : uint256 := 0.
Definition IsNull (h : uint256) : bool := h =? 0.

(** The double quote character of the C++ literals. *)
Definition dquote : string :=
  String (Ascii false true false false false true false false) EmptyString.

(** A wallet is referred to by its index in [vpwallets]; a [CWallet*] may
    be null. *)
Definition CWallet : Type := nat.
Definition vpwallets_0 : option CWallet := Some 0%nat.

Record CTransactionRef : Type := { tx_GetHash : uint256 }.

Inductive CommitStatus : Type :=
| CommitOK
| CommitAbandoned
| CommitNotAccepted.

Record CommitResult : Type :=
  { status : CommitStatus; CommitResult_ToString : string }.

Definition is_CommitOK (s : CommitStatus) : bool :=
  match s with CommitOK => true | _ => false end.

Record CFinalizedBudgetVote : Type :=
  { fbv_vin : CTxIn;
    fbv_nBudgetHash : uint256;
    fbv_nTime : Z;
    fbv_vchSig : list Byte.byte }.

(** What the remaining commands use beyond [Node] and [BudgetManager]:
    further members of the budget manager, the sync state, the wallet,
    and a few codecs.  A field of type
    [S -> A] reads the state, one of type [S -> S], [S -> A * S] or [M S A]
    may change it. *)
Record Services (S : Type) : Type :=
  { GetBudget : S -> list CBudgetProposal.t;
    FindFinalizedBudget : S -> uint256 -> option CFinalizedBudget.t;
    AddFinalizedBudget :
      CFinalizedBudget.t -> S -> (bool * CFinalizedBudget.t) * S;
    SubmitFinalBudget : S -> uint256 * S;
    CheckAndRemove : S -> S;
    Clear : S -> S;
    IsSynced : S -> bool;
    ClearFulfilledRequest : S -> S;
    Reset : S -> S;
    IsRegTestNet : bool;
    IsDIP3Enforced : bool;
    GetWalletForJSONRPCRequest : JSONRPCRequest -> S -> option CWallet;
    EnsureWalletIsAvailable : option CWallet -> bool -> Outcome bool;
    EnsureWalletIsUnlocked : option CWallet -> S -> Outcome unit;
    (** pwallet->CreateBudgetFeeTX(wtx, hash, keyChange, fee): the
        transaction when the call returns true *)
    CreateBudgetFeeTX :
      option CWallet -> uint256 -> CAmount -> S -> option CTransactionRef * S;
    CommitTransaction :
      option CWallet -> CTransactionRef -> S -> CommitResult * S;
    BUDGET_FEE_TX : CAmount;
    (** the gettext macro [_] *)
    translate : string -> string;
    ParseHashO : UniValue -> string -> Outcome uint256;
    ParseHexO : UniValue -> string -> Outcome (list Byte.byte);
    (** the constructor CFinalizedBudget(name, blockStart, payments,
        feeTxHash) *)
    CFinalizedBudget_new :
      string -> Z -> list CTxBudgetPayment -> uint256 -> CFinalizedBudget.t;
    (** pbudgetProposal->GetVotes() and pfinalBudget->GetVotes(), in map
        order *)
    Proposal_GetVotes : CBudgetProposal.t -> list (COutPoint * CBudgetVote.t);
    FinalizedBudget_GetVotes :
      CFinalizedBudget.t -> list (COutPoint * CFinalizedBudgetVote);
    CBudgetVote_ToJSON : CBudgetVote.t -> UniValue;
    CFinalizedBudgetVote_ToJSON : CFinalizedBudgetVote -> UniValue;
    ToStringShort : COutPoint -> string }.
Arguments GetBudget {S}.
Arguments FindFinalizedBudget {S}.
Arguments AddFinalizedBudget {S}.
Arguments SubmitFinalBudget {S}.
Arguments CheckAndRemove {S}.
Arguments Clear {S}.
Arguments IsSynced {S}.
Arguments ClearFulfilledRequest {S}.
Arguments Reset {S}.
Arguments IsRegTestNet {S}.
Arguments IsDIP3Enforced {S}.
Arguments GetWalletForJSONRPCRequest {S}.
Arguments EnsureWalletIsAvailable {S}.
Arguments EnsureWalletIsUnlocked {S}.
Arguments CreateBudgetFeeTX {S}.
Arguments CommitTransaction {S}.
Arguments BUDGET_FEE_TX {S}.
Arguments translate {S}.
Arguments ParseHashO {S}.
Arguments ParseHexO {S}.
Arguments CFinalizedBudget_new {S}.
Arguments Proposal_GetVotes {S}.
Arguments FinalizedBudget_GetVotes {S}.
Arguments CBudgetVote_ToJSON {S}.
Arguments CFinalizedBudgetVote_ToJSON {S}.
Arguments ToStringShort {S}.

(** The vote casting helpers of budgetutil. *)
Record Voting (S : Type) : Type :=
  { (** gmLocalBudgetVoteInner(fLegacyGM, budgetHash, fFinal, nVote) *)
    gmLocalBudgetVoteInner :
      bool -> uint256 -> bool -> CBudgetVote.VoteDirection -> M S UniValue;
    (** gmBudgetVoteInner(pwallet, fLegacyGM, budgetHash, fFinal, nVote,
        gmAliasFilter) *)
    gmBudgetVoteInner :
      option CWallet -> bool -> uint256 -> bool ->
      CBudgetVote.VoteDirection -> option string -> M S UniValue }.
Arguments gmLocalBudgetVoteInner {S}.
Arguments gmBudgetVoteInner {S}.

(** A member function that updates the state and returns nothing. *)
Definition modify {S} (f : S -> S) : M S unit := fun s => (Ok tt, f s).
(** A function that reads the state and may throw. *)
Definition try_gets {S A} (f : S -> Outcome A) : M S A := fun s => (f s, s).

Definition err_regtest_only : Exn :=
  JSONRPCError RPC_MISC_ERROR "command available only for RegTest network".
Definition err_not_synced : Exn :=
  JSONRPCError RPC_CLIENT_IN_INITIAL_DOWNLOAD
    "Gamemaster/Budget sync not finished yet".
Definition err_unknown_proposal : Exn := runtime_error "Unknown proposal name".

Section MoreCommands.
Context {S : Type} (node : Node) (g_budgetman : BudgetManager S)
        (svc : Services S).

(** The loop of [getbudgetprojection]; [nTotalAllotted] is a CAmount. *)
Fixpoint getbudgetprojection_loop (winningProps : list CBudgetProposal.t)
    (nTotalAllotted : CAmount) (ret_ : list UniValue) : M S (list UniValue) :=
  match winningProps with
  | [] => ret ret_
  | p :: rest =>
    let bObj : list (string * UniValue) := [] in
    nCurrentHeight <- gets (GetBestHeight g_budgetman) ;;
    let bObj := budgetToJSON node p bObj nCurrentHeight in
    let nTotalAllotted :=
      wrap64 (nTotalAllotted + CBudgetProposal.GetAllotted p) in
    let bObj := pushKV bObj "TotalBudgetAllotted"
                  (ValueFromAmount node nTotalAllotted) in
    getbudgetprojection_loop rest nTotalAllotted (ret_ ++ [VOBJ bObj])
  end.

(** UniValue getbudgetprojection(const JSONRPCRequest& request) *)
Definition getbudgetprojection (request : JSONRPCRequest) : M S UniValue :=
  throw_if (fHelp request || negb (Nat.eqb (List.length (params request)) 0))
           (runtime_error (usage node "getbudgetprojection")) ;;;
  let nTotalAllotted : CAmount := 0 in
  winningProps <- gets (GetBudget svc) ;;
  out <- getbudgetprojection_loop winningProps nTotalAllotted [] ;;
  ret (VARR out).

(** for (const auto& it : votes) ret.push_back(it.second.ToJSON()) *)
Fixpoint getbudgetvotes_loop (votes : list (COutPoint * CBudgetVote.t))
    (ret_ : list UniValue) : list UniValue :=
  match votes with
  | [] => ret_
  | it :: rest =>
    getbudgetvotes_loop rest (ret_ ++ [CBudgetVote_ToJSON svc (snd it)])
  end.

(** UniValue getbudgetvotes(const JSONRPCRequest& request) *)
Definition getbudgetvotes (request : JSONRPCRequest) : M S UniValue :=
  throw_if (negb (Nat.eqb (List.length (params request)) 1))
           (runtime_error (usage node "getbudgetvotes")) ;;;
  p0 <- lift (get_str (idx (params request) 0)) ;;
  let strProposalName := SanitizeString node p0 in
  found <- gets (fun s => FindProposalByName g_budgetman s strProposalName) ;;
  match found with
  | None => throw err_unknown_proposal
  | Some pbudgetProposal =>
    ret (VARR (getbudgetvotes_loop
                 (Proposal_GetVotes svc pbudgetProposal) []))
  end.

(** UniValue checkbudgets(const JSONRPCRequest& request) *)
Definition checkbudgets (request : JSONRPCRequest) : M S UniValue :=
  throw_if (fHelp request || negb (Nat.eqb (List.length (params request)) 0))
           (runtime_error (usage node "checkbudgets")) ;;;
  synced <- gets (IsSynced svc) ;;
  throw_if (negb synced) err_not_synced ;;;
  modify (CheckAndRemove svc) ;;;
  ret VNULL.

(** UniValue cleanbudget(const JSONRPCRequest& request); the two log
    lines are left out. *)
Definition cleanbudget (request : JSONRPCRequest) : M S UniValue :=
  throw_if (fHelp request || Nat.ltb 1 (List.length (params request)))
           (runtime_error (usage node "cleanbudget")) ;;;
  modify (Clear svc) ;;;
  (* reset sync if requested *)
  reset <- (if Nat.ltb 0 (List.length (params request))
            then lift (get_bool (idx (params request) 0))
            else ret false) ;;
  if reset then
    modify (ClearFulfilledRequest svc) ;;;
    modify (Reset svc) ;;;
    ret VNULL
  else ret VNULL.

(** UniValue gmfinalbudgetsuggest(const JSONRPCRequest& request) *)
Definition gmfinalbudgetsuggest (request : JSONRPCRequest) : M S UniValue :=
  throw_if (fHelp request || negb (Nat.eqb (List.length (params request)) 0))
           (runtime_error (usage node "gmfinalbudgetsuggest")) ;;;
  throw_if (negb (IsRegTestNet svc)) err_regtest_only ;;;
  budgetHash <- call (SubmitFinalBudget svc) ;;
  ret (if IsNull budgetHash then VNULL
       else VSTR (ToString node budgetHash)).

End MoreCommands.

Definition err_local_vote_with_DGMs {S} (svc : Services S) : Exn :=
  JSONRPCError RPC_MISC_ERROR
    (translate svc
       (dquote ++ "local" ++ dquote
        ++ " vote is no longer available with DGMs. Use "
        ++ dquote ++ "alias" ++ dquote
        ++ " from the wallet with the voting key.")).

Definition err_finalbudget_vote_usage (strCommand : string) : Exn :=
  runtime_error ("Correct usage is 'gmfinalbudget " ++ strCommand
                 ++ " BUDGET_HASH (fLegacy)'").
Definition err_getvotes_usage : Exn :=
  runtime_error "Correct usage is 'gmbudget getvotes budget-hash'".

(** Backwards compatibility with the legacy [gmbudget] command. *)
Definition legacy_command (strCommand : string) : string :=
  let strCommand :=
    if String.eqb strCommand "vote" then "local" else strCommand in
  let strCommand :=
    if String.eqb strCommand "vote-many" then "many" else strCommand in
  let strCommand :=
    if String.eqb strCommand "vote-alias" then "alias" else strCommand in
  strCommand.

Section VoteCommands.
Context {S : Type} (node : Node) (g_budgetman : BudgetManager S)
        (svc : Services S) (voting : Voting S).

(** !deterministicGMManager->IsDIP3Enforced()
    || (request.params.size() > i && request.params[i].get_bool()) *)
Definition legacy_flag (request : JSONRPCRequest) (i : nat) : M S bool :=
  if negb (IsDIP3Enforced svc) then ret true
  else if Nat.ltb i (List.length (params request))
       then lift (get_bool (idx (params request) i))
       else ret false.

(** UniValue gmbudgetvote(const JSONRPCRequest& request) *)
Definition gmbudgetvote (request : JSONRPCRequest) : M S UniValue :=
  let size := List.length (params request) in
  strCommand <-
    (if Nat.leb 1 size
     then p0 <- lift (get_str (idx (params request) 0)) ;;
          ret (legacy_command p0)
     else ret "") ;;
  pwallet <- gets (GetWalletForJSONRPCRequest svc request) ;;
  throw_if (fHelp request
            || (Nat.eqb size 3
                && (str_ne strCommand "local" && str_ne strCommand "many"))
            || (Nat.eqb size 4 && str_ne strCommand "alias")
            || Nat.ltb 5 size || Nat.ltb size 3)
           (runtime_error (usage node "gmbudgetvote")) ;;;
  hash <- lift (ParseHashV node (idx (params request) 1) "parameter 1") ;;
  p2 <- lift (get_str (idx (params request) 2)) ;;
  nVote <- lift (parseVote p2) ;;
  fLegacyGM <- legacy_flag request 4 ;;
  if String.eqb strCommand "local" then
    throw_if (negb fLegacyGM) (err_local_vote_with_DGMs svc) ;;;
    gmLocalBudgetVoteInner voting true hash false nVote
  else
    let vote_with_wallet : M S UniValue :=
      if String.eqb strCommand "many" then
        gmBudgetVoteInner voting pwallet fLegacyGM hash false nVote None
      else if String.eqb strCommand "alias" then
        p3 <- lift (get_str (idx (params request) 3)) ;;
        gmBudgetVoteInner voting pwallet fLegacyGM hash false nVote (Some p3)
      else ret VNULL in
    (* DGM require wallet with voting key *)
    if negb fLegacyGM then
      available <- lift (EnsureWalletIsAvailable svc pwallet false) ;;
      if negb available then ret VNULL
      else
        try_gets (EnsureWalletIsUnlocked svc pwallet) ;;;
        vote_with_wallet
    else vote_with_wallet.

(** for (const auto& it : votes)
      ret.pushKV(vote.GetVin().prevout.ToStringShort(), vote.ToJSON()) *)
Fixpoint getvotes_loop (votes : list (COutPoint * CFinalizedBudgetVote))
    (ret_ : list (string * UniValue)) : list (string * UniValue) :=
  match votes with
  | [] => ret_
  | it :: rest =>
    let vote := snd it in
    getvotes_loop rest
      (pushKV ret_ (ToStringShort svc (prevout (fbv_vin vote)))
              (CFinalizedBudgetVote_ToJSON svc vote))
  end.

(** UniValue gmfinalbudget(const JSONRPCRequest& request) *)
Definition gmfinalbudget (request : JSONRPCRequest) : M S UniValue :=
  let size := List.length (params request) in
  strCommand <-
    (if Nat.leb 1 size then lift (get_str (idx (params request) 0))
     else ret "") ;;
  pwallet <- gets (GetWalletForJSONRPCRequest svc request) ;;
  throw_if (fHelp request
            || (str_ne strCommand "vote-many" && str_ne strCommand "vote"
                && str_ne strCommand "show" && str_ne strCommand "getvotes"))
           (runtime_error (usage node "gmfinalbudget")) ;;;
  if String.eqb strCommand "vote-many" || String.eqb strCommand "vote" then
    throw_if (Nat.ltb size 2 || Nat.ltb 3 size)
             (err_finalbudget_vote_usage strCommand) ;;;
    hash <- lift (ParseHashV node (idx (params request) 1) "BUDGET_HASH") ;;
    fLegacyGM <- legacy_flag request 2 ;;
    (* DGM require wallet with operator keys for vote-many *)
    unavailable <-
      (if negb fLegacyGM && String.eqb strCommand "vote-many"
       then available <- lift (EnsureWalletIsAvailable svc pwallet false) ;;
            ret (negb available)
       else ret false) ;;
    if unavailable then ret VNULL
    else if String.eqb strCommand "vote-many"
    then gmBudgetVoteInner voting pwallet fLegacyGM hash true
           CBudgetVote.VOTE_YES None
    else gmLocalBudgetVoteInner voting fLegacyGM hash true CBudgetVote.VOTE_YES
  else if String.eqb strCommand "show" then
    gmfinalbudget_show node g_budgetman
  else if String.eqb strCommand "getvotes" then
    throw_if (negb (Nat.eqb size 2)) err_getvotes_usage ;;;
    hash <- lift (ParseHashV node (idx (params request) 1) "budget-hash") ;;
    found <- gets (fun s => FindFinalizedBudget svc s hash) ;;
    match found with
    | None => ret (VSTR "Unknown budget hash")
    | Some pfinalBudget =>
      ret (VOBJ (getvotes_loop (FinalizedBudget_GetVotes svc pfinalBudget) []))
    end
  else ret VNULL.

(** The loop of [createrawgmfinalbudget] over the proposals array. *)
Fixpoint parse_payments (budgetVec : list UniValue)
    (vecTxBudgetPayments : list CTxBudgetPayment)
  : Outcome (list CTxBudgetPayment) :=
  match budgetVec with
  | [] => Ok vecTxBudgetPayments
  | item :: rest =>
    match get_obj item with
    | Throw e => Throw e
    | Ok prop =>
      match ParseHashO svc prop "proposalid" with
      | Throw e => Throw e
      | Ok propId =>
        match ParseHexO svc prop "payee" with
        | Throw e => Throw e
        | Ok scriptData =>
          let payee_ : CScript := string_of_list_byte scriptData in
          match AmountFromValue node (find_value prop "amount") with
          | Throw e => Throw e
          | Ok amount =>
            parse_payments rest
              (vecTxBudgetPayments
               ++ [{| nProposalHash := propId; payee := payee_;
                      nAmount := amount |}])
          end
        end
      end
    end
  end.

(** UniValue createrawgmfinalbudget(const JSONRPCRequest& request) *)
Definition createrawgmfinalbudget (request : JSONRPCRequest) : M S UniValue :=
  let size := List.length (params request) in
  throw_if (fHelp request || Nat.ltb 4 size)
           (runtime_error (usage node "createrawgmfinalbudget")) ;;;
  throw_if (negb (IsRegTestNet svc)) err_regtest_only ;;;
  budName <- lift (get_str (idx (params request) 0)) ;;
  nBlockStart <- lift (get_int (idx (params request) 1)) ;;
  budgetVec <- lift (get_array (idx (params request) 2)) ;;
  vecTxBudgetPayments <- lift (parse_payments budgetVec []) ;;
  txFeeId <-
    (if Nat.ltb 3 size
     then h <- lift (ParseHashV node (idx (params request) 3) "parameter 4") ;;
          ret (Some h)
     else ret None) ;;
  match txFeeId with
  | None =>
    let tempBudget :=
      CFinalizedBudget_new svc budName nBlockStart vecTxBudgetPayments
        UINT256_ZERO in
    let budgetHash := CFinalizedBudget.GetHash tempBudget in
    (* create fee tx *)
    created <- call (CreateBudgetFeeTX svc vpwallets_0 budgetHash
                       (BUDGET_FEE_TX svc)) ;;
    match created with
    | None => throw (runtime_error "Can't make collateral transaction")
    | Some wtx =>
      (* Send the tx to the network *)
      res <- call (CommitTransaction svc vpwallets_0 wtx) ;;
      let ret_ : list (string * UniValue) := [] in
      if is_CommitOK (status res) then
        let ret_ := pushKV ret_ "result" (VSTR "tx_fee_sent") in
        let ret_ := pushKV ret_ "id" (VSTR (ToString node (tx_GetHash wtx))) in
        ret (VOBJ ret_)
      else
        ret (VOBJ (pushKV ret_ "result" (VSTR "error")))
    end
  | Some feeId =>
    let ret_ : list (string * UniValue) := [] in
    (* Collateral tx already exists, see if it's mature enough. *)
    let fb :=
      CFinalizedBudget_new svc budName nBlockStart vecTxBudgetPayments feeId in
    added <- call (AddFinalizedBudget svc fb) ;;
    let '(fAdded, fb) := added in
    if fAdded then
      (* fb.Relay() hands the budget to the network layer *)
      let ret_ := pushKV ret_ "result" (VSTR "fin_budget_sent") in
      let ret_ := pushKV ret_ "id"
                    (VSTR (ToString node (CFinalizedBudget.GetHash fb))) in
      ret (VOBJ ret_)
    else
      ret (VOBJ (pushKV ret_ "result" (VSTR "error")))
  end.

End VoteCommands.

(* ------------------------------------------------------------------ *)
(** ** A second test bench: the whole node state *)

Module Lab.

(** One record per call of a vote casting helper. *)
Record Cast : Type :=
  { cast_local : bool;
    cast_legacy : bool;
    cast_hash : uint256;
    cast_final : bool;
    cast_vote : CBudgetVote.VoteDirection;
    cast_alias : option string }.

Record World : Type :=
  { budget : Bench.Store;
    fSynced : bool;
    walletTxs : list uint256;
    votesCast : list Cast }.

Definition set_budget (w : World) (b : Bench.Store) : World :=
  {| budget := b; fSynced := fSynced w; walletTxs := walletTxs w;
     votesCast := votesCast w |}.

Definition world (b : Bench.Store) (synced : bool) : World :=
  {| budget := b; fSynced := synced; walletTxs := []; votesCast := [] |}.

(** [p] once the budget has allotted [a] to it. *)
Definition allotted (p : CBudgetProposal.t) (a : CAmount)
  : CBudgetProposal.t :=
  {| CBudgetProposal.GetName := CBudgetProposal.GetName p;
     CBudgetProposal.GetURL := CBudgetProposal.GetURL p;
     CBudgetProposal.GetHash := CBudgetProposal.GetHash p;
     CBudgetProposal.GetFeeTXHash := CBudgetProposal.GetFeeTXHash p;
     CBudgetProposal.GetBlockStart := CBudgetProposal.GetBlockStart p;
     CBudgetProposal.GetBlockEnd := CBudgetProposal.GetBlockEnd p;
     CBudgetProposal.GetTotalPaymentCount :=
       CBudgetProposal.GetTotalPaymentCount p;
     CBudgetProposal.GetRemainingPaymentCount :=
       CBudgetProposal.GetRemainingPaymentCount p;
     CBudgetProposal.GetPayee := CBudgetProposal.GetPayee p;
     CBudgetProposal.GetRatio := CBudgetProposal.GetRatio p;
     CBudgetProposal.GetYeas := CBudgetProposal.GetYeas p;
     CBudgetProposal.GetNays := CBudgetProposal.GetNays p;
     CBudgetProposal.GetAbstains := CBudgetProposal.GetAbstains p;
     CBudgetProposal.GetAmount := CBudgetProposal.GetAmount p;
     CBudgetProposal.IsEstablished := CBudgetProposal.IsEstablished p;
     CBudgetProposal.IsValid := CBudgetProposal.IsValid p;
     CBudgetProposal.IsInvalidReason := CBudgetProposal.IsInvalidReason p;
     CBudgetProposal.GetAllotted := a |}.

(** Two valid proposals, allotted 7 and 5, and one that is not valid. *)
Definition funded : Bench.Store :=
  {| Bench.mapProposals :=
       [allotted (Bench.proposal "alpha" 42 "Y" 500 43200 2 true) 7;
        Bench.proposal "beta" 43 "Z" 700 43200 1 false;
        allotted (Bench.proposal "gamma" 44 "W" 300 43200 1 true) 5];
     Bench.mapFinalizedBudgets := [];
     Bench.mapSeenProposalVotes := [] |}.

(** [Bench.manager] acting on the budget part of the world. *)
Definition manager : BudgetManager World :=
  {| GetTotalBudget := fun w => GetTotalBudget Bench.manager (budget w);
     GetBestHeight := fun w => GetBestHeight Bench.manager (budget w);
     GetProposal := fun w => GetProposal Bench.manager (budget w);
     FindProposalByName := fun w =>
       FindProposalByName Bench.manager (budget w);
     GetAllProposalsOrdered := fun w =>
       GetAllProposalsOrdered Bench.manager (budget w);
     GetFinalizedBudgets := fun w =>
       GetFinalizedBudgets Bench.manager (budget w);
     AddProposal := fun p w =>
       let '(r, b) := AddProposal Bench.manager p (budget w) in
       (r, set_budget w b);
     ProcessProposalVote := fun v w =>
       let '(r, b) := ProcessProposalVote Bench.manager v (budget w) in
       (r, set_budget w b) |}.

Definition payment_at (nBlockStart : Z) (payments : list CTxBudgetPayment)
    (h : Z) : option CTxBudgetPayment :=
  if h <? nBlockStart then None
  else nth_error payments (Z.to_nat (h - nBlockStart)).

Definition new_budget (name : string) (nBlockStart : Z)
    (payments : list CTxBudgetPayment) (fee : uint256) : CFinalizedBudget.t :=
  {| CFinalizedBudget.GetName := name;
     CFinalizedBudget.GetHash := fee + 1;
     CFinalizedBudget.GetFeeTXHash := fee;
     CFinalizedBudget.GetBlockStart := nBlockStart;
     CFinalizedBudget.GetBlockEnd :=
       nBlockStart + Z.of_nat (List.length payments) - 1;
     CFinalizedBudget.GetBudgetPaymentByBlock :=
       payment_at nBlockStart payments;
     CFinalizedBudget.GetProposalsStr := "";
     CFinalizedBudget.GetVoteCount := 0;
     CFinalizedBudget.GetVotes := [];
     CFinalizedBudget.IsValid := true;
     CFinalizedBudget.IsInvalidReason := "" |}.

Definition find_budget (h : uint256) (l : list CFinalizedBudget.t)
  : option CFinalizedBudget.t :=
  find (fun fb => CFinalizedBudget.GetHash fb =? h) l.

Definition services (regtest dip3 : bool) : Services World :=
  {| GetBudget := fun w =>
       filter CBudgetProposal.IsValid (Bench.mapProposals (budget w));
     FindFinalizedBudget := fun w h =>
       find_budget h (Bench.mapFinalizedBudgets (budget w));
     AddFinalizedBudget := fun fb w =>
       match find_budget (CFinalizedBudget.GetHash fb)
               (Bench.mapFinalizedBudgets (budget w)) with
       | Some _ => ((false, fb), w)
       | None =>
         ((true, fb),
          set_budget w
            {| Bench.mapProposals := Bench.mapProposals (budget w);
               Bench.mapFinalizedBudgets :=
                 Bench.mapFinalizedBudgets (budget w) ++ [fb];
               Bench.mapSeenProposalVotes :=
                 Bench.mapSeenProposalVotes (budget w) |})
       end;
     SubmitFinalBudget := fun w => (UINT256_ZERO, w);
     CheckAndRemove := fun w =>
       set_budget w
         {| Bench.mapProposals :=
              filter CBudgetProposal.IsValid (Bench.mapProposals (budget w));
            Bench.mapFinalizedBudgets := Bench.mapFinalizedBudgets (budget w);
            Bench.mapSeenProposalVotes :=
              Bench.mapSeenProposalVotes (budget w) |};
     Clear := fun w =>
       set_budget w
         {| Bench.mapProposals := []; Bench.mapFinalizedBudgets := [];
            Bench.mapSeenProposalVotes := [] |};
     IsSynced := fSynced;
     ClearFulfilledRequest := fun w => w;
     Reset := fun w =>
       {| budget := budget w; fSynced := false; walletTxs := walletTxs w;
          votesCast := votesCast w |};
     IsRegTestNet := regtest;
     IsDIP3Enforced := dip3;
     GetWalletForJSONRPCRequest := fun _ _ => Some 0%nat;
     EnsureWalletIsAvailable := fun pwallet avoidException =>
       match pwallet with
       | Some _ => Ok true
       | None =>
         if avoidException then Ok false
         else Throw (JSONRPCError RPC_WALLET_ERROR
                       "Method not found (disabled)")
       end;
     EnsureWalletIsUnlocked := fun _ _ => Ok tt;
     CreateBudgetFeeTX := fun _ h _ w =>
       (Some {| tx_GetHash := h + 1000 |},
        {| budget := budget w; fSynced := fSynced w;
           walletTxs := walletTxs w ++ [h + 1000];
           votesCast := votesCast w |});
     CommitTransaction := fun _ _ w =>
       ({| status := CommitOK; CommitResult_ToString := "" |}, w);
     BUDGET_FEE_TX := 5 * 100000000;
     translate := fun s => s;
     ParseHashO := fun o strKey =>
       ParseHashV Bench.node (find_value o strKey) strKey;
     ParseHexO := fun o strKey =>
       match find_value o strKey with
       | VSTR s => Ok (list_byte_of_string s)
       | _ => Throw (JSONRPCError RPC_INVALID_PARAMETER
                       (strKey ++ " must be hexadecimal string"))
       end;
     CFinalizedBudget_new := new_budget;
     Proposal_GetVotes := fun _ => [];
     FinalizedBudget_GetVotes := fun _ => [];
     CBudgetVote_ToJSON := fun v => VNUM (CBudgetVote.nTime v);
     CFinalizedBudgetVote_ToJSON := fun v => VNUM (fbv_nTime v);
     ToStringShort := fun o => HexString.of_Z (prevout_hash o) |}.

(** The same services with a wallet that is locked. *)
Definition err_wallet_locked : Exn :=
  JSONRPCError RPC_WALLET_ERROR
    "Error: Please enter the wallet passphrase with walletpassphrase first.".

Definition locked_services (regtest dip3 : bool) : Services World :=
  let svc := services regtest dip3 in
  {| GetBudget := GetBudget svc;
     FindFinalizedBudget := FindFinalizedBudget svc;
     AddFinalizedBudget := AddFinalizedBudget svc;
     SubmitFinalBudget := SubmitFinalBudget svc;
     CheckAndRemove := CheckAndRemove svc;
     Clear := Clear svc;
     IsSynced := IsSynced svc;
     ClearFulfilledRequest := ClearFulfilledRequest svc;
     Reset := Reset svc;
     IsRegTestNet := IsRegTestNet svc;
     IsDIP3Enforced := IsDIP3Enforced svc;
     GetWalletForJSONRPCRequest := GetWalletForJSONRPCRequest svc;
     EnsureWalletIsAvailable := EnsureWalletIsAvailable svc;
     EnsureWalletIsUnlocked := fun _ _ => Throw err_wallet_locked;
     CreateBudgetFeeTX := CreateBudgetFeeTX svc;
     CommitTransaction := CommitTransaction svc;
     BUDGET_FEE_TX := BUDGET_FEE_TX svc;
     translate := translate svc;
     ParseHashO := ParseHashO svc;
     ParseHexO := ParseHexO svc;
     CFinalizedBudget_new := CFinalizedBudget_new svc;
     Proposal_GetVotes := Proposal_GetVotes svc;
     FinalizedBudget_GetVotes := FinalizedBudget_GetVotes svc;
     CBudgetVote_ToJSON := CBudgetVote_ToJSON svc;
     CFinalizedBudgetVote_ToJSON := CFinalizedBudgetVote_ToJSON svc;
     ToStringShort := ToStringShort svc |}.

Definition log_cast (c : Cast) (w : World) : World :=
  {| budget := budget w; fSynced := fSynced w; walletTxs := walletTxs w;
     votesCast := votesCast w ++ [c] |}.

(** Vote casting helpers that only record how they were called. *)
Definition voting : Voting World :=
  {| gmLocalBudgetVoteInner := fun fLegacyGM h fFinal nVote w =>
       (Ok (VSTR "local"),
        log_cast {| cast_local := true; cast_legacy := fLegacyGM;
                    cast_hash := h; cast_final := fFinal;
                    cast_vote := nVote; cast_alias := None |} w);
     gmBudgetVoteInner := fun _ fLegacyGM h fFinal nVote gmAlias w =>
       (Ok (VSTR "many"),
        log_cast {| cast_local := false; cast_legacy := fLegacyGM;
                    cast_hash := h; cast_final := fFinal;
                    cast_vote := nVote; cast_alias := gmAlias |} w) |}.

Definition call_with (l : list UniValue) : JSONRPCRequest :=
  {| fHelp := false; params := l |}.

End Lab.

Module LabNodes.

(** [n] with another chain tip. *)
Definition with_tip (n : Node) (tip : option Z) (synced : bool) : Node :=
  {| SanitizeString := SanitizeString n;
     validateURL := validateURL n;
     nMaxProposalPayments := nMaxProposalPayments n;
     nBudgetCycleBlocks := nBudgetCycleBlocks n;
     GetChainTip := tip;
     chainActive_Height := match tip with Some h => h | None => -1 end;
     DecodeDestination := DecodeDestination n;
     IsValidDestination := IsValidDestination n;
     ExtractDestination := ExtractDestination n;
     EncodeDestination := EncodeDestination n;
     GetScriptForDestination := GetScriptForDestination n;
     COIN := COIN n;
     CURRENCY_UNIT := CURRENCY_UNIT n;
     FormatMoney := FormatMoney n;
     AmountFromValue := AmountFromValue n;
     ValueFromAmount := ValueFromAmount n;
     ParseHashV := ParseHashV n;
     ToString := ToString n;
     IsBlockchainSynced := synced;
     DecodeBase64 := DecodeBase64 n;
     gamemasterman_Find := gamemasterman_Find n;
     CheckSignature := CheckSignature n;
     CTxIn_ToString := CTxIn_ToString n;
     CBudgetProposal_new := CBudgetProposal_new n;
     usage := usage n |}.

(** A node that has not loaded its chain yet. *)
Definition warming_up : Node := with_tip Bench.node None false.



End LabNodes.

Module LabSig.

(** [Bench.node] with a base64 decoder that refuses the character [!]. *)
Definition node : Node :=
  {| SanitizeString := SanitizeString Bench.node;
     validateURL := validateURL Bench.node;
     nMaxProposalPayments := nMaxProposalPayments Bench.node;
     nBudgetCycleBlocks := nBudgetCycleBlocks Bench.node;
     GetChainTip := GetChainTip Bench.node;
     chainActive_Height := chainActive_Height Bench.node;
     DecodeDestination := DecodeDestination Bench.node;
     IsValidDestination := IsValidDestination Bench.node;
     ExtractDestination := ExtractDestination Bench.node;
     EncodeDestination := EncodeDestination Bench.node;
     GetScriptForDestination := GetScriptForDestination Bench.node;
     COIN := COIN Bench.node;
     CURRENCY_UNIT := CURRENCY_UNIT Bench.node;
     FormatMoney := FormatMoney Bench.node;
     AmountFromValue := AmountFromValue Bench.node;
     ValueFromAmount := ValueFromAmount Bench.node;
     ParseHashV := ParseHashV Bench.node;
     ToString := ToString Bench.node;
     IsBlockchainSynced := IsBlockchainSynced Bench.node;
     DecodeBase64 := fun s =>
       match index 0 "!" s with
       | Some _ => ([], true)
       | None => (list_byte_of_string s, false)
       end;
     gamemasterman_Find := gamemasterman_Find Bench.node;
     CheckSignature := CheckSignature Bench.node;
     CTxIn_ToString := CTxIn_ToString Bench.node;
     CBudgetProposal_new := CBudgetProposal_new Bench.node;
     usage := usage Bench.node |}.

End LabSig.

(* ------------------------------------------------------------------ *)
(** ** Reading the JSON of a proposal *)

(** The keys [budgetToJSON] writes, in order, for a valid and for an
    invalid proposal. *)
Definition budget_keys (fValid : bool) : list string :=
  ["Name"; "URL"; "Hash"; "FeeHash"; "BlockStart"; "BlockEnd";
   "TotalPaymentCount"; "RemainingPaymentCount"; "PaymentAddress"; "Ratio";
   "Yeas"; "Nays"; "Abstains"; "TotalPayment"; "MonthlyPayment";
   "IsEstablished"; "IsValid"]
  ++ (if fValid then [] else ["IsInvalidReason"]) ++ ["Allotted"].

(** The allotted amounts of the proposals, added up. *)
Fixpoint sum_allotted (l : list CBudgetProposal.t) : Z :=
  match l with
  | [] => 0
  | p :: rest => CBudgetProposal.GetAllotted p + sum_allotted rest
  end.

(** The rows of the budget projection when the running total starts at
    [total] and never overflows. *)
Fixpoint projection_rows (node : Node) (nCurrentHeight : Z) (total : Z)
    (l : list CBudgetProposal.t) : list UniValue :=
  match l with
  | [] => []
  | p :: rest =>
    let total := total + CBudgetProposal.GetAllotted p in
    VOBJ (budgetToJSON node p [] nCurrentHeight
          ++ [("TotalBudgetAllotted", ValueFromAmount node total)])
    :: projection_rows node nCurrentHeight total rest
  end.

(* ------------------------------------------------------------------ *)
(** ** What a vote command does with the casting helpers *)

(** Either the command answers by itself, or it ends with one call of a
    casting helper. *)
Inductive VotePlan : Type :=
| Answer (o : Outcome UniValue)
| CastLocal (fLegacyGM : bool) (h : uint256) (fFinal : bool)
    (nVote : CBudgetVote.VoteDirection)
| CastMany (pwallet : option CWallet) (fLegacyGM : bool) (h : uint256)
    (fFinal : bool) (nVote : CBudgetVote.VoteDirection)
    (gmAlias : option string).

Definition run_plan {S} (voting : Voting S) (plan : VotePlan) : M S UniValue :=
  match plan with
  | Answer o => lift o
  | CastLocal fLegacyGM h fFinal nVote =>
    gmLocalBudgetVoteInner voting fLegacyGM h fFinal nVote
  | CastMany pwallet fLegacyGM h fFinal nVote gmAlias =>
    gmBudgetVoteInner voting pwallet fLegacyGM h fFinal nVote gmAlias
  end.

(** The direction and finality of the vote a plan casts, if any. *)
Definition plan_casts (plan : VotePlan)
  : option (bool * CBudgetVote.VoteDirection) :=
  match plan with
  | Answer _ => None
  | CastLocal _ _ fFinal nVote => Some (fFinal, nVote)
  | CastMany _ _ _ fFinal nVote _ => Some (fFinal, nVote)
  end.

(** A plan casts nothing, or a vote of the given finality whose direction
    is yes or no. *)
Definition plan_ok (fFinal : bool) (plan : VotePlan) : Prop :=
  match plan_casts plan with
  | None => True
  | Some (f, nVote) => f = fFinal /\ nVote <> CBudgetVote.VOTE_ABSTAIN
  end.

(* ------------------------------------------------------------------ *)
(** ** The two ways [createrawgmfinalbudget] ends *)

Section RawFinalBudget.
Context {S : Type} (node : Node) (svc : Services S).

(** Without a fee transaction id: the collateral transaction for the
    budget with a null fee hash is created and committed. *)
Definition send_fee_tx (budName : string) (nBlockStart : Z)
    (payments : list CTxBudgetPayment) (st : S) : Outcome UniValue * S :=
  let budgetHash :=
    CFinalizedBudget.GetHash
      (CFinalizedBudget_new svc budName nBlockStart payments UINT256_ZERO) in
  let created :=
    CreateBudgetFeeTX svc vpwallets_0 budgetHash (BUDGET_FEE_TX svc) st in
  match fst created with
  | None =>
    (Throw (runtime_error "Can't make collateral transaction"), snd created)
  | Some wtx =>
    let committed := CommitTransaction svc vpwallets_0 wtx (snd created) in
    (Ok (VOBJ (if is_CommitOK (status (fst committed))
               then [("result", VSTR "tx_fee_sent");
                     ("id", VSTR (ToString node (tx_GetHash wtx)))]
               else [("result", VSTR "error")])),
     snd committed)
  end.

(** With a fee transaction id: the budget is handed to the budget
    manager. *)
Definition send_budget (budName : string) (nBlockStart : Z)
    (payments : list CTxBudgetPayment) (feeId : uint256) (st : S)
  : Outcome UniValue * S :=
  let added :=
    AddFinalizedBudget svc
      (CFinalizedBudget_new svc budName nBlockStart payments feeId) st in
  (Ok (VOBJ (if fst (fst added)
             then [("result", VSTR "fin_budget_sent");
                   ("id", VSTR (ToString node
                                  (CFinalizedBudget.GetHash
                                     (snd (fst added)))))]
             else [("result", VSTR "error")])),
   snd added).

(** The payment read from one entry of the proposals array. *)
Definition payment_of (item : UniValue) (pay : CTxBudgetPayment) : Prop :=
  get_obj item = Ok item
  /\ ParseHashO svc item "proposalid" = Ok (nProposalHash pay)
  /\ (exists scriptData,
         ParseHexO svc item "payee" = Ok scriptData
         /\ payee pay = string_of_list_byte scriptData)
  /\ AmountFromValue node (find_value item "amount") = Ok (nAmount pay).

End RawFinalBudget.

(* ------------------------------------------------------------------ *)
(** * Properties *)

(** ** Machine arithmetic *)

Lemma wrap32_id (z : Z) : in_int z -> wrap32 z = z.
Proof.
  unfold in_int, INT_MIN, INT_MAX, wrap32. intros Hz.
  rewrite Z.mod_small; lia.
Qed.

Lemma rem_zero_iff_divide (a c : Z) : 0 < c -> Z.rem a c = 0 <-> (c | a).
Proof.
  intros Hc. split.
  - intros H. apply Z.rem_divide; [lia | exact H].
  - intros H. apply Z.rem_divide in H; [exact H | lia].
Qed.

Lemma mod_le_self (h c : Z) : 0 <= h -> 0 < c -> 0 <= h mod c <= h.
Proof.
  intros Hh Hc. split.
  - apply Z.mod_pos_bound; lia.
  - apply Z.mod_le; lia.
Qed.

(** Without overflow the [int] expression is the mathematical one. *)
Lemma nextCycleStart_exact (h c : Z) :
  0 <= h -> 0 < c -> h - h mod c + c <= INT_MAX ->
  nextCycleStart h c = h - h mod c + c.
Proof.
  intros Hh Hc Hmax. unfold nextCycleStart, int_add, int_sub, int_rem.
  rewrite Z.rem_mod_nonneg by lia.
  pose proof (mod_le_self h c Hh Hc) as Hm.
  pose proof (Z.mod_pos_bound h c Hc) as Hb.
  assert (Hin : in_int (h - h mod c))
    by (unfold in_int, INT_MIN, INT_MAX in *; lia).
  rewrite (wrap32_id _ Hin).
  apply wrap32_id. unfold in_int, INT_MIN, INT_MAX in *. lia.
Qed.

Lemma cycle_floor_divide (h c : Z) : 0 < c -> (c | h - h mod c).
Proof.
  intros Hc. exists (h / c).
  pose proof (Z.div_mod h c ltac:(lia)). lia.
Qed.

Lemma next_multiple_least (h c m : Z) :
  0 < c -> (c | m) -> h - h mod c < m -> h - h mod c + c <= m.
Proof.
  intros Hc [k ->] Hlt.
  destruct (cycle_floor_divide h c Hc) as [q Hq].
  rewrite Hq in *.
  assert (Hqk : q < k) by nia.
  assert (Hle : (q + 1) * c <= k * c) by (apply Z.mul_le_mono_nonneg_r; lia).
  lia.
Qed.

(** ** C2: the next superblock height *)

(** C2. For a chain height [h >= 0] and a cycle length [c > 0] (with the
    result representable as an [int]), the height computed by
    [getnextsuperblock], which is also the [nBlockMin] of
    [checkBudgetInputs], is [h - h mod c + c]: a multiple of [c], the
    smallest one strictly above [h - h mod c], and strictly above [h] even
    when [h] is itself a multiple of [c]. *)
Theorem C2_next_superblock_height
    (S : Type) (node : Node) (st : S) (h c : Z) :
  chainActive_Height node = h -> nBudgetCycleBlocks node = c ->
  0 <= h -> 0 < c -> h - h mod c + c <= INT_MAX ->
  getnextsuperblock node {| fHelp := false; params := [] |} st
    = (Ok (VNUM (h - h mod c + c)), st)
  /\ nextCycleStart h c = h - h mod c + c
  /\ (c | nextCycleStart h c)
  /\ h < nextCycleStart h c
  /\ (forall m, (c | m) -> h - h mod c < m -> nextCycleStart h c <= m)
  /\ ((c | h) -> nextCycleStart h c = h + c).
Proof.
  intros Hh Hcy Hh0 Hc Hmax.
  pose proof (nextCycleStart_exact h c Hh0 Hc Hmax) as Hn.
  pose proof (Z.mod_pos_bound h c Hc) as Hb.
  repeat split.
  - unfold getnextsuperblock, bind, throw_if, ret. simpl.
    rewrite Hh, Hcy. destruct (h <? 0) eqn:E.
    + apply Z.ltb_lt in E. lia.
    + now rewrite Hn.
  - exact Hn.
  - rewrite Hn. apply Z.divide_add_r.
    + now apply cycle_floor_divide.
    + apply Z.divide_refl.
  - rewrite Hn. lia.
  - intros m Hm Hlt. rewrite Hn. now apply next_multiple_least.
  - intros Hdiv. rewrite Hn.
    apply Z.mod_divide in Hdiv; [|lia]. lia.
Qed.

Lemma C2_next_superblock_height_witness :
  getnextsuperblock Bench.node {| fHelp := false; params := [] |} Bench.store
    = (Ok (VNUM 43200), Bench.store)
  /\ nextCycleStart 43200 43200 = 86400.
Proof.
  split.
  - exact (proj1 (C2_next_superblock_height Bench.Store Bench.node Bench.store
             900 43200 eq_refl eq_refl ltac:(lia) ltac:(lia)
             ltac:(vm_compute; discriminate))).
  - assert (Hdiv : (43200 | 43200)) by (exists 1; reflexivity).
    destruct (C2_next_superblock_height Bench.Store (Bench.node_at 43200)
                Bench.store 43200 43200 eq_refl eq_refl ltac:(lia) ltac:(lia)
                ltac:(vm_compute; discriminate))
      as (_ & _ & _ & _ & _ & H).
    exact (H Hdiv).
Defined.

(** ** C9: parsing a vote direction *)

Lemma str_ne_false (s t : string) : str_ne s t = false <-> s = t.
Proof.
  unfold str_ne. rewrite negb_false_iff. apply String.eqb_eq.
Qed.

Lemma str_ne_true (s t : string) : str_ne s t = true <-> s <> t.
Proof.
  unfold str_ne. rewrite negb_true_iff. apply String.eqb_neq.
Qed.

(** The three possible results of [parseVote]. *)
Lemma parseVote_cases (strVote : string) :
  (strVote = "yes" /\ parseVote strVote = Ok CBudgetVote.VOTE_YES)
  \/ (strVote = "no" /\ parseVote strVote = Ok CBudgetVote.VOTE_NO)
  \/ (strVote <> "yes" /\ strVote <> "no"
      /\ parseVote strVote = Throw err_vote).
Proof.
  unfold parseVote.
  destruct (str_ne strVote "yes") eqn:Ey, (str_ne strVote "no") eqn:En; simpl.
  - right. right. apply str_ne_true in Ey, En. auto.
  - right. left. apply str_ne_false in En. subst. auto.
  - left. apply str_ne_false in Ey. subst. auto.
  - apply str_ne_false in Ey, En. subst. discriminate.
Qed.

Lemma parseVote_not_abstain (strVote : string) :
  parseVote strVote <> Ok CBudgetVote.VOTE_ABSTAIN.
Proof.
  destruct (parseVote_cases strVote) as [[_ H] | [[_ H] | (_ & _ & H)]];
    rewrite H; discriminate.
Qed.

(** ** The raw vote command, case by case *)

Ltac run_raw :=
  unfold gmbudgetrawvote, bind, lift, throw_if, throw, ret, call;
  repeat match goal with
         | H : ?x = _ |- context [?x] => rewrite H
         end.

(** Either the command finishes without consulting the budget manager at
    all, leaving the state as it was, or it hands exactly one vote to
    [ProcessProposalVote]: a vote whose gamemaster was found, whose
    signature verified and whose direction is not abstain. *)
Lemma gmbudgetrawvote_cases (S : Type) (node : Node)
    (request : JSONRPCRequest) (st : S) :
  (exists o, forall man : BudgetManager S,
        gmbudgetrawvote node man request st = (o, st))
  \/ (exists vote pgm,
         gamemasterman_Find node (prevout (CBudgetVote.vin vote)) = Some pgm
         /\ CheckSignature node vote (pubKeyGamemaster_GetID pgm) = true
         /\ CBudgetVote.nVote vote <> CBudgetVote.VOTE_ABSTAIN
         /\ forall man : BudgetManager S,
             gmbudgetrawvote node man request st
             = (Ok (vote_reply (fst (ProcessProposalVote man vote st))),
                snd (ProcessProposalVote man vote st))).
Proof.
  destruct (fHelp request || negb (Nat.eqb (List.length (params request)) 6))
    eqn:E0; [left; eexists; intros man; run_raw; reflexivity|].
  destruct (ParseHashV node (idx (params request) 0) "gm tx hash")
    as [hashGmTx|] eqn:E1; [|left; eexists; intros man; run_raw; reflexivity].
  destruct (get_int (idx (params request) 1)) as [nGmTxIndex|] eqn:E2;
    [|left; eexists; intros man; run_raw; reflexivity].
  destruct (ParseHashV node (idx (params request) 2) "Proposal hash")
    as [hashProposal|] eqn:E3;
    [|left; eexists; intros man; run_raw; reflexivity].
  destruct (get_str (idx (params request) 3)) as [p3|] eqn:E4;
    [|left; eexists; intros man; run_raw; reflexivity].
  destruct (parseVote p3) as [nVote|] eqn:E5;
    [|left; eexists; intros man; run_raw; reflexivity].
  destruct (get_int64 (idx (params request) 4)) as [nTime|] eqn:E6;
    [|left; eexists; intros man; run_raw; reflexivity].
  destruct (get_str (idx (params request) 5)) as [strSig|] eqn:E7;
    [|left; eexists; intros man; run_raw; reflexivity].
  destruct (DecodeBase64 node strSig) as [vchSig fInvalid] eqn:E8.
  destruct fInvalid;
    [left; eexists; intros man; run_raw; reflexivity|].
  set (vin := {| prevout := {| prevout_hash := hashGmTx;
                               prevout_n := nGmTxIndex |} |}).
  destruct (gamemasterman_Find node (prevout vin)) as [pgm|] eqn:E9;
    [|left; eexists; intros man; run_raw; fold vin; rewrite E9; reflexivity].
  set (vote := CBudgetVote.SetVchSig
                 (CBudgetVote.SetTime
                    (CBudgetVote.new vin hashProposal nVote) nTime) vchSig).
  destruct (CheckSignature node vote (pubKeyGamemaster_GetID pgm)) eqn:E10.
  - right. exists vote, pgm. repeat split; try assumption.
    + simpl. intros ->. now apply (parseVote_not_abstain p3).
    + intros man. run_raw. fold vin. rewrite E9. fold vote. rewrite E10.
      simpl. unfold vote_reply.
      destruct (ProcessProposalVote man vote st) as [[fOk state] st'].
      simpl. destruct fOk; reflexivity.
  - left. eexists. intros man. run_raw. fold vin. rewrite E9. fold vote.
    rewrite E10. reflexivity.
Qed.

(** C9. [parseVote] returns VOTE_YES for "yes" and VOTE_NO for "no", and
    throws for every other string; the comparison is case-sensitive.  It
    never returns VOTE_ABSTAIN, so a vote handed to the budget manager by
    the raw vote command never carries the abstain direction. *)
Theorem C9_parseVote_yes_no_only (node : Node) (request : JSONRPCRequest)
    (log : list CBudgetVote.t) (strVote : string) :
  parseVote "yes" = Ok CBudgetVote.VOTE_YES
  /\ parseVote "no" = Ok CBudgetVote.VOTE_NO
  /\ parseVote "YES" = Throw err_vote
  /\ (parseVote strVote = Ok CBudgetVote.VOTE_YES <-> strVote = "yes")
  /\ (parseVote strVote = Ok CBudgetVote.VOTE_NO <-> strVote = "no")
  /\ (parseVote strVote = Throw err_vote
      <-> strVote <> "yes" /\ strVote <> "no")
  /\ parseVote strVote <> Ok CBudgetVote.VOTE_ABSTAIN
  /\ (Forall (fun v => CBudgetVote.nVote v <> CBudgetVote.VOTE_ABSTAIN) log ->
      Forall (fun v => CBudgetVote.nVote v <> CBudgetVote.VOTE_ABSTAIN)
        (final (gmbudgetrawvote node Bench.recorder request) log)).
Proof.
  repeat split; try reflexivity.
  - intros H. destruct (parseVote_cases strVote)
      as [[E _] | [[_ E] | (_ & _ & E)]]; [exact E | | ];
      rewrite E in H; discriminate.
  - intros ->. reflexivity.
  - intros H. destruct (parseVote_cases strVote)
      as [[_ E] | [[E _] | (_ & _ & E)]]; [ | exact E | ];
      rewrite E in H; discriminate.
  - intros ->. reflexivity.
  - destruct (parseVote_cases strVote)
      as [[_ E] | [[_ E] | (E & _ & _)]]; [ | | exact E];
      rewrite E in H; discriminate.
  - destruct (parseVote_cases strVote)
      as [[_ E] | [[_ E] | (_ & E & _)]]; [ | | exact E];
      rewrite E in H; discriminate.
  - intros [Hy Hn]. destruct (parseVote_cases strVote)
      as [[E _] | [[E _] | (_ & _ & E)]]; [contradiction | contradiction | ].
    exact E.
  - apply parseVote_not_abstain.
  - intros Hlog. unfold final.
    destruct (gmbudgetrawvote_cases _ node request log)
      as [[o Ho] | (vote & pgm & _ & _ & Hdir & Hrun)].
    + rewrite Ho. exact Hlog.
    + rewrite Hrun. simpl. apply Forall_app. split; [exact Hlog|].
      constructor; [exact Hdir | constructor].
Qed.

Lemma C9_parseVote_yes_no_only_witness :
  parseVote "abstain" = Throw err_vote
  /\ Forall (fun v => CBudgetVote.nVote v <> CBudgetVote.VOTE_ABSTAIN)
       (final (gmbudgetrawvote Bench.node Bench.recorder
                 (Bench.rawvote "0x07" "c2ln")) []).
Proof.
  destruct (C9_parseVote_yes_no_only Bench.node (Bench.rawvote "0x07" "c2ln")
              [] "abstain") as (_ & _ & _ & _ & _ & [_ Hthrow] & _ & Hrec).
  split.
  - apply Hthrow. split; discriminate.
  - apply Hrec. constructor.
Defined.

(** ** C7: a raw vote is checked before it is processed *)

(** C7. For a well-formed raw vote request: when the gamemaster is not in
    the list, or its signature does not verify, [gmbudgetrawvote] returns
    the corresponding failure string and leaves the budget manager state
    untouched, whatever [ProcessProposalVote] would do; the vote reaches
    [ProcessProposalVote] only when the gamemaster is found and the
    signature verifies.  For any request at all, either the manager is not
    consulted and the state is unchanged, or one vote that passed both
    checks is processed. *)
Theorem C7_raw_vote_checked_before_processing
    (S : Type) (node : Node) (g_budgetman : BudgetManager S)
    (request : JSONRPCRequest) (st : S)
    (hashGmTx : uint256) (nGmTxIndex : Z) (hashProposal : uint256)
    (strVote : string) (nVote : CBudgetVote.VoteDirection) (nTime : Z)
    (strSig : string) (vchSig : list Byte.byte) :
  fHelp request = false ->
  List.length (params request) = 6%nat ->
  ParseHashV node (idx (params request) 0) "gm tx hash" = Ok hashGmTx ->
  get_int (idx (params request) 1) = Ok nGmTxIndex ->
  ParseHashV node (idx (params request) 2) "Proposal hash" = Ok hashProposal ->
  get_str (idx (params request) 3) = Ok strVote ->
  parseVote strVote = Ok nVote ->
  get_int64 (idx (params request) 4) = Ok nTime ->
  get_str (idx (params request) 5) = Ok strSig ->
  DecodeBase64 node strSig = (vchSig, false) ->
  let vin := {| prevout := {| prevout_hash := hashGmTx;
                              prevout_n := nGmTxIndex |} |} in
  let vote := CBudgetVote.SetVchSig
                (CBudgetVote.SetTime
                   (CBudgetVote.new vin hashProposal nVote) nTime) vchSig in
  (gamemasterman_Find node (prevout vin) = None ->
   gmbudgetrawvote node g_budgetman request st
   = (Ok (VSTR ("Failure to find gamemaster in list : "
                ++ CTxIn_ToString node vin)), st))
  /\ (forall pgm,
        gamemasterman_Find node (prevout vin) = Some pgm ->
        CheckSignature node vote (pubKeyGamemaster_GetID pgm) = false ->
        gmbudgetrawvote node g_budgetman request st
        = (Ok (VSTR "Failure to verify signature."), st))
  /\ (forall pgm,
        gamemasterman_Find node (prevout vin) = Some pgm ->
        CheckSignature node vote (pubKeyGamemaster_GetID pgm) = true ->
        gmbudgetrawvote node g_budgetman request st
        = (Ok (vote_reply (fst (ProcessProposalVote g_budgetman vote st))),
           snd (ProcessProposalVote g_budgetman vote st)))
  /\ ((exists o, forall man : BudgetManager S,
          gmbudgetrawvote node man request st = (o, st))
      \/ (exists v pgm,
             gamemasterman_Find node (prevout (CBudgetVote.vin v)) = Some pgm
             /\ CheckSignature node v (pubKeyGamemaster_GetID pgm) = true
             /\ forall man : BudgetManager S,
                 gmbudgetrawvote node man request st
                 = (Ok (vote_reply (fst (ProcessProposalVote man v st))),
                    snd (ProcessProposalVote man v st)))).
Proof.
  intros Hhelp Hlen E1 E2 E3 E4 E5 E6 E7 E8 vin vote.
  assert (E0 : fHelp request
               || negb (Nat.eqb (List.length (params request)) 6) = false)
    by (rewrite Hhelp, Hlen; reflexivity).
  repeat split.
  - intros E9. run_raw. fold vin. rewrite E9. reflexivity.
  - intros pgm E9 E10. run_raw. fold vin. rewrite E9. fold vote.
    rewrite E10. reflexivity.
  - intros pgm E9 E10. run_raw. fold vin. rewrite E9. fold vote.
    rewrite E10. simpl. unfold vote_reply.
    destruct (ProcessProposalVote g_budgetman vote st) as [[fOk state] st'].
    simpl. destruct fOk; reflexivity.
  - destruct (gmbudgetrawvote_cases S node request st)
      as [Hleft | (v & pgm & Hf & Hs & _ & Hrun)].
    + left. exact Hleft.
    + right. exists v, pgm. auto.
Qed.

Lemma C7_raw_vote_checked_before_processing_witness :
  gmbudgetrawvote Bench.node Bench.manager (Bench.rawvote "0x08" "c2ln")
    Bench.store
  = (Ok (VSTR "Failure to find gamemaster in list : 0x8"), Bench.store)
  /\ gmbudgetrawvote Bench.node Bench.manager (Bench.rawvote "0x07" "")
       Bench.store
     = (Ok (VSTR "Failure to verify signature."), Bench.store).
Proof.
  split.
  - destruct (C7_raw_vote_checked_before_processing Bench.Store Bench.node
                Bench.manager (Bench.rawvote "0x08" "c2ln") Bench.store
                8 0 42 "yes" CBudgetVote.VOTE_YES 100 "c2ln"
                (list_byte_of_string "c2ln")
                eq_refl eq_refl eq_refl eq_refl eq_refl eq_refl eq_refl
                eq_refl eq_refl eq_refl) as (H & _).
    exact (H eq_refl).
  - destruct (C7_raw_vote_checked_before_processing Bench.Store Bench.node
                Bench.manager (Bench.rawvote "0x07" "") Bench.store
                7 0 42 "yes" CBudgetVote.VOTE_YES 100 "" []
                eq_refl eq_refl eq_refl eq_refl eq_refl eq_refl eq_refl
                eq_refl eq_refl eq_refl) as (_ & H & _).
    exact (H {| pubKeyGamemaster_GetID := 1 |} eq_refl eq_refl).
Defined.

(** ** Proposal input validation *)

Ltac unfold_check :=
  unfold checkBudgetInputs, bind, lift, throw_if, throw, ret, gets.

Ltac use_eqs :=
  repeat match goal with
         | H : ?x = _ |- context [?x] => rewrite H
         end.

Section ReadOnly.
Context {S : Type}.

Lemma readonly_ret (A : Type) (a : A) : readonly (@ret S A a).
Proof. intros s. reflexivity. Qed.

Lemma readonly_throw (A : Type) (e : Exn) : readonly (@throw S A e).
Proof. intros s. reflexivity. Qed.

Lemma readonly_lift (A : Type) (o : Outcome A) : readonly (@lift S A o).
Proof. intros s. reflexivity. Qed.

Lemma readonly_gets (A : Type) (f : S -> A) : readonly (gets f).
Proof. intros s. reflexivity. Qed.

Lemma readonly_throw_if (c : bool) (e : Exn) : readonly (@throw_if S c e).
Proof. intros s. destruct c; reflexivity. Qed.

Lemma readonly_bind (A B : Type) (m : M S A) (k : A -> M S B) :
  readonly m -> (forall a, readonly (k a)) -> readonly (bind m k).
Proof.
  intros Hm Hk s. unfold final, bind. specialize (Hm s). unfold final in Hm.
  destruct (m s) as [[a|e] s']; simpl in *; subst s'.
  - apply Hk.
  - reflexivity.
Qed.

End ReadOnly.

Ltac readonly_step :=
  first [ apply readonly_ret | apply readonly_throw | apply readonly_lift
        | apply readonly_gets | apply readonly_throw_if
        | apply readonly_bind; [ | intros ? ]
        | match goal with
          | |- readonly (let '(_, _) := ?x in _) => destruct x
          | |- readonly (match ?x with _ => _ end) => destruct x
          | |- readonly (if ?x then _ else _) => destruct x
          end ].

(** [checkBudgetInputs] only reads the budget manager. *)
Lemma checkBudgetInputs_readonly (S : Type) (node : Node)
    (g_budgetman : BudgetManager S) (params : list UniValue) :
  readonly (checkBudgetInputs node g_budgetman params).
Proof. unfold checkBudgetInputs. repeat readonly_step. Qed.

Lemma checkBudgetInputs_final (S : Type) (node : Node)
    (g_budgetman : BudgetManager S) (params : list UniValue) (st : S) :
  final (checkBudgetInputs node g_budgetman params) st = st.
Proof. apply checkBudgetInputs_readonly. Qed.

Lemma run_eq (S A : Type) (m : M S A) (st : S) (o : Outcome A) :
  result m st = o -> final m st = st -> m st = (o, st).
Proof.
  unfold result, final. destruct (m st) as [o' st']. simpl.
  intros -> ->. reflexivity.
Qed.

(** A request stopped at one of the two payment count checks. *)
Lemma payment_count_rejected (S : Type) (node : Node)
    (g_budgetman : BudgetManager S) (params : list UniValue) (st : S)
    (cnt : Z) :
  name_ok node params -> url_ok node params ->
  get_int (idx params 2) = Ok cnt ->
  cnt < 1 \/ nMaxProposalPayments node < cnt ->
  result (checkBudgetInputs node g_budgetman params) st
  = Throw (if cnt <? 1 then err_count_low
           else err_count_high (nMaxProposalPayments node)).
Proof.
  intros (s0 & E0 & Hlen) (s1 & E1 & Hurl) E2 Hbad.
  apply Nat.ltb_ge in Hlen.
  unfold result. unfold_check. use_eqs.
  destruct (validateURL node (SanitizeString node s1)) as [fURL strErr].
  simpl in Hurl. subst fURL. use_eqs. simpl.
  destruct (cnt <? 1) eqn:Elow; [reflexivity|].
  apply Z.ltb_ge in Elow.
  assert (Ehigh : (cnt >? nMaxProposalPayments node) = true)
    by (rewrite Z.gtb_ltb; apply Z.ltb_lt; lia).
  rewrite Ehigh. reflexivity.
Qed.

Lemma payment_count_never_accepted (S : Type) (node : Node)
    (g_budgetman : BudgetManager S) (params : list UniValue) (st : S)
    (cnt : Z) :
  get_int (idx params 2) = Ok cnt ->
  cnt < 1 \/ nMaxProposalPayments node < cnt ->
  exists e, result (checkBudgetInputs node g_budgetman params) st = Throw e.
Proof.
  intros E2 Hbad. unfold result. unfold_check.
  destruct (get_str (idx params 0)) as [s0|]; simpl; [|eauto].
  destruct (Nat.ltb 20 _); simpl; [eauto|].
  destruct (get_str (idx params 1)) as [s1|]; simpl; [|eauto].
  destruct (validateURL node (SanitizeString node s1)) as [[|] strErr];
    simpl; [|eauto].
  rewrite E2.
  destruct (cnt <? 1) eqn:Elow; simpl; [eauto|].
  apply Z.ltb_ge in Elow.
  assert (Ehigh : (cnt >? nMaxProposalPayments node) = true)
    by (rewrite Z.gtb_ltb; apply Z.ltb_lt; lia).
  rewrite Ehigh. simpl. eauto.
Qed.

(** C5. A payment count below 1 or above [nMaxProposalPayments] is never
    accepted: [checkBudgetInputs] throws and the state is unchanged.  When
    the name and URL are fine, what is thrown is the payment count error
    ("must be more than zero", respectively "must be <= max"). *)
Theorem C5_payment_count_bounds (S : Type) (node : Node)
    (g_budgetman : BudgetManager S) (params : list UniValue) (st : S)
    (cnt : Z) :
  get_int (idx params 2) = Ok cnt ->
  cnt < 1 \/ nMaxProposalPayments node < cnt ->
  (exists e, checkBudgetInputs node g_budgetman params st = (Throw e, st))
  /\ (name_ok node params -> url_ok node params ->
      checkBudgetInputs node g_budgetman params st
      = (Throw (if cnt <? 1 then err_count_low
                else err_count_high (nMaxProposalPayments node)), st)).
Proof.
  intros E2 Hbad. split.
  - destruct (payment_count_never_accepted S node g_budgetman params st cnt
                E2 Hbad) as [e He].
    exists e. apply run_eq; [exact He | apply checkBudgetInputs_final].
  - intros Hname Hurl. apply run_eq; [|apply checkBudgetInputs_final].
    now apply payment_count_rejected.
Qed.

Lemma bench_name_ok (name : string) (count start amount : Z) :
  (String.length name <= 20)%nat ->
  name_ok Bench.node (params (Bench.request name count start amount)).
Proof. intros H. exists name. split; [reflexivity | exact H]. Qed.

Lemma bench_url_ok (name : string) (count start amount : Z) :
  url_ok Bench.node (params (Bench.request name count start amount)).
Proof. eexists. split; reflexivity. Qed.

(** Scenario A: 13 payments under a maximum of 12. *)
Lemma C5_payment_count_bounds_witness :
  checkBudgetInputs Bench.node Bench.manager
    (params (Bench.request "test-proposal" 13 43200 50000000000)) Bench.store
  = (Throw (JSONRPCError RPC_INVALID_PARAMETER
              "Invalid payment count, must be <= 12"), Bench.store).
Proof.
  destruct (C5_payment_count_bounds Bench.Store Bench.node Bench.manager
              (params (Bench.request "test-proposal" 13 43200 50000000000))
              Bench.store 13 eq_refl) as [_ H].
  - right. simpl. lia.
  - apply H.
    + apply bench_name_ok. simpl. lia.
    + apply bench_url_ok.
Defined.

(** The start check of the code, read as [bad_start]. *)
Lemma start_check_spec (node : Node) (h start : Z) :
  0 <= h -> 0 < nBudgetCycleBlocks node ->
  h - h mod nBudgetCycleBlocks node + nBudgetCycleBlocks node <= INT_MAX ->
  (start <? nextCycleStart h (nBudgetCycleBlocks node))
  || negb (int_rem start (nBudgetCycleBlocks node) =? 0) = true
  <-> bad_start node h start.
Proof.
  intros Hh Hc Hmax. unfold bad_start. cbv zeta.
  rewrite (nextCycleStart_exact h _ Hh Hc Hmax).
  rewrite orb_true_iff, Z.ltb_lt, negb_true_iff, Z.eqb_neq.
  unfold int_rem. rewrite (rem_zero_iff_divide start _ Hc). tauto.
Qed.

Lemma start_check_false (node : Node) (h start : Z) :
  0 <= h -> 0 < nBudgetCycleBlocks node ->
  h - h mod nBudgetCycleBlocks node + nBudgetCycleBlocks node <= INT_MAX ->
  ~ bad_start node h start ->
  (start <? nextCycleStart h (nBudgetCycleBlocks node))
  || negb (int_rem start (nBudgetCycleBlocks node) =? 0) = false.
Proof.
  intros Hh Hc Hmax Hgood.
  destruct (_ || _) eqn:E; [|reflexivity].
  apply (proj1 (start_check_spec node h start Hh Hc Hmax)) in E. contradiction.
Qed.

(** A request whose arguments all decode and pass every check is accepted,
    and the values handed back are the decoded ones. *)
Lemma checkBudgetInputs_accepts (S : Type) (node : Node)
    (g_budgetman : BudgetManager S) (params : list UniValue) (st : S)
    (s0 s1 : string) (cnt h start : Z) (s4 : string) (a : CAmount) :
  get_str (idx params 0) = Ok s0 ->
  (String.length (SanitizeString node s0) <= 20)%nat ->
  get_str (idx params 1) = Ok s1 ->
  fst (validateURL node (SanitizeString node s1)) = true ->
  get_int (idx params 2) = Ok cnt ->
  1 <= cnt <= nMaxProposalPayments node ->
  GetChainTip node = Some h ->
  get_int (idx params 3) = Ok start ->
  (start <? nextCycleStart h (nBudgetCycleBlocks node))
  || negb (int_rem start (nBudgetCycleBlocks node) =? 0) = false ->
  get_str (idx params 4) = Ok s4 ->
  IsValidDestination node (DecodeDestination node s4) = true ->
  AmountFromValue node (idx params 5) = Ok a ->
  amount_in_bounds node g_budgetman st start a ->
  result (checkBudgetInputs node g_budgetman params) st
  = Ok {| strProposalName := SanitizeString node s0;
          strURL := SanitizeString node s1;
          nPaymentCount := cnt;
          nBlockStart := start;
          address := DecodeDestination node s4;
          in_nAmount := a |}.
Proof.
  intros E0 Hlen E1 Hurl E2 Hcnt Etip E3 Hstart E4 Haddr E5 [Hlow Hhigh].
  apply Nat.ltb_ge in Hlen.
  assert (Ec1 : (cnt <? 1) = false) by (apply Z.ltb_ge; lia).
  assert (Ec2 : (cnt >? nMaxProposalPayments node) = false)
    by (rewrite Z.gtb_ltb; apply Z.ltb_ge; lia).
  assert (Ea1 : (a <? 10 * COIN node) = false) by (apply Z.ltb_ge; lia).
  assert (Ea2 : (a >? GetTotalBudget g_budgetman st start) = false)
    by (rewrite Z.gtb_ltb; apply Z.ltb_ge; lia).
  unfold result. unfold_check. use_eqs.
  destruct (validateURL node (SanitizeString node s1)) as [fURL strErr].
  simpl in Hurl. subst fURL. use_eqs. simpl. use_eqs. simpl. use_eqs.
  reflexivity.
Qed.

(** A request that passes the name, URL and count checks and whose start
    is bad is stopped by the start check. *)
Lemma start_rejected (S : Type) (node : Node)
    (g_budgetman : BudgetManager S) (params : list UniValue) (st : S)
    (h start : Z) :
  name_ok node params -> url_ok node params -> count_ok node params ->
  GetChainTip node = Some h ->
  get_int (idx params 3) = Ok start ->
  (start <? nextCycleStart h (nBudgetCycleBlocks node))
  || negb (int_rem start (nBudgetCycleBlocks node) =? 0) = true ->
  result (checkBudgetInputs node g_budgetman params) st
  = Throw (err_start (nextCycleStart h (nBudgetCycleBlocks node))).
Proof.
  intros (s0 & E0 & Hlen) (s1 & E1 & Hurl) (cnt & E2 & Hcnt) Etip E3 Hbad.
  apply Nat.ltb_ge in Hlen.
  assert (Ec1 : (cnt <? 1) = false) by (apply Z.ltb_ge; lia).
  assert (Ec2 : (cnt >? nMaxProposalPayments node) = false)
    by (rewrite Z.gtb_ltb; apply Z.ltb_ge; lia).
  unfold result. unfold_check. use_eqs.
  destruct (validateURL node (SanitizeString node s1)) as [fURL strErr].
  simpl in Hurl. subst fURL. use_eqs. simpl. use_eqs. reflexivity.
Qed.

Lemma start_never_accepted (S : Type) (node : Node)
    (g_budgetman : BudgetManager S) (params : list UniValue) (st : S)
    (h start : Z) :
  GetChainTip node = Some h ->
  get_int (idx params 3) = Ok start ->
  (start <? nextCycleStart h (nBudgetCycleBlocks node))
  || negb (int_rem start (nBudgetCycleBlocks node) =? 0) = true ->
  exists e, result (checkBudgetInputs node g_budgetman params) st = Throw e.
Proof.
  intros Etip E3 Hbad. unfold result. unfold_check.
  destruct (get_str (idx params 0)) as [s0|]; simpl; [|eauto].
  destruct (Nat.ltb 20 _); simpl; [eauto|].
  destruct (get_str (idx params 1)) as [s1|]; simpl; [|eauto].
  destruct (validateURL node (SanitizeString node s1)) as [[|] strErr];
    simpl; [|eauto].
  destruct (get_int (idx params 2)) as [cnt|]; simpl; [|eauto].
  destruct (cnt <? 1); simpl; [eauto|].
  destruct (cnt >? nMaxProposalPayments node); simpl; [eauto|].
  rewrite Etip, E3. simpl. rewrite Hbad. simpl. eauto.
Qed.

(** ** C3: the requested start height *)

(** C3. With the chain tip at height [h] (and the next boundary
    representable as an [int]), a requested start that is below
    [h - h mod c + c] or is not a multiple of the cycle length [c] is never
    accepted; when the name, URL and payment count are fine it is rejected
    with the block start error naming [h - h mod c + c]; and a start at or
    above that boundary that is a multiple of [c] is accepted when the
    remaining arguments are fine.  The state is unchanged in all cases. *)
Theorem C3_start_height_check (S : Type) (node : Node)
    (g_budgetman : BudgetManager S) (params : list UniValue) (st : S)
    (h start : Z) :
  GetChainTip node = Some h ->
  get_int (idx params 3) = Ok start ->
  0 <= h -> 0 < nBudgetCycleBlocks node ->
  h - h mod nBudgetCycleBlocks node + nBudgetCycleBlocks node <= INT_MAX ->
  (bad_start node h start ->
   exists e, checkBudgetInputs node g_budgetman params st = (Throw e, st))
  /\ (name_ok node params -> url_ok node params -> count_ok node params ->
      bad_start node h start ->
      checkBudgetInputs node g_budgetman params st
      = (Throw (err_start (h - h mod nBudgetCycleBlocks node
                           + nBudgetCycleBlocks node)), st))
  /\ (name_ok node params -> url_ok node params -> count_ok node params ->
      address_ok node params -> amount_ok node g_budgetman st params ->
      ~ bad_start node h start ->
      exists inp,
        checkBudgetInputs node g_budgetman params st = (Ok inp, st)
        /\ nBlockStart inp = start).
Proof.
  intros Etip E3 Hh Hc Hmax. repeat split.
  - intros Hbad.
    apply (proj2 (start_check_spec node h start Hh Hc Hmax)) in Hbad.
    destruct (start_never_accepted S node g_budgetman params st h start
                Etip E3 Hbad) as [e He].
    exists e. apply run_eq; [exact He | apply checkBudgetInputs_final].
  - intros Hname Hurl Hcount Hbad.
    apply (proj2 (start_check_spec node h start Hh Hc Hmax)) in Hbad.
    apply run_eq; [|apply checkBudgetInputs_final].
    rewrite <- (nextCycleStart_exact h _ Hh Hc Hmax).
    apply (start_rejected S node g_budgetman params st h start);
      assumption.
  - intros (s0 & E0 & Hlen) (s1 & E1 & Hurl) (cnt & E2 & Hcnt)
           (s4 & E4 & Haddr) (start' & a & E3' & E5 & Hamt) Hgood.
    rewrite E3 in E3'. injection E3' as <-.
    eexists. split.
    + apply run_eq; [|apply checkBudgetInputs_final].
      eapply checkBudgetInputs_accepts; eauto.
      now apply start_check_false.
    + reflexivity.
Qed.

(** Scenario B: start 1000 with cycle length 43200 at height 900. *)
Lemma C3_start_height_check_witness :
  checkBudgetInputs Bench.node Bench.manager
    (params (Bench.request "test-proposal" 2 1000 50000000000)) Bench.store
  = (Throw (JSONRPCError RPC_INVALID_PARAMETER
      "Invalid block start - must be a budget cycle block. Next valid block: 43200"),
     Bench.store).
Proof.
  destruct (C3_start_height_check Bench.Store Bench.node Bench.manager
              (params (Bench.request "test-proposal" 2 1000 50000000000))
              Bench.store 900 1000 eq_refl eq_refl
              ltac:(lia) ltac:(simpl; lia) ltac:(vm_compute; discriminate))
    as (_ & H & _).
  apply H.
  - apply bench_name_ok. simpl. lia.
  - apply bench_url_ok.
  - exists 2. split; [reflexivity | simpl; lia].
  - left. simpl. lia.
Defined.

(** ** C8: the proposal name *)

(** C8. A request whose sanitized name is longer than 20 characters is
    rejected with the proposal name error by [checkBudgetInputs], hence by
    [submitbudget], with the budget manager state unchanged; a name of 20
    characters or fewer passes, so that a request whose other arguments are
    fine is accepted under that name. *)
Theorem C8_name_limit (S : Type) (node : Node)
    (g_budgetman : BudgetManager S) (request : JSONRPCRequest) (st : S)
    (name : string) :
  get_str (idx (params request) 0) = Ok name ->
  ((20 < String.length (SanitizeString node name))%nat ->
   checkBudgetInputs node g_budgetman (params request) st
   = (Throw err_name, st)
   /\ (fHelp request = false -> List.length (params request) = 7%nat ->
       submitbudget node g_budgetman request st = (Throw err_name, st)))
  /\ ((String.length (SanitizeString node name) <= 20)%nat ->
      url_ok node (params request) -> count_ok node (params request) ->
      start_ok node (params request) -> address_ok node (params request) ->
      amount_ok node g_budgetman st (params request) ->
      exists inp,
        checkBudgetInputs node g_budgetman (params request) st = (Ok inp, st)
        /\ strProposalName inp = SanitizeString node name).
Proof.
  intros E0. split.
  - intros Hlong. apply Nat.ltb_lt in Hlong.
    assert (Hrun : checkBudgetInputs node g_budgetman (params request) st
                   = (Throw err_name, st)).
    { unfold_check. rewrite E0, Hlong. reflexivity. }
    split; [exact Hrun|].
    intros Hhelp Hlen. unfold submitbudget, bind, throw_if, ret.
    rewrite Hhelp, Hlen. simpl. rewrite Hrun. reflexivity.
  - intros Hlen (s1 & E1 & Hurl) (cnt & E2 & Hcnt)
           (h & start & Etip & E3 & Hmin & Hrem)
           (s4 & E4 & Haddr) (start' & a & E3' & E5 & Hamt).
    rewrite E3 in E3'. injection E3' as <-.
    eexists. split.
    + apply run_eq; [|apply checkBudgetInputs_final].
      eapply checkBudgetInputs_accepts; eauto.
      apply orb_false_iff. split.
      * apply Z.ltb_ge. exact Hmin.
      * rewrite Hrem. reflexivity.
    + reflexivity.
Qed.

Lemma C8_name_limit_witness :
  submitbudget Bench.node Bench.manager
    (Bench.request "a-name-of-21-letters." 2 43200 50000000000) Bench.store
  = (Throw (JSONRPCError RPC_INVALID_PARAMETER
              "Invalid proposal name, limit of 20 characters."), Bench.store)
  /\ exists inp,
       checkBudgetInputs Bench.node Bench.manager
         (params (Bench.request "a-name-of-20-letters" 2 43200 50000000000))
         Bench.store = (Ok inp, Bench.store)
       /\ strProposalName inp = "a-name-of-20-letters".
Proof.
  split.
  - destruct (C8_name_limit Bench.Store Bench.node Bench.manager
                (Bench.request "a-name-of-21-letters." 2 43200 50000000000)
                Bench.store "a-name-of-21-letters." eq_refl) as [H _].
    destruct H as [_ H]; [simpl; lia|].
    exact (H eq_refl eq_refl).
  - destruct (C8_name_limit Bench.Store Bench.node Bench.manager
                (Bench.request "a-name-of-20-letters" 2 43200 50000000000)
                Bench.store "a-name-of-20-letters" eq_refl) as [_ H].
    apply H.
    + simpl. lia.
    + apply bench_url_ok.
    + exists 2. split; [reflexivity | simpl; lia].
    + exists 900, 43200. repeat split; vm_compute; discriminate.
    + eexists. split; reflexivity.
    + exists 43200, 50000000000. repeat split; vm_compute; discriminate.
Defined.

(** ** C4: the monthly amount *)

(** A request that passes every check before the amount checks and whose
    amount is out of bounds is stopped by one of the two amount checks. *)
Lemma amount_rejected (S : Type) (node : Node)
    (g_budgetman : BudgetManager S) (params : list UniValue) (st : S)
    (start : Z) (a : CAmount) :
  name_ok node params -> url_ok node params -> count_ok node params ->
  start_ok node params -> address_ok node params ->
  get_int (idx params 3) = Ok start ->
  AmountFromValue node (idx params 5) = Ok a ->
  ~ amount_in_bounds node g_budgetman st start a ->
  result (checkBudgetInputs node g_budgetman params) st
  = Throw (if a <? 10 * COIN node then err_amount_low node a
           else err_amount_high node a
                  (GetTotalBudget g_budgetman st start)).
Proof.
  intros (s0 & E0 & Hlen) (s1 & E1 & Hurl) (cnt & E2 & Hcnt)
         (h & start' & Etip & E3' & Hmin & Hrem) (s4 & E4 & Haddr) E3 E5 Hout.
  rewrite E3 in E3'. injection E3' as <-.
  apply Nat.ltb_ge in Hlen.
  assert (Ec1 : (cnt <? 1) = false) by (apply Z.ltb_ge; lia).
  assert (Ec2 : (cnt >? nMaxProposalPayments node) = false)
    by (rewrite Z.gtb_ltb; apply Z.ltb_ge; lia).
  assert (Es : (start <? nextCycleStart h (nBudgetCycleBlocks node))
               || negb (int_rem start (nBudgetCycleBlocks node) =? 0) = false).
  { apply orb_false_iff. split; [now apply Z.ltb_ge|].
    rewrite Hrem. reflexivity. }
  destruct (validateURL node (SanitizeString node s1)) as [fURL strErr] eqn:Ev.
  simpl in Hurl. subst fURL.
  destruct (a <? 10 * COIN node) eqn:Elow.
  - unfold result. unfold_check. use_eqs. simpl. use_eqs. reflexivity.
  - assert (Ehigh : (a >? GetTotalBudget g_budgetman st start) = true).
    { rewrite Z.gtb_ltb. apply Z.ltb_lt. apply Z.ltb_ge in Elow.
      unfold amount_in_bounds in Hout. lia. }
    unfold result. unfold_check. use_eqs. simpl. use_eqs. simpl. use_eqs.
    reflexivity.
Qed.

(** C4, as the code has it.  For a request that passes every earlier
    check, the amount is accepted exactly when it is at least [10 * COIN]
    and at most the total budget of the cycle at the requested start; an
    amount below [10 * COIN] is rejected with the minimum amount error, and
    one above the total budget with the maximum amount error. *)
Theorem C4_amount_bounds (S : Type) (node : Node)
    (g_budgetman : BudgetManager S) (params : list UniValue) (st : S)
    (start : Z) (a : CAmount) :
  name_ok node params -> url_ok node params -> count_ok node params ->
  start_ok node params -> address_ok node params ->
  get_int (idx params 3) = Ok start ->
  AmountFromValue node (idx params 5) = Ok a ->
  (amount_in_bounds node g_budgetman st start a ->
   exists inp, checkBudgetInputs node g_budgetman params st = (Ok inp, st)
               /\ in_nAmount inp = a)
  /\ (a < 10 * COIN node ->
      checkBudgetInputs node g_budgetman params st
      = (Throw (err_amount_low node a), st))
  /\ (10 * COIN node <= a -> GetTotalBudget g_budgetman st start < a ->
      checkBudgetInputs node g_budgetman params st
      = (Throw (err_amount_high node a
                  (GetTotalBudget g_budgetman st start)), st))
  /\ ((exists inp,
          result (checkBudgetInputs node g_budgetman params) st = Ok inp)
      <-> amount_in_bounds node g_budgetman st start a).
Proof.
  intros Hname Hurl Hcount Hstart Haddr E3 E5.
  assert (Hacc : amount_in_bounds node g_budgetman st start a ->
                 exists inp,
                   checkBudgetInputs node g_budgetman params st = (Ok inp, st)
                   /\ in_nAmount inp = a).
  { intros Hamt.
    destruct Hname as (s0 & E0 & Hlen), Hurl as (s1 & E1 & Hurl),
             Hcount as (cnt & E2 & Hcnt),
             Hstart as (h & start' & Etip & E3' & Hmin & Hrem),
             Haddr as (s4 & E4 & Haddr).
    rewrite E3 in E3'. injection E3' as <-.
    eexists. split.
    - apply run_eq; [|apply checkBudgetInputs_final].
      eapply checkBudgetInputs_accepts; eauto.
      apply orb_false_iff. split; [now apply Z.ltb_ge|].
      rewrite Hrem. reflexivity.
    - reflexivity. }
  assert (Hrej : ~ amount_in_bounds node g_budgetman st start a ->
                 result (checkBudgetInputs node g_budgetman params) st
                 = Throw (if a <? 10 * COIN node then err_amount_low node a
                          else err_amount_high node a
                                 (GetTotalBudget g_budgetman st start)))
    by (intros Hout; now apply amount_rejected).
  split; [exact Hacc|]. split; [|split].
  - intros Hlow. apply run_eq; [|apply checkBudgetInputs_final].
    rewrite Hrej by (unfold amount_in_bounds; lia).
    apply Z.ltb_lt in Hlow. rewrite Hlow. reflexivity.
  - intros Hlow Hhigh. apply run_eq; [|apply checkBudgetInputs_final].
    rewrite Hrej by (unfold amount_in_bounds; lia).
    apply Z.ltb_ge in Hlow. rewrite Hlow. reflexivity.
  - split.
    + intros [inp Hinp].
      destruct (Z_le_dec (10 * COIN node) a) as [Hl|Hl];
        [destruct (Z_le_dec a (GetTotalBudget g_budgetman st start))
           as [Hu|Hu]|].
      * split; assumption.
      * rewrite Hrej in Hinp by (unfold amount_in_bounds; lia). discriminate.
      * rewrite Hrej in Hinp by (unfold amount_in_bounds; lia). discriminate.
    + intros Hamt. destruct (Hacc Hamt) as (inp & Hrun & _).
      exists inp. unfold result. rewrite Hrun. reflexivity.
Qed.

Lemma bench_checks_ok (name : string) (amount : Z) :
  (String.length name <= 20)%nat ->
  let params := params (Bench.request name 2 43200 amount) in
  name_ok Bench.node params /\ url_ok Bench.node params
  /\ count_ok Bench.node params /\ start_ok Bench.node params
  /\ address_ok Bench.node params.
Proof.
  intros Hlen params. repeat split.
  - now apply bench_name_ok.
  - apply bench_url_ok.
  - exists 2. split; [reflexivity | simpl; lia].
  - exists 900, 43200. repeat split; vm_compute; discriminate.
  - eexists. split; reflexivity.
Qed.

Lemma C4_amount_bounds_witness :
  (exists inp,
      checkBudgetInputs Bench.node Bench.manager
        (params (Bench.request "test-proposal" 2 43200 50000000000))
        Bench.store = (Ok inp, Bench.store)
      /\ in_nAmount inp = 50000000000)
  /\ checkBudgetInputs Bench.node Bench.manager
       (params (Bench.request "test-proposal" 2 43200 999999999)) Bench.store
     = (Throw (JSONRPCError RPC_INVALID_PARAMETER
          "Invalid amount - Payment of 999999999 is less than minimum 10 HMS allowed"),
        Bench.store).
Proof.
  split.
  - destruct (bench_checks_ok "test-proposal" 50000000000 ltac:(simpl; lia))
      as (H1 & H2 & H3 & H4 & H5).
    destruct (C4_amount_bounds Bench.Store Bench.node Bench.manager
                (params (Bench.request "test-proposal" 2 43200 50000000000))
                Bench.store 43200 50000000000 H1 H2 H3 H4 H5 eq_refl eq_refl)
      as (H & _).
    apply H. split; vm_compute; discriminate.
  - destruct (bench_checks_ok "test-proposal" 999999999 ltac:(simpl; lia))
      as (H1 & H2 & H3 & H4 & H5).
    destruct (C4_amount_bounds Bench.Store Bench.node Bench.manager
                (params (Bench.request "test-proposal" 2 43200 999999999))
                Bench.store 43200 999999999 H1 H2 H3 H4 H5 eq_refl eq_refl)
      as (_ & H & _).
    apply H. vm_compute. reflexivity.
Defined.

(** An amount of one minor unit is above zero and within the total budget,
    and every other argument of the request is fine, yet the request is
    rejected: amounts above zero are not all accepted. *)
Lemma C4_amount_above_zero_rejected :
  ~ accepts_amounts_above_zero Bench.node Bench.manager Bench.store
      (params (Bench.request "test-proposal" 2 43200 1)).
Proof.
  intros Hclaim.
  destruct (bench_checks_ok "test-proposal" 1 ltac:(simpl; lia))
    as (H1 & H2 & H3 & H4 & H5).
  destruct (Hclaim 43200 1 H1 H2 H3 H4 H5 eq_refl eq_refl) as [inp Hinp].
  - split; vm_compute; [reflexivity | discriminate].
  - vm_compute in Hinp. discriminate.
Qed.

(** ** C10: listing proposals *)

Lemma getbudgetinfo_loop_spec (node : Node)
    (winningProps : list CBudgetProposal.t) (nCurrentHeight : Z)
    (ret : list UniValue) :
  getbudgetinfo_loop node winningProps nCurrentHeight ret
  = (ret ++ map (fun p => VOBJ (budgetToJSON node p [] nCurrentHeight))
              (filter CBudgetProposal.IsValid winningProps))%list.
Proof.
  revert ret. induction winningProps as [|p rest IH]; intros ret; simpl.
  - now rewrite app_nil_r.
  - destruct (CBudgetProposal.IsValid p); simpl.
    + rewrite IH, <- app_assoc. reflexivity.
    + apply IH.
Qed.

(** C10. Called without a name, [getbudgetinfo] returns, in the manager's
    order, the JSON of exactly the proposals for which [IsValid()] holds.
    Called with a name, it returns the JSON of the proposal found under
    the sanitized name, whether that proposal is valid or not, and throws
    "Unknown proposal name" exactly when none is found.  The state is
    unchanged. *)
Theorem C10_getbudgetinfo_validity_filter (S : Type) (node : Node)
    (g_budgetman : BudgetManager S) (st : S) (name : string) :
  let nCurrentHeight := GetBestHeight g_budgetman st in
  let json p := VOBJ (budgetToJSON node p [] nCurrentHeight) in
  let all := GetAllProposalsOrdered g_budgetman st in
  let found := FindProposalByName g_budgetman st (SanitizeString node name) in
  let named :=
    getbudgetinfo node g_budgetman
      {| fHelp := false; params := [VSTR name] |} st in
  getbudgetinfo node g_budgetman {| fHelp := false; params := [] |} st
  = (Ok (VARR (map json (filter CBudgetProposal.IsValid all))), st)
  /\ (forall v,
        In v (map json (filter CBudgetProposal.IsValid all))
        <-> exists p, In p all /\ CBudgetProposal.IsValid p = true
                      /\ v = json p)
  /\ named = (match found with
              | Some p => Ok (VARR [json p])
              | None => Throw (runtime_error "Unknown proposal name")
              end, st)
  /\ (forall p, found = Some p -> named = (Ok (VARR [json p]), st))
  /\ ((exists e, fst named = Throw e) <-> found = None).
Proof.
  intros nCurrentHeight json all found named.
  assert (Hnamed : named = (match found with
                            | Some p => Ok (VARR [json p])
                            | None =>
                              Throw (runtime_error "Unknown proposal name")
                            end, st)).
  { unfold named, getbudgetinfo, bind, throw_if, gets, ret, lift, throw.
    simpl. fold found. destruct found; reflexivity. }
  split; [|split; [|split; [exact Hnamed | split]]].
  - unfold getbudgetinfo, bind, throw_if, gets, ret. simpl.
    rewrite getbudgetinfo_loop_spec. reflexivity.
  - intros v. split.
    + intros Hin. apply in_map_iff in Hin. destruct Hin as (p & <- & Hp).
      apply filter_In in Hp. destruct Hp as [Hall Hvalid]. eauto.
    + intros (p & Hall & Hvalid & ->). apply in_map_iff. exists p.
      split; [reflexivity|]. apply filter_In. auto.
  - intros p Hp. rewrite Hnamed, Hp. reflexivity.
  - rewrite Hnamed. simpl. destruct found.
    + split; [intros [e He]; discriminate | discriminate].
    + split; [reflexivity | eauto].
Qed.

Lemma C10_getbudgetinfo_validity_filter_witness :
  (exists v,
      getbudgetinfo Bench.node Bench.manager
        {| fHelp := false; params := [] |} Bench.store
      = (Ok (VARR [v]), Bench.store))
  /\ (exists p,
         CBudgetProposal.IsValid p = false
         /\ getbudgetinfo Bench.node Bench.manager
              {| fHelp := false; params := [VSTR "beta"] |} Bench.store
            = (Ok (VARR [VOBJ (budgetToJSON Bench.node p [] 900)]),
               Bench.store)).
Proof.
  destruct (C10_getbudgetinfo_validity_filter Bench.Store Bench.node
              Bench.manager Bench.store "beta") as (Hall & _ & _ & Hone & _).
  split.
  - eexists. exact Hall.
  - exists (Bench.proposal "beta" 43 "Z" 700 43200 1 false).
    split; [reflexivity|]. exact (Hone _ eq_refl).
Defined.

(** ** The status of a finalized budget *)



Lemma heights_from_S (from : Z) (count : nat) :
  heights_from from (Datatypes.S count)
  = from :: heights_from (from + 1) count.
Proof.
  unfold heights_from. simpl. f_equal; [lia|].
  rewrite <- seq_shift, map_map. apply map_ext. intros i. lia.
Qed.

Lemma in_closed_range (nBlockStart nBlockEnd h : Z) :
  In h (closed_range nBlockStart nBlockEnd)
  <-> nBlockStart <= h <= nBlockEnd.
Proof.
  unfold closed_range, heights_from. rewrite in_map_iff. split.
  - intros (i & <- & Hi). apply in_seq in Hi. lia.
  - intros Hh. exists (Z.to_nat (h - nBlockStart)). split; [lia|].
    apply in_seq. lia.
Qed.




Section StatusProofs.
Context {S : Type} (node : Node) (g_budgetman : BudgetManager S).
Hypothesis ToString_nonempty : forall h, ToString node h <> "".







End StatusProofs.



(** ** C1: which heights the status covers *)







(** ** C6: computing a status changes nothing *)

Section StatusReadOnly.
Context {S : Type} (node : Node) (g_budgetman : BudgetManager S).

Lemma status_body_readonly (fb : CFinalizedBudget.t) (h : Z)
    (acc : string * string) :
  readonly (status_body node g_budgetman fb h acc).
Proof. unfold status_body. repeat readonly_step. Qed.

Lemma status_loop_readonly (fb : CFinalizedBudget.t) (count : nat) :
  forall (h : Z) (acc : string * string),
    readonly (status_loop node g_budgetman fb count h acc).
Proof.
  induction count as [|count IH]; intros h acc; simpl.
  - apply readonly_ret.
  - apply readonly_bind; [apply status_body_readonly | intros acc'; apply IH].
Qed.

Lemma GetFinalizedBudgetStatus_readonly (fb : CFinalizedBudget.t) :
  readonly (GetFinalizedBudgetStatus node g_budgetman fb).
Proof.
  unfold GetFinalizedBudgetStatus.
  apply readonly_bind; [apply status_loop_readonly|].
  intros [retBadHashes retBadPayeeOrAmount]. repeat readonly_step.
Qed.

Lemma show_loop_readonly (winningFbs : list CFinalizedBudget.t) :
  forall resultObj, readonly (show_loop node g_budgetman winningFbs resultObj).
Proof.
  induction winningFbs as [|fb rest IH]; intros resultObj; simpl.
  - apply readonly_ret.
  - apply readonly_bind; [apply GetFinalizedBudgetStatus_readonly|].
    intros status. apply IH.
Qed.

End StatusReadOnly.

(** C6. Computing the status of a finalized budget leaves the budget
    manager state exactly as it was, whatever the status says: the same for
    a single budget and for the [show] command over all stored budgets.
    Hence a budget that was stored is still stored afterwards, and every
    proposal lookup answers as before. *)
Theorem C6_status_is_read_only (S : Type) (node : Node)
    (g_budgetman : BudgetManager S) (fb : CFinalizedBudget.t) (st : S) :
  final (GetFinalizedBudgetStatus node g_budgetman fb) st = st
  /\ final (gmfinalbudget_show node g_budgetman) st = st
  /\ (In fb (GetFinalizedBudgets g_budgetman st) ->
      In fb (GetFinalizedBudgets g_budgetman
               (final (GetFinalizedBudgetStatus node g_budgetman fb) st)))
  /\ GetFinalizedBudgets g_budgetman
       (final (GetFinalizedBudgetStatus node g_budgetman fb) st)
     = GetFinalizedBudgets g_budgetman st
  /\ (forall h,
        GetProposal g_budgetman
          (final (GetFinalizedBudgetStatus node g_budgetman fb) st) h
        = GetProposal g_budgetman st h).
Proof.
  assert (Hst : final (GetFinalizedBudgetStatus node g_budgetman fb) st = st)
    by apply GetFinalizedBudgetStatus_readonly.
  split; [exact Hst|]. split; [|rewrite Hst; auto].
  unfold gmfinalbudget_show.
  apply readonly_bind; [apply readonly_gets|]. intros winningFbs.
  apply readonly_bind; [apply show_loop_readonly|]. intros resultObj.
  apply readonly_ret.
Qed.

(** Scenario D: the mismatching budget is reported and remains stored. *)
Lemma C6_status_is_read_only_witness :
  result (GetFinalizedBudgetStatus Bench.node Bench.manager
            Bench.budget_mismatch) (Bench.store_with Bench.budget_mismatch)
  <> Ok "OK"
  /\ In Bench.budget_mismatch
       (GetFinalizedBudgets Bench.manager
          (final (GetFinalizedBudgetStatus Bench.node Bench.manager
                    Bench.budget_mismatch)
             (Bench.store_with Bench.budget_mismatch))).
Proof.
  split.
  - vm_compute. discriminate.
  - destruct (C6_status_is_read_only Bench.Store Bench.node Bench.manager
                Bench.budget_mismatch (Bench.store_with Bench.budget_mismatch))
      as (_ & _ & H & _).
    apply H. left. reflexivity.
Defined.

(* ------------------------------------------------------------------ *)
(** * Further properties of the RPC commands *)

(** ** What an accepted proposal request guarantees *)

Lemma get_int_in_int (v : UniValue) (z : Z) : get_int v = Ok z -> in_int z.
Proof.
  destruct v; simpl; try discriminate.
  destruct (in_intb n) eqn:E; [|discriminate].
  intros [= <-]. unfold in_intb in E. unfold in_int.
  apply andb_true_iff in E. destruct E as [E1 E2].
  apply Z.leb_le in E1. apply Z.leb_le in E2. split; assumption.
Qed.

(** X1. Whatever [checkBudgetInputs] hands back satisfies every bound it
    checks: the name has at most 20 characters, the URL passed the
    validator, the payment count lies between 1 and the consensus maximum,
    the start is at or above the next cycle boundary of the chain tip and
    leaves remainder 0 by the cycle length, the address is valid, and the
    amount lies between 10 coins and the total budget at that start. *)
Theorem checkBudgetInputs_sound (S : Type) (node : Node)
    (g_budgetman : BudgetManager S) (params : list UniValue) (st : S)
    (inp : BudgetInputs) :
  result (checkBudgetInputs node g_budgetman params) st = Ok inp ->
  (String.length (strProposalName inp) <= 20)%nat
  /\ fst (validateURL node (strURL inp)) = true
  /\ 1 <= nPaymentCount inp <= nMaxProposalPayments node
  /\ in_int (nPaymentCount inp)
  /\ in_int (nBlockStart inp)
  /\ (exists h, GetChainTip node = Some h
                /\ nextCycleStart h (nBudgetCycleBlocks node)
                   <= nBlockStart inp)
  /\ int_rem (nBlockStart inp) (nBudgetCycleBlocks node) = 0
  /\ IsValidDestination node (address inp) = true
  /\ 10 * COIN node <= in_nAmount inp
     <= GetTotalBudget g_budgetman st (nBlockStart inp).
Proof.
  unfold result. unfold_check.
  remember (10 * COIN node) as minAmount eqn:Hmin.
  destruct (get_str (idx params 0)) as [s0|] eqn:E0; simpl; [|discriminate].
  destruct (Nat.ltb 20 (String.length (SanitizeString node s0))) eqn:Hlen;
    simpl; [discriminate|].
  destruct (get_str (idx params 1)) as [s1|] eqn:E1; simpl; [|discriminate].
  destruct (validateURL node (SanitizeString node s1)) as [fURL strErr]
    eqn:Eurl.
  destruct fURL; simpl; [|discriminate].
  destruct (get_int (idx params 2)) as [cnt|] eqn:E2; simpl; [|discriminate].
  destruct (cnt <? 1) eqn:Ec1; simpl; [discriminate|].
  destruct (cnt >? nMaxProposalPayments node) eqn:Ec2; simpl; [discriminate|].
  destruct (GetChainTip node) as [h|] eqn:Etip; simpl; [|discriminate].
  destruct (get_int (idx params 3)) as [start|] eqn:E3; simpl; [|discriminate].
  destruct (start <? nextCycleStart h (nBudgetCycleBlocks node)) eqn:Es1;
    simpl; [discriminate|].
  destruct (int_rem start (nBudgetCycleBlocks node) =? 0) eqn:Es2;
    simpl; [|discriminate].
  destruct (get_str (idx params 4)) as [s4|] eqn:E4; simpl; [|discriminate].
  destruct (IsValidDestination node (DecodeDestination node s4)) eqn:Eaddr;
    simpl; [|discriminate].
  destruct (AmountFromValue node (idx params 5)) as [a|] eqn:E5; simpl;
    [|discriminate].
  destruct (a <? minAmount) eqn:Ea1; simpl; [discriminate|].
  destruct (a >? GetTotalBudget g_budgetman st start) eqn:Ea2; simpl;
    [discriminate|].
  intros [= <-]. simpl.
  apply Nat.ltb_ge in Hlen. apply Z.ltb_ge in Ec1, Es1, Ea1.
  rewrite Z.gtb_ltb in Ec2, Ea2. apply Z.ltb_ge in Ec2, Ea2.
  apply Z.eqb_eq in Es2. rewrite Eurl.
  repeat split; try assumption; try lia.
  - eapply get_int_in_int; eassumption.
  - eapply get_int_in_int; eassumption.
  - eapply get_int_in_int; eassumption.
  - eapply get_int_in_int; eassumption.
  - exists h. split; [reflexivity | assumption].
Qed.

Lemma checkBudgetInputs_sound_witness :
  exists inp,
    result (checkBudgetInputs Bench.node Bench.manager
              (params (Bench.request "test-proposal" 2 43200 50000000000)))
      Bench.store = Ok inp
    /\ nBlockStart inp = 43200
    /\ 1 <= nPaymentCount inp <= 12.
Proof.
  eexists. split; [reflexivity|]. split; [reflexivity|].
  exact (proj1 (proj2 (proj2
           (checkBudgetInputs_sound Bench.Store Bench.node Bench.manager
              (params (Bench.request "test-proposal" 2 43200 50000000000))
              Bench.store _ eq_refl)))).
Defined.

(** ** The order of the checks *)

(** X2. When the name is fine and the URL validator refuses the sanitized
    URL, the request is rejected as an invalid parameter with the
    validator's own message, whatever the remaining arguments are. *)
Theorem checkBudgetInputs_bad_url (S : Type) (node : Node)
    (g_budgetman : BudgetManager S) (params : list UniValue) (st : S)
    (url strErr : string) :
  name_ok node params ->
  get_str (idx params 1) = Ok url ->
  validateURL node (SanitizeString node url) = (false, strErr) ->
  checkBudgetInputs node g_budgetman params st
  = (Throw (JSONRPCError RPC_INVALID_PARAMETER strErr), st).
Proof.
  intros (s0 & E0 & Hlen) E1 Eurl. apply Nat.ltb_ge in Hlen.
  unfold_check. use_eqs. reflexivity.
Qed.

Lemma checkBudgetInputs_bad_url_witness :
  checkBudgetInputs Bench.node Bench.manager
    [VSTR "test-proposal";
     VSTR "https://forum.hemis.org/t/a-very-long-address-of-more-than-64-characters"]
    Bench.store
  = (Throw (JSONRPCError RPC_INVALID_PARAMETER
              "Invalid URL, 65 characters or more"), Bench.store).
Proof.
  apply (checkBudgetInputs_bad_url Bench.Store Bench.node Bench.manager _
           Bench.store
           "https://forum.hemis.org/t/a-very-long-address-of-more-than-64-characters").
  - exists "test-proposal". split; [reflexivity | simpl; lia].
  - reflexivity.
  - reflexivity.
Defined.

(** X3. While no chain tip is loaded, a request whose name, URL and
    payment count are fine is answered with RPC_IN_WARMUP; the start,
    address and amount arguments are not looked at. *)
Theorem checkBudgetInputs_warmup (S : Type) (node : Node)
    (g_budgetman : BudgetManager S) (params : list UniValue) (st : S) :
  name_ok node params -> url_ok node params -> count_ok node params ->
  GetChainTip node = None ->
  checkBudgetInputs node g_budgetman params st = (Throw err_warmup, st).
Proof.
  intros (s0 & E0 & Hlen) (s1 & E1 & Hurl) (cnt & E2 & Hcnt) Etip.
  apply Nat.ltb_ge in Hlen.
  assert (Ec1 : (cnt <? 1) = false) by (apply Z.ltb_ge; lia).
  assert (Ec2 : (cnt >? nMaxProposalPayments node) = false)
    by (rewrite Z.gtb_ltb; apply Z.ltb_ge; lia).
  destruct (validateURL node (SanitizeString node s1)) as [fURL strErr] eqn:Ev.
  simpl in Hurl. subst fURL.
  unfold_check. use_eqs. simpl. use_eqs. reflexivity.
Qed.

(** X4. A request that passes the name, URL, count and start checks and
    whose address does not decode to a valid destination is rejected with
    "Invalid hemis address", before the amount is read. *)
Theorem checkBudgetInputs_bad_address (S : Type) (node : Node)
    (g_budgetman : BudgetManager S) (params : list UniValue) (st : S)
    (addr : string) :
  name_ok node params -> url_ok node params -> count_ok node params ->
  start_ok node params ->
  get_str (idx params 4) = Ok addr ->
  IsValidDestination node (DecodeDestination node addr) = false ->
  checkBudgetInputs node g_budgetman params st = (Throw err_address, st).
Proof.
  intros (s0 & E0 & Hlen) (s1 & E1 & Hurl) (cnt & E2 & Hcnt)
         (h & start & Etip & E3 & Hmin & Hrem) E4 Haddr.
  apply Nat.ltb_ge in Hlen.
  assert (Ec1 : (cnt <? 1) = false) by (apply Z.ltb_ge; lia).
  assert (Ec2 : (cnt >? nMaxProposalPayments node) = false)
    by (rewrite Z.gtb_ltb; apply Z.ltb_ge; lia).
  assert (Es : (start <? nextCycleStart h (nBudgetCycleBlocks node))
               || negb (int_rem start (nBudgetCycleBlocks node) =? 0) = false).
  { apply orb_false_iff. split; [now apply Z.ltb_ge|].
    rewrite Hrem. reflexivity. }
  destruct (validateURL node (SanitizeString node s1)) as [fURL strErr] eqn:Ev.
  simpl in Hurl. subst fURL.
  unfold_check. use_eqs. simpl. use_eqs. simpl. use_eqs. reflexivity.
Qed.

Lemma checkBudgetInputs_warmup_witness :
  checkBudgetInputs LabNodes.warming_up Bench.manager
    [VSTR "test-proposal"; VSTR "https://forum.hemis.org/t/test-proposal";
     VNUM 2] Bench.store
  = (Throw (JSONRPCError RPC_IN_WARMUP
              "Try again after active chain is loaded"), Bench.store).
Proof.
  apply (checkBudgetInputs_warmup Bench.Store LabNodes.warming_up
           Bench.manager).
  - exists "test-proposal". split; [reflexivity | simpl; lia].
  - eexists. split; reflexivity.
  - exists 2. split; [reflexivity | simpl; lia].
  - reflexivity.
Defined.

Lemma checkBudgetInputs_bad_address_witness :
  checkBudgetInputs Bench.node Bench.manager
    [VSTR "test-proposal"; VSTR "https://forum.hemis.org/t/test-proposal";
     VNUM 2; VNUM 43200; VSTR ""] Bench.store
  = (Throw (JSONRPCError RPC_INVALID_ADDRESS_OR_KEY "Invalid hemis address"),
     Bench.store).
Proof.
  apply (checkBudgetInputs_bad_address Bench.Store Bench.node Bench.manager
           _ Bench.store "").
  - exists "test-proposal". split; [reflexivity | simpl; lia].
  - eexists. split; reflexivity.
  - exists 2. split; [reflexivity | simpl; lia].
  - exists 900, 43200. repeat split; vm_compute; discriminate.
  - reflexivity.
  - reflexivity.
Defined.

(** ** Submitting a proposal *)




(** ** The next superblock when no chain is loaded *)

(** X6. [getnextsuperblock] answers the string "unknown" when the active
    chain has a negative height, throws its usage text when asked for help
    or given any parameter, and never changes the state. *)
Theorem getnextsuperblock_edges (S : Type) (node : Node)
    (request : JSONRPCRequest) (st : S) :
  (fHelp request = true \/ params request <> [] ->
   getnextsuperblock node request st
   = (Throw (runtime_error (usage node "getnextsuperblock")), st))
  /\ (fHelp request = false -> params request = [] ->
      chainActive_Height node < 0 ->
      getnextsuperblock node request st = (Ok (VSTR "unknown"), st))
  /\ final (getnextsuperblock node request) st = st.
Proof.
  unfold final, getnextsuperblock, bind, throw_if, throw, ret.
  repeat split.
  - intros [Hhelp | Hparams].
    + rewrite Hhelp. reflexivity.
    + destruct (params request); [contradiction|].
      rewrite orb_true_r. reflexivity.
  - intros Hhelp Hparams Hneg. rewrite Hhelp, Hparams. simpl.
    apply Z.ltb_lt in Hneg. rewrite Hneg. reflexivity.
  - destruct (fHelp request || _); simpl; [reflexivity|].
    destruct (chainActive_Height node <? 0); reflexivity.
Qed.

Lemma getnextsuperblock_edges_witness :
  getnextsuperblock LabNodes.warming_up {| fHelp := false; params := [] |}
    Bench.store
  = (Ok (VSTR "unknown"), Bench.store)
  /\ getnextsuperblock Bench.node {| fHelp := false; params := [VNUM 1] |}
       Bench.store
     = (Throw (runtime_error "getnextsuperblock"), Bench.store).
Proof.
  split.
  - destruct (getnextsuperblock_edges Bench.Store LabNodes.warming_up
                {| fHelp := false; params := [] |} Bench.store)
      as (_ & H & _).
    apply H; [reflexivity | reflexivity | simpl; lia].
  - destruct (getnextsuperblock_edges Bench.Store Bench.node
                {| fHelp := false; params := [VNUM 1] |} Bench.store)
      as (H & _).
    apply H. right. discriminate.
Defined.

(** ** The JSON of a proposal *)

Lemma budgetToJSON_appends (node : Node) (p : CBudgetProposal.t)
    (bObj : list (string * UniValue)) (h : Z) :
  budgetToJSON node p bObj h = (bObj ++ budgetToJSON node p [] h)%list.
Proof.
  unfold budgetToJSON, pushKV.
  destruct (CBudgetProposal.IsValid p); simpl;
    repeat rewrite <- app_assoc; reflexivity.
Qed.

Lemma budgetToJSON_keys_nil (node : Node) (p : CBudgetProposal.t) (h : Z) :
  map fst (budgetToJSON node p [] h)
  = budget_keys (CBudgetProposal.IsValid p).
Proof.
  unfold budgetToJSON, pushKV, budget_keys.
  destruct (CBudgetProposal.IsValid p); reflexivity.
Qed.

(** X7. Given an object with distinct keys that holds none of the keys
    [budgetToJSON] writes (a fresh object at every call site), the
    function adds its entries after the ones already there.  The keys it
    adds are always the same seventeen followed by "Allotted", with
    "IsInvalidReason" in between exactly when the proposal is not valid;
    no key occurs twice in the result, so no [pushKV] of the function meets
    a key that is already present, and "TotalBudgetAllotted" is not among
    the keys added. *)
Theorem budgetToJSON_keys (node : Node) (p : CBudgetProposal.t)
    (bObj : list (string * UniValue)) (h : Z) :
  NoDup (map fst bObj) ->
  (forall k, In k (map fst bObj) ->
             ~ In k (budget_keys (CBudgetProposal.IsValid p))) ->
  budgetToJSON node p bObj h = (bObj ++ budgetToJSON node p [] h)%list
  /\ map fst (budgetToJSON node p bObj h)
     = (map fst bObj ++ budget_keys (CBudgetProposal.IsValid p))%list
  /\ NoDup (map fst (budgetToJSON node p bObj h))
  /\ (In "IsInvalidReason" (budget_keys (CBudgetProposal.IsValid p))
      <-> CBudgetProposal.IsValid p = false)
  /\ ~ In "TotalBudgetAllotted" (budget_keys (CBudgetProposal.IsValid p)).
Proof.
  intros Hdistinct Hfresh.
  assert (Hkeys : map fst (budgetToJSON node p bObj h)
                  = (map fst bObj
                     ++ budget_keys (CBudgetProposal.IsValid p))%list).
  { rewrite budgetToJSON_appends, map_app, budgetToJSON_keys_nil.
    reflexivity. }
  assert (Hnodup : forall b, NoDup (budget_keys b)).
  { intros b. unfold budget_keys. destruct b; simpl;
      repeat (constructor; [simpl; intuition discriminate|]); constructor. }
  split; [apply budgetToJSON_appends|]. split; [exact Hkeys|].
  split; [rewrite Hkeys; apply NoDup_app; auto|].
  unfold budget_keys. destruct (CBudgetProposal.IsValid p); simpl.
  - split; [split; [intuition discriminate | discriminate]|].
    intuition discriminate.
  - split; [split; [reflexivity | intros _; tauto]|].
    intuition discriminate.
Qed.

Lemma budgetToJSON_find (node : Node) (p : CBudgetProposal.t) (h : Z) :
  find_value (VOBJ (budgetToJSON node p [] h)) "IsValid"
  = VBOOL (CBudgetProposal.IsValid p)
  /\ find_value (VOBJ (budgetToJSON node p [] h)) "IsInvalidReason"
     = (if CBudgetProposal.IsValid p then VNULL
        else VSTR (CBudgetProposal.IsInvalidReason p)).
Proof.
  unfold find_value, budgetToJSON, pushKV.
  destruct (CBudgetProposal.IsValid p); split; reflexivity.
Qed.

(** X8. Looking values up in the JSON of a proposal gives back what the
    proposal's accessors return: the name, the validity flag, the invalid
    reason (null for a valid proposal), the monthly payment, and the total
    payment as the 64-bit product of amount and payment count. *)
Theorem budgetToJSON_lookup (node : Node) (p : CBudgetProposal.t) (h : Z) :
  let obj := VOBJ (budgetToJSON node p [] h) in
  find_value obj "Name" = VSTR (CBudgetProposal.GetName p)
  /\ find_value obj "IsValid" = VBOOL (CBudgetProposal.IsValid p)
  /\ find_value obj "IsInvalidReason"
     = (if CBudgetProposal.IsValid p then VNULL
        else VSTR (CBudgetProposal.IsInvalidReason p))
  /\ find_value obj "RemainingPaymentCount"
     = VNUM (CBudgetProposal.GetRemainingPaymentCount p h)
  /\ find_value obj "MonthlyPayment"
     = ValueFromAmount node (CBudgetProposal.GetAmount p)
  /\ find_value obj "TotalPayment"
     = ValueFromAmount node
         (wrap64 (CBudgetProposal.GetAmount p
                  * CBudgetProposal.GetTotalPaymentCount p)).
Proof.
  unfold find_value, budgetToJSON, pushKV.
  destruct (CBudgetProposal.IsValid p); repeat split; reflexivity.
Qed.

(** ** Listings *)

(** X9. Every entry of the listing [getbudgetinfo] gives without a name
    is the JSON of a stored proposal, carries "IsValid": true and has no
    "IsInvalidReason"; the listing has as many entries as there are valid
    proposals. *)
Theorem getbudgetinfo_listing_entries (S : Type) (node : Node)
    (g_budgetman : BudgetManager S) (st : S) :
  exists rows,
    getbudgetinfo node g_budgetman {| fHelp := false; params := [] |} st
    = (Ok (VARR rows), st)
    /\ List.length rows
       = List.length (filter CBudgetProposal.IsValid
                        (GetAllProposalsOrdered g_budgetman st))
    /\ forall row,
         In row rows ->
         find_value row "IsValid" = VBOOL true
         /\ find_value row "IsInvalidReason" = VNULL
         /\ exists p,
              In p (GetAllProposalsOrdered g_budgetman st)
              /\ row = VOBJ (budgetToJSON node p []
                               (GetBestHeight g_budgetman st)).
Proof.
  eexists. split; [|split].
  - unfold getbudgetinfo, bind, throw_if, gets, ret. simpl.
    rewrite getbudgetinfo_loop_spec. reflexivity.
  - simpl. now rewrite length_map.
  - intros row Hin. simpl in Hin. apply in_map_iff in Hin.
    destruct Hin as (p & <- & Hp). apply filter_In in Hp.
    destruct Hp as [Hall Hvalid].
    pose proof (budgetToJSON_find node p (GetBestHeight g_budgetman st))
      as (Hv & Hr).
    rewrite Hvalid in Hv, Hr. repeat split; try assumption.
    exists p. auto.
Qed.

(** ** The budget projection *)

Lemma wrap64_id (z : Z) : INT64_MIN <= z <= INT64_MAX -> wrap64 z = z.
Proof.
  unfold INT64_MIN, INT64_MAX, wrap64. intros Hz.
  rewrite Z.mod_small; lia.
Qed.

Lemma sum_allotted_nonneg (l : list CBudgetProposal.t) :
  (forall p, In p l -> 0 <= CBudgetProposal.GetAllotted p) ->
  0 <= sum_allotted l.
Proof.
  induction l as [|p rest IH]; simpl; intros Hpos; [lia|].
  pose proof (Hpos p (or_introl eq_refl)).
  assert (0 <= sum_allotted rest) by (apply IH; intros q Hq; apply Hpos; auto).
  lia.
Qed.

Lemma getbudgetprojection_loop_spec (S : Type) (node : Node)
    (g_budgetman : BudgetManager S) (l : list CBudgetProposal.t) :
  forall (total : Z) (acc : list UniValue) (st : S),
    (forall p, In p l -> 0 <= CBudgetProposal.GetAllotted p) ->
    0 <= total -> total + sum_allotted l <= INT64_MAX ->
    getbudgetprojection_loop node g_budgetman l total acc st
    = (Ok (acc ++ projection_rows node (GetBestHeight g_budgetman st)
                    total l)%list, st).
Proof.
  induction l as [|p rest IH]; intros total acc st Hpos Htotal Hmax; simpl.
  - unfold ret. now rewrite app_nil_r.
  - unfold bind, gets.
    pose proof (Hpos p (or_introl eq_refl)) as Hp.
    assert (Hrest : forall q, In q rest -> 0 <= CBudgetProposal.GetAllotted q)
      by (intros q Hq; apply Hpos; now right).
    pose proof (sum_allotted_nonneg rest Hrest) as Hsum.
    simpl in Hmax.
    rewrite wrap64_id by (unfold INT64_MIN, INT64_MAX in *; lia).
    rewrite IH by (try assumption; lia).
    unfold pushKV. rewrite <- app_assoc. reflexivity.
Qed.

Lemma projection_rows_nth (node : Node) (h : Z) (l : list CBudgetProposal.t) :
  forall (total : Z) (k : nat) (p : CBudgetProposal.t),
    nth_error l k = Some p ->
    nth_error (projection_rows node h total l) k
    = Some (VOBJ (budgetToJSON node p [] h
                  ++ [("TotalBudgetAllotted",
                       ValueFromAmount node
                         (total + sum_allotted (firstn (Datatypes.S k) l)))])).
Proof.
  induction l as [|q rest IH]; intros total k p Hk.
  - destruct k; discriminate.
  - destruct k as [|k].
    + simpl in Hk. injection Hk as ->.
      cbn [projection_rows nth_error firstn sum_allotted].
      rewrite Z.add_0_r. reflexivity.
    + simpl in Hk. cbn [projection_rows nth_error].
      rewrite (IH _ k p Hk).
      cbn [firstn sum_allotted]. rewrite Z.add_assoc. reflexivity.
Qed.

Lemma projection_rows_length (node : Node) (h : Z)
    (l : list CBudgetProposal.t) :
  forall total, List.length (projection_rows node h total l) = List.length l.
Proof.
  induction l as [|p rest IH]; intros total; simpl;
    [reflexivity | now rewrite IH].
Qed.

(** X11. In the budget projection the k-th row is the JSON of the k-th
    proposal of the budget followed by "TotalBudgetAllotted", whose value
    is the sum of the allotted amounts of the proposals up to and
    including that one; there is one row per proposal.  This holds when the
    allotted amounts are not negative and their sum fits a signed 64-bit
    amount. *)
Theorem getbudgetprojection_running_total (S : Type) (node : Node)
    (g_budgetman : BudgetManager S) (svc : Services S) (st : S) :
  (forall p, In p (GetBudget svc st) -> 0 <= CBudgetProposal.GetAllotted p) ->
  sum_allotted (GetBudget svc st) <= INT64_MAX ->
  exists rows,
    getbudgetprojection node g_budgetman svc
      {| fHelp := false; params := [] |} st
    = (Ok (VARR rows), st)
    /\ List.length rows = List.length (GetBudget svc st)
    /\ forall k p,
         nth_error (GetBudget svc st) k = Some p ->
         nth_error rows k
         = Some (VOBJ (budgetToJSON node p [] (GetBestHeight g_budgetman st)
                       ++ [("TotalBudgetAllotted",
                            ValueFromAmount node
                              (sum_allotted
                                 (firstn (Datatypes.S k)
                                    (GetBudget svc st))))])).
Proof.
  intros Hpos Hmax.
  exists (projection_rows node (GetBestHeight g_budgetman st) 0
            (GetBudget svc st)).
  split; [|split].
  - unfold getbudgetprojection, bind, throw_if, gets, ret. simpl.
    rewrite getbudgetprojection_loop_spec by (try assumption; lia).
    reflexivity.
  - apply projection_rows_length.
  - intros k p Hk. now rewrite (projection_rows_nth _ _ _ 0 k p Hk).
Qed.

(** Two funded proposals, allotted 7 and 5: the rows carry 7 and 12. *)
Lemma getbudgetprojection_running_total_witness :
  exists row0 row1,
    getbudgetprojection Bench.node Lab.manager (Lab.services true false)
        {| fHelp := false; params := [] |} (Lab.world Lab.funded true)
    = (Ok (VARR [row0; row1]), Lab.world Lab.funded true)
    /\ find_value row0 "Name" = VSTR "alpha"
    /\ find_value row0 "TotalBudgetAllotted" = ValueFromAmount Bench.node 7
    /\ find_value row1 "Name" = VSTR "gamma"
    /\ find_value row1 "TotalBudgetAllotted" = ValueFromAmount Bench.node 12.
Proof.
  destruct (getbudgetprojection_running_total Lab.World Bench.node
              Lab.manager (Lab.services true false)
              (Lab.world Lab.funded true)) as (rows & Hrun & Hlen & Hnth).
  - intros p [<- | [<- | []]]; simpl; lia.
  - vm_compute. discriminate.
  - destruct rows as [|row0 [|row1 [|row2 rest]]]; try discriminate Hlen.
    exists row0, row1. split; [exact Hrun|].
    pose proof (Hnth 0%nat _ eq_refl) as H0.
    pose proof (Hnth 1%nat _ eq_refl) as H1.
    injection H0 as ->. injection H1 as ->.
    repeat split; reflexivity.
Defined.

(** ** The votes of a proposal *)

Lemma getbudgetvotes_loop_spec (S : Type) (svc : Services S)
    (votes : list (COutPoint * CBudgetVote.t)) :
  forall acc,
    getbudgetvotes_loop svc votes acc
    = (acc ++ map (fun it => CBudgetVote_ToJSON svc (snd it)) votes)%list.
Proof.
  induction votes as [|it rest IH]; intros acc; simpl.
  - now rewrite app_nil_r.
  - rewrite IH, <- app_assoc. reflexivity.
Qed.

(** X12. Given one string parameter, [getbudgetvotes] looks the proposal
    up under the sanitized name exactly as [getbudgetinfo] does: it throws
    "Unknown proposal name" for the same names, and otherwise answers one
    JSON value per vote of the proposal, in the order of the vote map.  It
    never looks at the help flag. *)
Theorem getbudgetvotes_by_name (S : Type) (node : Node)
    (g_budgetman : BudgetManager S) (svc : Services S) (st : S)
    (name : string) (help : bool) :
  let found := FindProposalByName g_budgetman st (SanitizeString node name) in
  let votes := getbudgetvotes node g_budgetman svc
                 {| fHelp := help; params := [VSTR name] |} st in
  let info := getbudgetinfo node g_budgetman
                {| fHelp := false; params := [VSTR name] |} st in
  votes
  = (match found with
     | Some p =>
       Ok (VARR (map (fun it => CBudgetVote_ToJSON svc (snd it))
                   (Proposal_GetVotes svc p)))
     | None => Throw (runtime_error "Unknown proposal name")
     end, st)
  /\ (fst votes = Throw (runtime_error "Unknown proposal name")
      <-> fst info = Throw (runtime_error "Unknown proposal name"))
  /\ ((exists v, fst votes = Ok v) <-> (exists v, fst info = Ok v)).
Proof.
  intros found votes info.
  assert (Hvotes : votes
                   = (match found with
                      | Some p =>
                        Ok (VARR (map (fun it => CBudgetVote_ToJSON svc (snd it))
                                    (Proposal_GetVotes svc p)))
                      | None => Throw (runtime_error "Unknown proposal name")
                      end, st)).
  { unfold votes, getbudgetvotes, bind, throw_if, gets, ret, lift, throw.
    simpl. fold found. destruct found; [|reflexivity].
    rewrite getbudgetvotes_loop_spec. reflexivity. }
  assert (Hinfo : fst info
                  = match found with
                    | Some p =>
                      Ok (VARR [VOBJ (budgetToJSON node p []
                                        (GetBestHeight g_budgetman st))])
                    | None => Throw (runtime_error "Unknown proposal name")
                    end).
  { unfold info, getbudgetinfo, bind, throw_if, gets, ret, lift, throw.
    simpl. fold found. destruct found; reflexivity. }
  split; [exact Hvotes|]. rewrite Hvotes, Hinfo. simpl.
  destruct found; split; split; intros H;
    try discriminate; try reflexivity; try (destruct H; discriminate);
    eauto.
Qed.

(** ** Sweeping and cleaning *)

(** X13. [checkbudgets] runs the sweep [CheckAndRemove] exactly when the
    node reports itself synced; otherwise it throws
    RPC_CLIENT_IN_INITIAL_DOWNLOAD and the state is unchanged.  Asked for
    help or given a parameter it throws its usage text, also without
    sweeping. *)
Theorem checkbudgets_sweeps_only_when_synced (S : Type) (node : Node)
    (svc : Services S) (request : JSONRPCRequest) (st : S) :
  (fHelp request = false -> params request = [] ->
   checkbudgets node svc request st
   = if IsSynced svc st then (Ok VNULL, CheckAndRemove svc st)
     else (Throw err_not_synced, st))
  /\ (fHelp request = true \/ params request <> [] ->
      checkbudgets node svc request st
      = (Throw (runtime_error (usage node "checkbudgets")), st)).
Proof.
  unfold checkbudgets, bind, throw_if, throw, gets, modify, ret. split.
  - intros Hhelp Hparams. rewrite Hhelp, Hparams. simpl.
    destruct (IsSynced svc st); reflexivity.
  - intros [Hhelp | Hparams].
    + rewrite Hhelp. reflexivity.
    + destruct (params request); [contradiction|].
      rewrite orb_true_r. reflexivity.
Qed.

Lemma checkbudgets_sweeps_only_when_synced_witness :
  checkbudgets Bench.node (Lab.services true false) (Lab.call_with [])
    (Lab.world Bench.store false)
  = (Throw err_not_synced, Lab.world Bench.store false)
  /\ Bench.mapProposals
       (Lab.budget
          (final (checkbudgets Bench.node (Lab.services true false)
                    (Lab.call_with [])) (Lab.world Bench.store true)))
     = [Bench.proposal "alpha" 42 "Y" 500 43200 2 true].
Proof.
  split.
  - exact (proj1 (checkbudgets_sweeps_only_when_synced Lab.World Bench.node
                    (Lab.services true false) (Lab.call_with [])
                    (Lab.world Bench.store false)) eq_refl eq_refl).
  - unfold final.
    rewrite (proj1 (checkbudgets_sweeps_only_when_synced Lab.World Bench.node
                      (Lab.services true false) (Lab.call_with [])
                      (Lab.world Bench.store true)) eq_refl eq_refl).
    reflexivity.
Defined.

(** X14. [cleanbudget] clears the budget data before it looks at its
    argument.  With no argument, or with [false], the result is the
    cleared state; with [true] the sync state is reset on top of it; and
    with an argument that is not a boolean the command throws a type error
    although the budget data has already been cleared. *)
Theorem cleanbudget_clears_first (S : Type) (node : Node)
    (svc : Services S) (st : S) (v : UniValue) :
  cleanbudget node svc {| fHelp := false; params := [] |} st
  = (Ok VNULL, Clear svc st)
  /\ cleanbudget node svc {| fHelp := false; params := [VBOOL false] |} st
     = (Ok VNULL, Clear svc st)
  /\ cleanbudget node svc {| fHelp := false; params := [VBOOL true] |} st
     = (Ok VNULL, Reset svc (ClearFulfilledRequest svc (Clear svc st)))
  /\ ((forall b, v <> VBOOL b) ->
      cleanbudget node svc {| fHelp := false; params := [v] |} st
      = (Throw (runtime_error "JSON value is not a boolean as expected"),
         Clear svc st)).
Proof.
  unfold cleanbudget, bind, throw_if, throw, modify, ret, lift.
  repeat split.
  intros Hv. simpl. destruct v; try reflexivity.
  exfalso. now apply (Hv b).
Qed.

Lemma cleanbudget_clears_first_witness :
  cleanbudget Bench.node (Lab.services true false)
    (Lab.call_with [VSTR "true"]) (Lab.world Bench.store true)
  = (Throw (runtime_error "JSON value is not a boolean as expected"),
     Lab.world {| Bench.mapProposals := []; Bench.mapFinalizedBudgets := [];
                  Bench.mapSeenProposalVotes := [] |} true).
Proof.
  destruct (cleanbudget_clears_first Lab.World Bench.node
              (Lab.services true false) (Lab.world Bench.store true)
              (VSTR "true")) as (_ & _ & _ & H).
  apply H. intros b. discriminate.
Defined.

(** ** Commands of the regression test network *)

(** X15. Off the regression test network, [gmfinalbudgetsuggest] and
    [createrawgmfinalbudget] throw for every request and leave the state
    unchanged: no budget is submitted or added and the wallet is not
    used.  When the request is not a malformed call, what they throw is
    "command available only for RegTest network". *)
Theorem regtest_only_commands (S : Type) (node : Node)
    (svc : Services S) (request : JSONRPCRequest) (st : S) :
  IsRegTestNet svc = false ->
  (exists e, gmfinalbudgetsuggest node svc request st = (Throw e, st))
  /\ (exists e, createrawgmfinalbudget node svc request st = (Throw e, st))
  /\ (fHelp request = false -> params request = [] ->
      gmfinalbudgetsuggest node svc request st = (Throw err_regtest_only, st))
  /\ (fHelp request = false -> (List.length (params request) <= 4)%nat ->
      createrawgmfinalbudget node svc request st
      = (Throw err_regtest_only, st)).
Proof.
  intros Hreg.
  unfold gmfinalbudgetsuggest, createrawgmfinalbudget, bind, throw_if, throw,
    ret. rewrite Hreg. repeat split.
  - destruct (fHelp request || _); simpl; eauto.
  - destruct (fHelp request || _); simpl; eauto.
  - intros Hhelp Hparams. rewrite Hhelp, Hparams. reflexivity.
  - intros Hhelp Hlen. rewrite Hhelp.
    apply Nat.ltb_ge in Hlen. rewrite Hlen. reflexivity.
Qed.

Lemma regtest_only_commands_witness :
  createrawgmfinalbudget Bench.node (Lab.services false false)
    (Lab.call_with [VSTR "main"; VNUM 43200; VARR []; VSTR "0x63"])
    (Lab.world Bench.store true)
  = (Throw (JSONRPCError RPC_MISC_ERROR
              "command available only for RegTest network"),
     Lab.world Bench.store true).
Proof.
  destruct (regtest_only_commands Lab.World Bench.node
              (Lab.services false false)
              (Lab.call_with [VSTR "main"; VNUM 43200; VARR []; VSTR "0x63"])
              (Lab.world Bench.store true) eq_refl) as (_ & _ & _ & H).
  apply H; [reflexivity | simpl; lia].
Defined.

(** ** Voting on proposals *)

Ltac vote_reduce :=
  repeat (first [ progress use_eqs
                | progress cbn beta iota zeta delta
                    [negb andb orb fst snd List.length Nat.eqb Nat.ltb
                     Nat.leb] ]).

Ltac vote_unfold :=
  unfold gmbudgetvote, gmfinalbudget, bind, lift, throw_if, throw, ret, gets,
    try_gets.

Ltac plan_leaf :=
  eexists; split;
  [ let voting := fresh "voting" in
    intros voting; vote_unfold; vote_reduce;
    match goal with
    | |- (?o, _) = _ =>
      refine (eq_refl : _ = run_plan voting (Answer o) _)
    | |- gmLocalBudgetVoteInner _ ?a ?b ?c ?d _ = _ =>
      refine (eq_refl : _ = run_plan voting (CastLocal a b c d) _)
    | |- gmBudgetVoteInner _ ?w ?a ?b ?c ?d ?e _ = _ =>
      refine (eq_refl : _ = run_plan voting (CastMany w a b c d e) _)
    end
  | first [ exact I
          | split; [reflexivity | discriminate]
          | split; [reflexivity
                   | intros ->; eapply parseVote_not_abstain; eassumption]
          | split; reflexivity ] ].

Lemma legacy_flag_run (S : Type) (svc : Services S)
    (request : JSONRPCRequest) (i : nat) (st : S) :
  exists flo, legacy_flag svc request i st = (flo, st).
Proof.
  unfold legacy_flag, ret, lift.
  destruct (negb (IsDIP3Enforced svc)); [eauto|].
  destruct (Nat.ltb i (List.length (params request))); eauto.
Qed.

(** What [gmbudgetvote] does with the casting helpers, whatever they are. *)
Lemma gmbudgetvote_plan (S : Type) (node : Node) (svc : Services S)
    (request : JSONRPCRequest) (st : S) :
  exists plan,
    (forall voting : Voting S,
        gmbudgetvote node svc voting request st = run_plan voting plan st)
    /\ plan_ok false plan.
Proof.
  destruct (Nat.leb 1 (List.length (params request))) eqn:Esize.
  - destruct (get_str (idx (params request) 0)) as [p0|e] eqn:E0;
      [|plan_leaf].
    destruct (fHelp request
              || Nat.eqb (List.length (params request)) 3
                 && (str_ne (legacy_command p0) "local"
                     && str_ne (legacy_command p0) "many")
              || Nat.eqb (List.length (params request)) 4
                 && str_ne (legacy_command p0) "alias"
              || Nat.ltb 5 (List.length (params request))
              || Nat.ltb (List.length (params request)) 3) eqn:Econd;
      [plan_leaf|].
    destruct (ParseHashV node (idx (params request) 1) "parameter 1")
      as [h|e] eqn:E1; [|plan_leaf].
    destruct (get_str (idx (params request) 2)) as [p2|e] eqn:E2;
      [|plan_leaf].
    destruct (parseVote p2) as [nVote|e] eqn:Ev; [|plan_leaf].
    destruct (legacy_flag_run S svc request 4 st) as [flo Hfl].
    destruct flo as [fLegacyGM|e]; [|plan_leaf].
    destruct (String.eqb (legacy_command p0) "local") eqn:Elocal.
    + destruct fLegacyGM; plan_leaf.
    + destruct (String.eqb (legacy_command p0) "many") eqn:Emany;
        destruct (String.eqb (legacy_command p0) "alias") eqn:Ealias;
        destruct (get_str (idx (params request) 3)) as [p3|e3] eqn:E3;
        destruct fLegacyGM;
        try plan_leaf;
        (destruct (EnsureWalletIsAvailable svc
                     (GetWalletForJSONRPCRequest svc request st) false)
           as [[|]|eav] eqn:Eav; [|plan_leaf|plan_leaf]);
        (destruct (EnsureWalletIsUnlocked svc
                     (GetWalletForJSONRPCRequest svc request st) st)
           as [[]|eun] eqn:Eun);
        plan_leaf.
  - assert (Hlen : List.length (params request) = 0%nat).
    { apply Nat.leb_gt in Esize. lia. }
    destruct (fHelp request) eqn:Ehelp; plan_leaf.
Qed.

(** X16. Whatever the vote casting helpers do, [gmbudgetvote] uses them
    at most once, as its last step and from the state it was called in:
    either it answers by itself (a result or an exception, state
    unchanged), or it ends with one call of gmLocalBudgetVoteInner or
    gmBudgetVoteInner for a proposal vote (fFinal false) whose direction
    is yes or no, never abstain. *)
Theorem gmbudgetvote_casts_one_checked_vote (S : Type) (node : Node)
    (svc : Services S) (request : JSONRPCRequest) (st : S) :
  exists plan,
    (forall voting : Voting S,
        gmbudgetvote node svc voting request st = run_plan voting plan st)
    /\ match plan_casts plan with
       | None => True
       | Some (fFinal, nVote) =>
         fFinal = false
         /\ (nVote = CBudgetVote.VOTE_YES \/ nVote = CBudgetVote.VOTE_NO)
       end.
Proof.
  destruct (gmbudgetvote_plan S node svc request st) as (plan & Hrun & Hok).
  exists plan. split; [exact Hrun|].
  unfold plan_ok in Hok. destruct (plan_casts plan) as [[fFinal nVote]|];
    [|exact I].
  destruct Hok as [Hf Hv]. split; [exact Hf|].
  destruct nVote; [contradiction | now left | now right].
Qed.

Lemma gmbudgetvote_casts_one_checked_vote_witness :
  exists plan,
    (forall voting : Voting Lab.World,
        gmbudgetvote Bench.node (Lab.services true false) voting
          (Lab.call_with [VSTR "vote-many"; VSTR "0x2a"; VSTR "no"])
          (Lab.world Bench.store true)
        = run_plan voting plan (Lab.world Bench.store true))
    /\ match plan_casts plan with
       | None => True
       | Some (fFinal, nVote) =>
         fFinal = false
         /\ (nVote = CBudgetVote.VOTE_YES \/ nVote = CBudgetVote.VOTE_NO)
       end.
Proof.
  exact (gmbudgetvote_casts_one_checked_vote Lab.World Bench.node
           (Lab.services true false)
           (Lab.call_with [VSTR "vote-many"; VSTR "0x2a"; VSTR "no"])
           (Lab.world Bench.store true)).
Defined.

(** The legacy command names on the test bench. *)
Example gmbudgetvote_vote_many_run :
  Lab.votesCast
    (final (gmbudgetvote Bench.node (Lab.services true false) Lab.voting
              (Lab.call_with [VSTR "vote-many"; VSTR "0x2a"; VSTR "no"]))
       (Lab.world Bench.store true))
  = [{| Lab.cast_local := false; Lab.cast_legacy := true;
        Lab.cast_hash := 42; Lab.cast_final := false;
        Lab.cast_vote := CBudgetVote.VOTE_NO; Lab.cast_alias := None |}].
Proof. reflexivity. Qed.

(** X17. The legacy mode names "vote", "vote-many" and "vote-alias" of
    [gmbudgetvote] behave exactly like "local", "many" and "alias": on a
    node whose wallet does not depend on the request, the two calls give
    the same result and the same final state, for all further arguments. *)
Theorem gmbudgetvote_legacy_names (S : Type) (node : Node)
    (svc : Services S) (voting : Voting S) (help : bool)
    (rest : list UniValue) (st : S) (pwallet : option CWallet) :
  (forall r, GetWalletForJSONRPCRequest svc r st = pwallet) ->
  let run mode :=
    gmbudgetvote node svc voting
      {| fHelp := help; params := VSTR mode :: rest |} st in
  run "vote" = run "local"
  /\ run "vote-many" = run "many"
  /\ run "vote-alias" = run "alias".
Proof.
  intros Hw run. unfold run, gmbudgetvote, legacy_flag, bind, gets, lift, ret.
  cbn [params fHelp List.length idx nth get_str Nat.leb].
  rewrite !Hw. repeat split; reflexivity.
Qed.

Lemma gmbudgetvote_legacy_names_witness :
  gmbudgetvote Bench.node (Lab.services true false) Lab.voting
    (Lab.call_with [VSTR "vote-alias"; VSTR "0x2a"; VSTR "yes"; VSTR "gm1"])
    (Lab.world Bench.store true)
  = gmbudgetvote Bench.node (Lab.services true false) Lab.voting
      (Lab.call_with [VSTR "alias"; VSTR "0x2a"; VSTR "yes"; VSTR "gm1"])
      (Lab.world Bench.store true).
Proof.
  exact (proj2 (proj2
    (gmbudgetvote_legacy_names Lab.World Bench.node (Lab.services true false)
       Lab.voting false [VSTR "0x2a"; VSTR "yes"; VSTR "gm1"]
       (Lab.world Bench.store true) (Some 0%nat) (fun _ => eq_refl)))).
Defined.

(** X18. A "local" vote needs legacy gamemasters.  For a request
    [local hash yes|no] whose hash and vote parse: when deterministic
    gamemasters are enforced the command throws the "local vote is no
    longer available with DGMs" error and casts nothing, whatever the
    casting helpers are; when they are not enforced it ends with
    gmLocalBudgetVoteInner(true, hash, false, vote). *)
Theorem gmbudgetvote_local_needs_legacy (S : Type) (node : Node)
    (svc : Services S) (voting : Voting S) (st : S)
    (vHash : UniValue) (strVote : string) (h : uint256)
    (nVote : CBudgetVote.VoteDirection) :
  ParseHashV node vHash "parameter 1" = Ok h ->
  parseVote strVote = Ok nVote ->
  let request :=
    {| fHelp := false; params := [VSTR "local"; vHash; VSTR strVote] |} in
  (IsDIP3Enforced svc = true ->
   gmbudgetvote node svc voting request st
   = (Throw (err_local_vote_with_DGMs svc), st))
  /\ (IsDIP3Enforced svc = false ->
      gmbudgetvote node svc voting request st
      = gmLocalBudgetVoteInner voting true h false nVote st).
Proof.
  intros Eh Ev request.
  split; intros Edip;
    unfold request, gmbudgetvote, legacy_flag, bind, lift, throw_if, throw,
      ret, gets, try_gets;
    cbn [params fHelp List.length idx nth get_str Nat.leb Nat.eqb Nat.ltb];
    rewrite Edip;
    cbn [legacy_command String.eqb Ascii.eqb Bool.eqb str_ne negb andb orb];
    rewrite Eh; cbn beta iota; rewrite Ev; reflexivity.
Qed.

Lemma gmbudgetvote_local_needs_legacy_witness :
  gmbudgetvote Bench.node (Lab.services true true) Lab.voting
    (Lab.call_with [VSTR "local"; VSTR "0x2a"; VSTR "yes"])
    (Lab.world Bench.store true)
  = (Throw (err_local_vote_with_DGMs (Lab.services true true)),
     Lab.world Bench.store true).
Proof.
  exact (proj1
    (gmbudgetvote_local_needs_legacy Lab.World Bench.node
       (Lab.services true true) Lab.voting (Lab.world Bench.store true)
       (VSTR "0x2a") "yes" 42 CBudgetVote.VOTE_YES eq_refl eq_refl) eq_refl).
Defined.

(** X19. [gmbudgetvote] refuses malformed calls before it parses or casts
    anything: a call whose first parameter is a string with fewer than
    three or more than five parameters, three parameters with a mode other
    than local or many, and four parameters with a mode other than alias
    all throw the usage text, whatever the casting helpers are.  With five
    parameters any mode string passes this check.  An unknown mode then
    never casts a vote and leaves the state as it was: with legacy
    gamemasters (not enforced, or the fifth parameter true) the answer is
    null; otherwise the answer is null when the wallet is unavailable or
    unlocked, and the wallet's error when it is locked. *)
Theorem gmbudgetvote_malformed_calls (S : Type) (node : Node)
    (svc : Services S) (voting : Voting S) (st : S)
    (mode : string) (a b c d : UniValue) (rest : list UniValue) :
  let request l := {| fHelp := false; params := l |} in
  let run l := gmbudgetvote node svc voting (request l) st in
  let usage_error := (Throw (runtime_error (usage node "gmbudgetvote")), st) in
  let five := [VSTR mode; a; b; c; d] in
  let pwallet := GetWalletForJSONRPCRequest svc (request five) st in
  run [] = usage_error
  /\ ((List.length rest < 2)%nat \/ (4 < List.length rest)%nat ->
      run (VSTR mode :: rest) = usage_error)
  /\ (legacy_command mode <> "local" -> legacy_command mode <> "many" ->
      run [VSTR mode; a; b] = usage_error)
  /\ (legacy_command mode <> "alias" -> run [VSTR mode; a; b; c] = usage_error)
  /\ (legacy_command mode <> "local" -> legacy_command mode <> "many" ->
      legacy_command mode <> "alias" ->
      forall h strVote nVote,
        ParseHashV node a "parameter 1" = Ok h ->
        b = VSTR strVote -> parseVote strVote = Ok nVote ->
        (exists o,
            (forall voting' : Voting S,
                gmbudgetvote node svc voting' (request five) st = (o, st))
            /\ (o = Ok VNULL \/ exists e, o = Throw e))
        /\ (IsDIP3Enforced svc = false \/ d = VBOOL true ->
            run five = (Ok VNULL, st))
        /\ (IsDIP3Enforced svc = true -> d = VBOOL false ->
            EnsureWalletIsAvailable svc pwallet false = Ok false ->
            run five = (Ok VNULL, st))
        /\ (IsDIP3Enforced svc = true -> d = VBOOL false ->
            EnsureWalletIsAvailable svc pwallet false = Ok true ->
            EnsureWalletIsUnlocked svc pwallet st = Ok tt ->
            run five = (Ok VNULL, st))
        /\ (forall e,
              IsDIP3Enforced svc = true -> d = VBOOL false ->
              EnsureWalletIsAvailable svc pwallet false = Ok true ->
              EnsureWalletIsUnlocked svc pwallet st = Throw e ->
              run five = (Throw e, st))).
Proof.
  intros request run usage_error five pwallet.
  unfold run, usage_error, pwallet, five, request.
  split; [reflexivity|]. split; [|split; [|split]].
  - intros Hlen.
    unfold gmbudgetvote, bind, lift, throw_if, throw, ret, gets.
    destruct rest as [|x1 [|x2 [|x3 [|x4 [|x5 rest']]]]];
      cbn [List.length] in Hlen; try lia; reflexivity.
  - intros Hl Hm. apply str_ne_true in Hl, Hm.
    unfold gmbudgetvote, bind, lift, throw_if, throw, ret, gets.
    cbn [params fHelp List.length idx nth get_str Nat.leb Nat.eqb Nat.ltb
         negb andb orb].
    rewrite Hl, Hm. reflexivity.
  - intros Ha. apply str_ne_true in Ha.
    unfold gmbudgetvote, bind, lift, throw_if, throw, ret, gets.
    cbn [params fHelp List.length idx nth get_str Nat.leb Nat.eqb Nat.ltb
         negb andb orb].
    rewrite Ha. reflexivity.
  - intros Hl Hm Ha h strVote nVote Eh -> Ev.
    apply String.eqb_neq in Hl, Hm, Ha.
    assert (Hrun : forall voting' : Voting S,
               gmbudgetvote node svc voting'
                 {| fHelp := false; params := [VSTR mode; a; VSTR strVote; c; d] |}
                 st
               = (if negb (IsDIP3Enforced svc) then Ok VNULL
                  else match get_bool d with
                       | Throw e => Throw e
                       | Ok true => Ok VNULL
                       | Ok false =>
                         match EnsureWalletIsAvailable svc
                                 (GetWalletForJSONRPCRequest svc
                                    {| fHelp := false;
                                       params := [VSTR mode; a; VSTR strVote;
                                                  c; d] |} st) false with
                         | Throw e => Throw e
                         | Ok false => Ok VNULL
                         | Ok true =>
                           match EnsureWalletIsUnlocked svc
                                   (GetWalletForJSONRPCRequest svc
                                      {| fHelp := false;
                                         params := [VSTR mode; a;
                                                    VSTR strVote; c; d] |} st)
                                   st with
                           | Throw e => Throw e
                           | Ok _ => Ok VNULL
                           end
                         end
                       end, st)).
    { intros voting'.
      unfold gmbudgetvote, legacy_flag, bind, lift, throw_if, throw, ret, gets,
        try_gets.
      cbn [params fHelp List.length idx nth get_str Nat.leb Nat.eqb Nat.ltb
           negb andb orb].
      rewrite Eh. cbn beta iota. rewrite Ev. cbn beta iota.
      destruct (IsDIP3Enforced svc); cbn [negb].
      - destruct (get_bool d) as [[|]|e]; cbn beta iota; cbn [negb];
          rewrite ?Hl, ?Hm, ?Ha; try reflexivity.
        destruct (EnsureWalletIsAvailable svc _ false) as [[|]|e];
          cbn beta iota; cbn [negb]; try reflexivity.
        destruct (EnsureWalletIsUnlocked svc _ st) as [[]|e];
          cbn beta iota; rewrite ?Hl, ?Hm, ?Ha; reflexivity.
      - rewrite Hl, Hm, Ha. reflexivity. }
    split; [|split; [|split; [|split]]].
    + eexists. split; [exact Hrun|].
      destruct (IsDIP3Enforced svc); cbn [negb]; [|now left].
      destruct (get_bool d) as [[|]|e]; eauto.
      destruct (EnsureWalletIsAvailable svc _ false) as [[|]|e]; eauto.
      destruct (EnsureWalletIsUnlocked svc _ st) as [[]|e]; eauto.
    + rewrite Hrun. intros [-> | ->]; [reflexivity|].
      destruct (IsDIP3Enforced svc); reflexivity.
    + rewrite Hrun. intros -> -> ->. reflexivity.
    + rewrite Hrun. intros -> -> -> ->. reflexivity.
    + rewrite Hrun. intros e -> -> -> ->. reflexivity.
Qed.

(** Under enforced deterministic gamemasters, an unknown mode with the
    legacy flag false on a locked wallet; a call with seven parameters. *)
Lemma gmbudgetvote_malformed_calls_witness :
  gmbudgetvote Bench.node (Lab.locked_services true true) Lab.voting
    (Lab.call_with [VSTR "sideways"; VSTR "0x2a"; VSTR "yes"; VSTR "gm1";
                    VBOOL false])
    (Lab.world Bench.store true)
  = (Throw Lab.err_wallet_locked, Lab.world Bench.store true)
  /\ gmbudgetvote Bench.node (Lab.services true false) Lab.voting
       (Lab.call_with [VSTR "many"; VSTR "0x2a"; VSTR "yes"; VSTR "gm1";
                       VBOOL false; VNUM 1; VNUM 2])
       (Lab.world Bench.store true)
     = (Throw (runtime_error "gmbudgetvote"), Lab.world Bench.store true)
  /\ gmbudgetvote Bench.node (Lab.services true false) Lab.voting
       (Lab.call_with [VSTR "alias"; VSTR "0x2a"; VSTR "yes"])
       (Lab.world Bench.store true)
     = (Throw (runtime_error "gmbudgetvote"), Lab.world Bench.store true).
Proof.
  split; [|split].
  - destruct (gmbudgetvote_malformed_calls Lab.World Bench.node
                (Lab.locked_services true true) Lab.voting
                (Lab.world Bench.store true) "sideways" (VSTR "0x2a")
                (VSTR "yes") (VSTR "gm1") (VBOOL false) [])
      as (_ & _ & _ & _ & H).
    destruct (H ltac:(discriminate) ltac:(discriminate) ltac:(discriminate)
                42 "yes" CBudgetVote.VOTE_YES eq_refl eq_refl eq_refl)
      as (_ & _ & _ & _ & Hlocked).
    exact (Hlocked Lab.err_wallet_locked eq_refl eq_refl eq_refl eq_refl).
  - destruct (gmbudgetvote_malformed_calls Lab.World Bench.node
                (Lab.services true false) Lab.voting
                (Lab.world Bench.store true) "many" VNULL VNULL VNULL VNULL
                [VSTR "0x2a"; VSTR "yes"; VSTR "gm1"; VBOOL false; VNUM 1;
                 VNUM 2])
      as (_ & H & _).
    apply H. right. simpl. lia.
  - destruct (gmbudgetvote_malformed_calls Lab.World Bench.node
                (Lab.services true false) Lab.voting
                (Lab.world Bench.store true) "alias" (VSTR "0x2a") (VSTR "yes")
                VNULL VNULL []) as (_ & _ & H & _).
    apply H; discriminate.
Defined.

(** ** Voting on finalized budgets *)

Lemma gmfinalbudget_show_run (S : Type) (node : Node)
    (g_budgetman : BudgetManager S) (st : S) :
  exists o, gmfinalbudget_show node g_budgetman st = (o, st).
Proof.
  assert (Hro : readonly (gmfinalbudget_show node g_budgetman)).
  { unfold gmfinalbudget_show.
    apply readonly_bind; [apply readonly_gets | intros winningFbs].
    apply readonly_bind; [apply show_loop_readonly | intros resultObj].
    apply readonly_ret. }
  specialize (Hro st). unfold final in Hro.
  destruct (gmfinalbudget_show node g_budgetman st) as [o st'].
  simpl in Hro. subst st'. eauto.
Qed.

Ltac final_leaf Hrun :=
  eexists; split;
  [ let voting := fresh "voting" in
    intros voting; rewrite Hrun;
    unfold bind, lift, throw_if, throw, ret, gets, try_gets, str_ne;
    vote_reduce;
    match goal with
    | |- (?o, _) = _ =>
      refine (eq_refl : _ = run_plan voting (Answer o) _)
    | |- gmLocalBudgetVoteInner _ ?a ?b ?c ?d _ = _ =>
      refine (eq_refl : _ = run_plan voting (CastLocal a b c d) _)
    | |- gmBudgetVoteInner _ ?w ?a ?b ?c ?d ?e _ = _ =>
      refine (eq_refl : _ = run_plan voting (CastMany w a b c d e) _)
    end
  | first [exact I | split; reflexivity] ].

(** X20. Whatever the vote casting helpers do, [gmfinalbudget] uses them
    at most once, as its last step and from the state it was called in;
    the vote it casts is always a final-budget vote (fFinal true) in the
    direction yes.  In every other case, the listing and the vote query
    included, it answers by itself and the state is unchanged. *)
Theorem gmfinalbudget_casts_only_final_yes (S : Type) (node : Node)
    (g_budgetman : BudgetManager S) (svc : Services S)
    (request : JSONRPCRequest) (st : S) :
  exists plan,
    (forall voting : Voting S,
        gmfinalbudget node g_budgetman svc voting request st
        = run_plan voting plan st)
    /\ match plan_casts plan with
       | None => True
       | Some (fFinal, nVote) =>
         fFinal = true /\ nVote = CBudgetVote.VOTE_YES
       end.
Proof.
  destruct (gmfinalbudget_show_run S node g_budgetman st) as [oshow Eshow].
  destruct (legacy_flag_run S svc request 2 st) as [flo Hfl].
  assert (Hcmd : exists co,
             forall k : string -> M S UniValue,
               bind (if Nat.leb 1 (List.length (params request))
                     then lift (get_str (idx (params request) 0))
                     else ret "") k st
               = match co with
                 | Ok c => k c st
                 | Throw e => (Throw e, st)
                 end).
  { unfold bind, lift, ret.
    destruct (Nat.leb 1 (List.length (params request)));
      [|exists (Ok ""); reflexivity].
    destruct (get_str (idx (params request) 0)) as [c|e];
      [exists (Ok c) | exists (Throw e)]; reflexivity. }
  destruct Hcmd as [co Hcmd].
  assert (Hrun : forall voting,
             gmfinalbudget node g_budgetman svc voting request st
             = match co with
               | Ok c =>
                 (fun strCommand =>
                    pwallet <- gets (GetWalletForJSONRPCRequest svc request) ;;
                    throw_if (fHelp request
                              || (str_ne strCommand "vote-many"
                                  && str_ne strCommand "vote"
                                  && str_ne strCommand "show"
                                  && str_ne strCommand "getvotes"))
                      (runtime_error (usage node "gmfinalbudget")) ;;;
                    if String.eqb strCommand "vote-many"
                       || String.eqb strCommand "vote"
                    then
                      throw_if (Nat.ltb (List.length (params request)) 2
                                || Nat.ltb 3 (List.length (params request)))
                        (err_finalbudget_vote_usage strCommand) ;;;
                      hash <- lift (ParseHashV node (idx (params request) 1)
                                      "BUDGET_HASH") ;;
                      fLegacyGM <- legacy_flag svc request 2 ;;
                      unavailable <-
                        (if negb fLegacyGM && String.eqb strCommand "vote-many"
                         then available <-
                                lift (EnsureWalletIsAvailable svc pwallet
                                        false) ;;
                              ret (negb available)
                         else ret false) ;;
                      if unavailable then ret VNULL
                      else if String.eqb strCommand "vote-many"
                      then gmBudgetVoteInner voting pwallet fLegacyGM hash true
                             CBudgetVote.VOTE_YES None
                      else gmLocalBudgetVoteInner voting fLegacyGM hash true
                             CBudgetVote.VOTE_YES
                    else if String.eqb strCommand "show" then
                      gmfinalbudget_show node g_budgetman
                    else if String.eqb strCommand "getvotes" then
                      throw_if (negb (Nat.eqb (List.length (params request))
                                        2)) err_getvotes_usage ;;;
                      hash <- lift (ParseHashV node (idx (params request) 1)
                                      "budget-hash") ;;
                      found <- gets (fun s => FindFinalizedBudget svc s hash) ;;
                      match found with
                      | None => ret (VSTR "Unknown budget hash")
                      | Some pfinalBudget =>
                        ret (VOBJ (getvotes_loop svc
                                     (FinalizedBudget_GetVotes svc pfinalBudget)
                                     []))
                      end
                    else ret VNULL) c st
               | Throw e => (Throw e, st)
               end).
  { intros voting. unfold gmfinalbudget. cbv zeta. rewrite Hcmd.
    destruct co; reflexivity. }
  destruct co as [c|e].
  2:{ exists (Answer (Throw e)). split; [|exact I].
      intros voting. rewrite Hrun. reflexivity. }
  cbv beta in Hrun.
  destruct (fHelp request) eqn:Ehelp.
  { exists (Answer (Throw (runtime_error (usage node "gmfinalbudget")))).
    split; [|exact I]. intros voting. rewrite Hrun.
    unfold bind, gets, throw_if, throw. reflexivity. }
  destruct (String.eqb c "vote-many") eqn:Emany;
    destruct (String.eqb c "vote") eqn:Evote.
  1-3: (destruct (Nat.ltb (List.length (params request)) 2) eqn:Elt2;
        [final_leaf Hrun|];
        destruct (Nat.ltb 3 (List.length (params request))) eqn:Elt3;
        [final_leaf Hrun|];
        destruct (ParseHashV node (idx (params request) 1) "BUDGET_HASH")
          as [h1|eh1] eqn:Eh1; [|final_leaf Hrun];
        destruct flo as [fLegacyGM|efl]; [|final_leaf Hrun];
        destruct fLegacyGM; [final_leaf Hrun|];
        destruct (EnsureWalletIsAvailable svc
                    (GetWalletForJSONRPCRequest svc request st) false)
          as [[|]|eav] eqn:Eav; final_leaf Hrun).
  destruct (String.eqb c "show") eqn:Eshowc; [final_leaf Hrun|].
  destruct (String.eqb c "getvotes") eqn:Egetvotes; [|final_leaf Hrun].
  destruct (Nat.eqb (List.length (params request)) 2) eqn:Eeq2;
    [|final_leaf Hrun].
  destruct (ParseHashV node (idx (params request) 1) "budget-hash")
    as [h2|eh2] eqn:Eh2; [|final_leaf Hrun].
  destruct (FindFinalizedBudget svc st h2) as [fb|] eqn:Efind;
    final_leaf Hrun.
Qed.

(** X21. How [gmfinalbudget] dispatches on its first parameter: no
    parameter or an unknown command throws the usage text; "show" runs the
    listing whatever follows; "vote" and "vote-many" followed by no
    parameter or by more than two throw
    "Correct usage is 'gmfinalbudget <command> BUDGET_HASH (fLegacy)'";
    "getvotes" followed by anything but exactly one parameter throws its
    own usage message, and for a hash that names no stored budget it
    answers the string "Unknown budget hash" instead of throwing. *)
Theorem gmfinalbudget_dispatch (S : Type) (node : Node)
    (g_budgetman : BudgetManager S) (svc : Services S) (voting : Voting S)
    (st : S) (command : string) (a : UniValue) (rest : list UniValue)
    (h : uint256) :
  let run l := gmfinalbudget node g_budgetman svc voting
                 {| fHelp := false; params := l |} st in
  let usage_error := (Throw (runtime_error (usage node "gmfinalbudget")), st) in
  run [] = usage_error
  /\ (command <> "vote-many" -> command <> "vote" -> command <> "show" ->
      command <> "getvotes" -> run (VSTR command :: rest) = usage_error)
  /\ run (VSTR "show" :: rest) = gmfinalbudget_show node g_budgetman st
  /\ (rest = [] \/ (2 < List.length rest)%nat ->
      run (VSTR "vote" :: rest)
      = (Throw (err_finalbudget_vote_usage "vote"), st))
  /\ (rest = [] \/ (2 < List.length rest)%nat ->
      run (VSTR "vote-many" :: rest)
      = (Throw (err_finalbudget_vote_usage "vote-many"), st))
  /\ (List.length rest <> 1%nat ->
      run (VSTR "getvotes" :: rest) = (Throw err_getvotes_usage, st))
  /\ (ParseHashV node a "budget-hash" = Ok h ->
      FindFinalizedBudget svc st h = None ->
      run [VSTR "getvotes"; a] = (Ok (VSTR "Unknown budget hash"), st)).
Proof.
  intros run usage_error.
  unfold run, usage_error, gmfinalbudget, bind, lift, throw_if, throw, ret,
    gets.
  cbn [params fHelp idx nth get_str negb andb orb].
  split; [reflexivity|]. split; [|split; [|split; [|split; [|split]]]].
  - intros H1 H2 H3 H4. apply str_ne_true in H1, H2, H3, H4.
    cbn [List.length Nat.leb idx nth get_str].
    rewrite H1, H2, H3, H4. reflexivity.
  - reflexivity.
  - intros [-> | Hlen]; [reflexivity|].
    destruct rest as [|x1 [|x2 [|x3 rest']]]; cbn [List.length] in Hlen;
      try lia; reflexivity.
  - intros [-> | Hlen]; [reflexivity|].
    destruct rest as [|x1 [|x2 [|x3 rest']]]; cbn [List.length] in Hlen;
      try lia; reflexivity.
  - intros Hlen.
    destruct rest as [|x1 [|x2 rest']]; cbn [List.length] in Hlen;
      try lia; reflexivity.
  - intros Eh Efind.
    cbn [List.length Nat.leb Nat.eqb Nat.ltb idx nth get_str
         str_ne String.eqb Ascii.eqb Bool.eqb negb andb orb].
    vote_reduce. reflexivity.
Qed.

(** A hash that names no stored budget; a call with two hashes; an unknown
    command. *)
Lemma gmfinalbudget_dispatch_witness :
  gmfinalbudget Bench.node Lab.manager (Lab.services true false) Lab.voting
    (Lab.call_with [VSTR "getvotes"; VSTR "0x63"])
    (Lab.world Bench.store true)
  = (Ok (VSTR "Unknown budget hash"), Lab.world Bench.store true)
  /\ gmfinalbudget Bench.node Lab.manager (Lab.services true false) Lab.voting
       (Lab.call_with [VSTR "getvotes"; VSTR "0x63"; VSTR "0x64"])
       (Lab.world Bench.store true)
     = (Throw err_getvotes_usage, Lab.world Bench.store true)
  /\ gmfinalbudget Bench.node Lab.manager (Lab.services true false) Lab.voting
       (Lab.call_with [VSTR "votes"]) (Lab.world Bench.store true)
     = (Throw (runtime_error "gmfinalbudget"), Lab.world Bench.store true).
Proof.
  split; [|split].
  - destruct (gmfinalbudget_dispatch Lab.World Bench.node Lab.manager
                (Lab.services true false) Lab.voting
                (Lab.world Bench.store true) "votes" (VSTR "0x63") [] 99)
      as (_ & _ & _ & _ & _ & _ & Hvotes).
    apply Hvotes; reflexivity.
  - destruct (gmfinalbudget_dispatch Lab.World Bench.node Lab.manager
                (Lab.services true false) Lab.voting
                (Lab.world Bench.store true) "votes" VNULL
                [VSTR "0x63"; VSTR "0x64"] 99)
      as (_ & _ & _ & _ & _ & Husage & _).
    apply Husage. discriminate.
  - destruct (gmfinalbudget_dispatch Lab.World Bench.node Lab.manager
                (Lab.services true false) Lab.voting
                (Lab.world Bench.store true) "votes" VNULL [] 99)
      as (_ & Hunknown & _).
    apply Hunknown; discriminate.
Defined.

(** X22. A finalized-budget vote with a hash that parses.  "vote" ends
    with gmLocalBudgetVoteInner(fLegacyGM, hash, true, VOTE_YES) where
    fLegacyGM is false under enforced deterministic gamemasters: unlike
    [gmbudgetvote], the local mode is not refused there.  "vote-many" ends
    with gmBudgetVoteInner(pwallet, fLegacyGM, hash, true, VOTE_YES,
    nullopt), except that under enforced deterministic gamemasters an
    unavailable wallet makes it answer null without casting. *)
Theorem gmfinalbudget_vote_calls (S : Type) (node : Node)
    (g_budgetman : BudgetManager S) (svc : Services S) (voting : Voting S)
    (st : S) (a : UniValue) (h : uint256) :
  ParseHashV node a "BUDGET_HASH" = Ok h ->
  let run l := gmfinalbudget node g_budgetman svc voting
                 {| fHelp := false; params := l |} st in
  let pwallet :=
    GetWalletForJSONRPCRequest svc
      {| fHelp := false; params := [VSTR "vote-many"; a] |} st in
  run [VSTR "vote"; a]
  = gmLocalBudgetVoteInner voting (negb (IsDIP3Enforced svc)) h true
      CBudgetVote.VOTE_YES st
  /\ (IsDIP3Enforced svc = false ->
      run [VSTR "vote-many"; a]
      = gmBudgetVoteInner voting pwallet true h true CBudgetVote.VOTE_YES
          None st)
  /\ (IsDIP3Enforced svc = true ->
      EnsureWalletIsAvailable svc pwallet false = Ok true ->
      run [VSTR "vote-many"; a]
      = gmBudgetVoteInner voting pwallet false h true CBudgetVote.VOTE_YES
          None st)
  /\ (IsDIP3Enforced svc = true ->
      EnsureWalletIsAvailable svc pwallet false = Ok false ->
      run [VSTR "vote-many"; a] = (Ok VNULL, st)).
Proof.
  intros Eh run pwallet.
  unfold run, pwallet, gmfinalbudget, legacy_flag, bind, lift, throw_if,
    throw, ret, gets.
  cbn [params fHelp List.length idx nth get_str Nat.leb Nat.eqb Nat.ltb
       negb andb orb].
  rewrite Eh. split; [|split; [|split]].
  - destruct (IsDIP3Enforced svc); reflexivity.
  - intros Edip. rewrite Edip. reflexivity.
  - intros Edip Eav. rewrite Edip. cbn. rewrite Eav. reflexivity.
  - intros Edip Eav. rewrite Edip. cbn. rewrite Eav. reflexivity.
Qed.

Lemma gmfinalbudget_vote_calls_witness :
  Lab.votesCast
    (final (gmfinalbudget Bench.node Lab.manager (Lab.services true true)
              Lab.voting (Lab.call_with [VSTR "vote"; VSTR "0x63"]))
       (Lab.world Bench.store true))
  = [{| Lab.cast_local := true; Lab.cast_legacy := false;
        Lab.cast_hash := 99; Lab.cast_final := true;
        Lab.cast_vote := CBudgetVote.VOTE_YES; Lab.cast_alias := None |}].
Proof.
  unfold final, Lab.call_with.
  rewrite (proj1 (gmfinalbudget_vote_calls Lab.World Bench.node Lab.manager
                    (Lab.services true true) Lab.voting
                    (Lab.world Bench.store true) (VSTR "0x63") 99 eq_refl)).
  reflexivity.
Defined.

(** ** Raw finalized budgets *)

Lemma get_obj_ok (v w : UniValue) : get_obj v = Ok w -> w = v.
Proof. destruct v; simpl; congruence. Qed.

Lemma parse_payments_spec (S : Type) (node : Node) (svc : Services S)
    (budgetVec : list UniValue) :
  forall acc payments,
    parse_payments node svc budgetVec acc = Ok payments ->
    exists new,
      payments = (acc ++ new)%list
      /\ Forall2 (payment_of node svc) budgetVec new.
Proof.
  induction budgetVec as [|item rest IH]; intros acc payments; simpl.
  - intros [= <-]. exists []. split; [now rewrite app_nil_r | constructor].
  - destruct (get_obj item) as [prop|] eqn:Eobj; [|discriminate].
    apply get_obj_ok in Eobj as Hprop. subst prop.
    destruct (ParseHashO svc item "proposalid") as [propId|] eqn:Eid;
      [|discriminate].
    destruct (ParseHexO svc item "payee") as [scriptData|] eqn:Ehex;
      [|discriminate].
    destruct (AmountFromValue node (find_value item "amount")) as [amount|]
      eqn:Eamt; [|discriminate].
    intros Hrest. apply IH in Hrest. destruct Hrest as (new & -> & Hall).
    eexists (_ :: new). split.
    + rewrite <- app_assoc. reflexivity.
    + constructor; [|exact Hall].
      unfold payment_of. simpl. repeat split; try assumption.
      exists scriptData. split; [assumption | reflexivity].
Qed.

(** X23. The payments [createrawgmfinalbudget] reads from the proposals
    array are one per array entry and in array order; each entry must be
    an object, and its payment is made of the entry's "proposalid", the
    bytes of its "payee" and its "amount". *)
Theorem parse_payments_in_order (S : Type) (node : Node) (svc : Services S)
    (budgetVec : list UniValue) (payments : list CTxBudgetPayment) :
  parse_payments node svc budgetVec [] = Ok payments ->
  List.length payments = List.length budgetVec
  /\ Forall2 (payment_of node svc) budgetVec payments
  /\ forall i item,
       nth_error budgetVec i = Some item ->
       exists pay, nth_error payments i = Some pay
                   /\ payment_of node svc item pay.
Proof.
  intros Hparse. apply parse_payments_spec in Hparse.
  destruct Hparse as (new & -> & Hall). simpl.
  split; [symmetry; eapply Forall2_length; eassumption|].
  split; [exact Hall|].
  clear -Hall. induction Hall as [|item pay l l' Hpay Hall IH];
    intros i it Hi.
  - destruct i; discriminate.
  - destruct i as [|i]; simpl in *.
    + injection Hi as <-. eauto.
    + apply IH. exact Hi.
Qed.

Lemma parse_payments_in_order_witness :
  let item := VOBJ [("proposalid", VSTR "0x2a"); ("payee", VSTR "Y");
                    ("amount", VNUM 500)] in
  exists pay,
    parse_payments Bench.node (Lab.services true false) [item] [] = Ok [pay]
    /\ payment_of Bench.node (Lab.services true false) item pay.
Proof.
  intros item.
  destruct (parse_payments_in_order Lab.World Bench.node
              (Lab.services true false) [item]
              [{| nProposalHash := 42; payee := "Y"; nAmount := 500 |}]
              eq_refl) as (_ & _ & Hnth).
  destruct (Hnth 0%nat item eq_refl) as (pay & Hp & Hof).
  simpl in Hp. injection Hp as <-.
  eexists. split; [reflexivity | exact Hof].
Defined.

(** X24. On the regression test network, for a call
    [name start proposals (feetxid)] whose arguments have the right JSON
    types: an entry of the proposals array that fails to parse makes the
    command throw with the state unchanged; without a fee transaction id
    the command only creates and commits the collateral transaction, and
    the budget manager is not asked to add anything; with a fee transaction
    id it only hands the budget to AddFinalizedBudget and answers
    "fin_budget_sent" with the budget hash, or "error". *)
Theorem createrawgmfinalbudget_paths (S : Type) (node : Node)
    (svc : Services S) (st : S) (budName : string) (vStart vFee : UniValue)
    (nBlockStart : Z) (budgetVec : list UniValue) :
  IsRegTestNet svc = true ->
  get_int vStart = Ok nBlockStart ->
  let run l := createrawgmfinalbudget node svc
                 {| fHelp := false; params := l |} st in
  let args := [VSTR budName; vStart; VARR budgetVec] in
  (forall e,
      parse_payments node svc budgetVec [] = Throw e ->
      run args = (Throw e, st) /\ run (args ++ [vFee])%list = (Throw e, st))
  /\ (forall payments,
         parse_payments node svc budgetVec [] = Ok payments ->
         run args = send_fee_tx node svc budName nBlockStart payments st
         /\ (forall e,
                ParseHashV node vFee "parameter 4" = Throw e ->
                run (args ++ [vFee])%list = (Throw e, st))
         /\ (forall feeId,
                ParseHashV node vFee "parameter 4" = Ok feeId ->
                run (args ++ [vFee])%list
                = send_budget node svc budName nBlockStart payments feeId st)).
Proof.
  intros Hreg Estart run args.
  unfold run, args, createrawgmfinalbudget, send_fee_tx, send_budget, bind,
    lift, throw_if, throw, ret, call.
  cbn [app params fHelp List.length idx nth get_str get_array Nat.ltb Nat.leb
       negb andb orb].
  rewrite Hreg, Estart. cbn [negb]. split.
  - intros e Ep. rewrite Ep. split; reflexivity.
  - intros payments Ep. rewrite Ep. cbn beta iota. split; [|split].
    + destruct (CreateBudgetFeeTX svc vpwallets_0 _ (BUDGET_FEE_TX svc) st)
        as [[wtx|] st1]; cbn [fst snd]; [|reflexivity].
      destruct (CommitTransaction svc vpwallets_0 wtx st1) as [res st2].
      cbn [fst snd]. destruct (is_CommitOK (status res)); reflexivity.
    + intros e Efee. rewrite Efee. reflexivity.
    + intros feeId Efee. rewrite Efee. cbn beta iota.
      destruct (AddFinalizedBudget svc _ st) as [[fAdded fb] st1].
      cbn [fst snd]. destruct fAdded; reflexivity.
Qed.

Lemma createrawgmfinalbudget_paths_witness :
  Bench.mapFinalizedBudgets
    (Lab.budget
       (final (createrawgmfinalbudget Bench.node (Lab.services true false)
                 (Lab.call_with [VSTR "main"; VNUM 43200; VARR []]))
          (Lab.world Bench.store true)))
  = []
  /\ List.length
       (Bench.mapFinalizedBudgets
          (Lab.budget
             (final (createrawgmfinalbudget Bench.node
                       (Lab.services true false)
                       (Lab.call_with
                          [VSTR "main"; VNUM 43200; VARR []; VSTR "0x63"]))
                (Lab.world Bench.store true))))
     = 1%nat.
Proof.
  destruct (createrawgmfinalbudget_paths Lab.World Bench.node
              (Lab.services true false) (Lab.world Bench.store true)
              "main" (VNUM 43200) (VSTR "0x63") 43200 [] eq_refl eq_refl)
    as (_ & H).
  destruct (H [] eq_refl) as (Hfee & _ & Hadd).
  unfold final, Lab.call_with. split.
  - rewrite Hfee. reflexivity.
  - change [VSTR "main"; VNUM 43200; VARR []; VSTR "0x63"]
      with ([VSTR "main"; VNUM 43200; VARR []] ++ [VSTR "0x63"])%list.
    rewrite (Hadd 99 eq_refl). reflexivity.
Defined.

(** ** A raw vote with a malformed signature *)

(** X25. A raw vote whose signature is not valid base64 is rejected with
    "Malformed base64 encoding" before the gamemaster list is consulted:
    the answer does not depend on whether the gamemaster exists, and the
    vote is not processed. *)
Theorem gmbudgetrawvote_malformed_signature (S : Type) (node : Node)
    (g_budgetman : BudgetManager S) (request : JSONRPCRequest) (st : S)
    (hashGmTx : uint256) (nGmTxIndex : Z) (hashProposal : uint256)
    (strVote : string) (nVote : CBudgetVote.VoteDirection) (nTime : Z)
    (strSig : string) (vchSig : list Byte.byte) :
  fHelp request = false ->
  List.length (params request) = 6%nat ->
  ParseHashV node (idx (params request) 0) "gm tx hash" = Ok hashGmTx ->
  get_int (idx (params request) 1) = Ok nGmTxIndex ->
  ParseHashV node (idx (params request) 2) "Proposal hash" = Ok hashProposal ->
  get_str (idx (params request) 3) = Ok strVote ->
  parseVote strVote = Ok nVote ->
  get_int64 (idx (params request) 4) = Ok nTime ->
  get_str (idx (params request) 5) = Ok strSig ->
  DecodeBase64 node strSig = (vchSig, true) ->
  gmbudgetrawvote node g_budgetman request st
  = (Throw (JSONRPCError RPC_INVALID_ADDRESS_OR_KEY
              "Malformed base64 encoding"), st).
Proof.
  intros Hhelp Hlen E1 E2 E3 E4 E5 E6 E7 E8.
  assert (E0 : fHelp request
               || negb (Nat.eqb (List.length (params request)) 6) = false)
    by (rewrite Hhelp, Hlen; reflexivity).
  run_raw. reflexivity.
Qed.

Lemma gmbudgetrawvote_malformed_signature_witness :
  gmbudgetrawvote LabSig.node Bench.manager (Bench.rawvote "0x08" "c2!n")
    Bench.store
  = (Throw (JSONRPCError RPC_INVALID_ADDRESS_OR_KEY
              "Malformed base64 encoding"), Bench.store).
Proof.
  exact (gmbudgetrawvote_malformed_signature Bench.Store LabSig.node
           Bench.manager (Bench.rawvote "0x08" "c2!n") Bench.store
           8 0 42 "yes" CBudgetVote.VOTE_YES 100 "c2!n" []
           eq_refl eq_refl eq_refl eq_refl eq_refl eq_refl eq_refl eq_refl
           eq_refl eq_refl).
Defined.

(** ** The status of a finalized budget, further *)

Section StatusLocal.
Context {S : Type} (node : Node) (g_budgetman : BudgetManager S).

Lemma status_body_run (fb : CFinalizedBudget.t) (h : Z)
    (acc : string * string) (st : S) :
  status_body node g_budgetman fb h acc st
  = (result (status_body node g_budgetman fb h acc) st, st).
Proof.
  pose proof (status_body_readonly node g_budgetman fb h acc st) as Hro.
  unfold final, result in *.
  destruct (status_body node g_budgetman fb h acc st) as [o st'].
  simpl in *. now subst.
Qed.

Lemma status_body_local (fb : CFinalizedBudget.t) (h : Z)
    (acc : string * string) (st st' : S) :
  (forall pay,
      CFinalizedBudget.GetBudgetPaymentByBlock fb h = Some pay ->
      GetProposal g_budgetman st (nProposalHash pay)
      = GetProposal g_budgetman st' (nProposalHash pay)) ->
  result (status_body node g_budgetman fb h acc) st
  = result (status_body node g_budgetman fb h acc) st'.
Proof.
  intros Hsame. unfold result, status_body, bind, gets, ret.
  destruct acc as [bad mis].
  destruct (CFinalizedBudget.GetBudgetPaymentByBlock fb h) as [pay|];
    [|reflexivity].
  rewrite (Hsame pay eq_refl).
  destruct (GetProposal g_budgetman st' (nProposalHash pay)) as [bp|];
    [|reflexivity].
  destruct (str_ne _ _ || _); reflexivity.
Qed.

Lemma status_loop_local (fb : CFinalizedBudget.t) (count : nat) :
  forall (h : Z) (acc : string * string) (st st' : S),
    (forall k pay,
        In k (heights_from h count) ->
        CFinalizedBudget.GetBudgetPaymentByBlock fb k = Some pay ->
        GetProposal g_budgetman st (nProposalHash pay)
        = GetProposal g_budgetman st' (nProposalHash pay)) ->
    result (status_loop node g_budgetman fb count h acc) st
    = result (status_loop node g_budgetman fb count h acc) st'.
Proof.
  induction count as [|count IH]; intros h acc st st' Hsame.
  - reflexivity.
  - rewrite heights_from_S in Hsame.
    cbn [status_loop]. unfold result, bind.
    rewrite (status_body_run fb h acc st), (status_body_run fb h acc st').
    rewrite (status_body_local fb h acc st st')
      by (intros pay Hpay; apply (Hsame h); [now left | exact Hpay]).
    destruct (result (status_body node g_budgetman fb h acc) st')
      as [acc'|e]; [|reflexivity].
    apply IH. intros k pay Hk Hpay. apply (Hsame k); [now right | exact Hpay].
Qed.

End StatusLocal.

(** X26. The status of a finalized budget depends on the budget manager
    only through the proposals its scheduled payments reference: two
    states that answer GetProposal alike for the hash of every payment
    scheduled between nBlockStart and nBlockEnd give the same status. *)
Theorem GetFinalizedBudgetStatus_local (S : Type) (node : Node)
    (g_budgetman : BudgetManager S) (fb : CFinalizedBudget.t) (st st' : S) :
  (forall h pay,
      CFinalizedBudget.GetBlockStart fb <= h <= CFinalizedBudget.GetBlockEnd fb ->
      CFinalizedBudget.GetBudgetPaymentByBlock fb h = Some pay ->
      GetProposal g_budgetman st (nProposalHash pay)
      = GetProposal g_budgetman st' (nProposalHash pay)) ->
  result (GetFinalizedBudgetStatus node g_budgetman fb) st
  = result (GetFinalizedBudgetStatus node g_budgetman fb) st'.
Proof.
  intros Hsame.
  assert (Hloop :
            result (status_loop node g_budgetman fb
                      (iterations (CFinalizedBudget.GetBlockStart fb)
                         (CFinalizedBudget.GetBlockEnd fb))
                      (CFinalizedBudget.GetBlockStart fb) ("", "")) st
            = result (status_loop node g_budgetman fb
                        (iterations (CFinalizedBudget.GetBlockStart fb)
                           (CFinalizedBudget.GetBlockEnd fb))
                        (CFinalizedBudget.GetBlockStart fb) ("", "")) st').
  { apply status_loop_local. intros k pay Hk Hpay.
    apply (Hsame k); [|exact Hpay].
    apply (in_closed_range _ _ k). exact Hk. }
  pose proof (status_loop_readonly node g_budgetman fb
                (iterations (CFinalizedBudget.GetBlockStart fb)
                   (CFinalizedBudget.GetBlockEnd fb))
                (CFinalizedBudget.GetBlockStart fb) ("", "")) as Hro.
  pose proof (Hro st) as H1. pose proof (Hro st') as H2.
  unfold result, final in *. unfold GetFinalizedBudgetStatus, bind.
  destruct (status_loop node g_budgetman fb _ _ _ st) as [o1 s1].
  destruct (status_loop node g_budgetman fb _ _ _ st') as [o2 s2].
  simpl in *. subst o2 s1 s2.
  destruct o1 as [[bad mis]|e]; [|reflexivity].
  destruct (empty bad && String.eqb mis ""); reflexivity.
Qed.

Lemma GetFinalizedBudgetStatus_local_witness :
  result (GetFinalizedBudgetStatus Bench.node Bench.manager
            Bench.budget_mismatch) Bench.store
  = result (GetFinalizedBudgetStatus Bench.node Bench.manager
              Bench.budget_mismatch)
      {| Bench.mapProposals :=
           [Bench.proposal "alpha" 42 "Y" 500 43200 2 true];
         Bench.mapFinalizedBudgets := [];
         Bench.mapSeenProposalVotes := [] |}.
Proof.
  apply GetFinalizedBudgetStatus_local.
  intros h pay _ Hpay. simpl in Hpay.
  destruct (h =? 43200); [|discriminate].
  injection Hpay as <-. reflexivity.
Defined.

(** X27. A finalized budget whose end height is below its start height
    has no height to examine: its status is "OK" whatever payments and
    proposals exist, and no proposal is looked up. *)
Theorem GetFinalizedBudgetStatus_empty_range (S : Type) (node : Node)
    (g_budgetman : BudgetManager S) (fb : CFinalizedBudget.t) (st : S) :
  CFinalizedBudget.GetBlockEnd fb < CFinalizedBudget.GetBlockStart fb ->
  GetFinalizedBudgetStatus node g_budgetman fb st = (Ok "OK", st).
Proof.
  intros Hlt. unfold GetFinalizedBudgetStatus, iterations.
  replace (Z.to_nat _) with 0%nat by lia.
  reflexivity.
Qed.

Lemma GetFinalizedBudgetStatus_empty_range_witness :
  GetFinalizedBudgetStatus Bench.node Bench.manager
    (Bench.budget 43200 43199
       (fun _ => Some {| nProposalHash := 77; payee := "X"; nAmount := 1 |}))
    Bench.store
  = (Ok "OK", Bench.store).
Proof.
  apply GetFinalizedBudgetStatus_empty_range. simpl. lia.
Defined.

(** ** The properties above on the test bench *)

Lemma budgetToJSON_keys_witness :
  map fst (budgetToJSON Bench.node
             (Bench.proposal "beta" 43 "Z" 700 43200 1 false)
             [("Rank", VNUM 2)] 900)
  = ("Rank" :: budget_keys false)%list
  /\ In "IsInvalidReason"
        (map fst (budgetToJSON Bench.node
                    (Bench.proposal "beta" 43 "Z" 700 43200 1 false)
                    [("Rank", VNUM 2)] 900))
  /\ NoDup (map fst (budgetToJSON Bench.node
                       (Bench.proposal "beta" 43 "Z" 700 43200 1 false)
                       [("Rank", VNUM 2)] 900)).
Proof.
  destruct (budgetToJSON_keys Bench.node
              (Bench.proposal "beta" 43 "Z" 700 43200 1 false)
              [("Rank", VNUM 2)] 900)
    as (_ & Hkeys & Hnodup & Hreason & _).
  - repeat constructor. simpl. tauto.
  - intros k [<-|[]]. simpl. intuition discriminate.
  - split; [exact Hkeys|]. split; [|exact Hnodup].
    rewrite Hkeys. apply in_or_app. right. apply Hreason. reflexivity.
Defined.

Lemma getbudgetinfo_listing_entries_witness :
  exists rows,
    getbudgetinfo Bench.node Bench.manager {| fHelp := false; params := [] |}
      Bench.store
    = (Ok (VARR rows), Bench.store)
    /\ forall row, In row rows -> find_value row "IsValid" = VBOOL true.
Proof.
  destruct (getbudgetinfo_listing_entries Bench.Store Bench.node
              Bench.manager Bench.store) as (rows & Hrun & _ & Hrows).
  exists rows. split; [exact Hrun|].
  intros row Hin. exact (proj1 (Hrows row Hin)).
Defined.

Lemma getbudgetvotes_by_name_witness :
  fst (getbudgetvotes Bench.node Lab.manager (Lab.services true false)
         {| fHelp := true; params := [VSTR "gamma"] |}
         (Lab.world Bench.store true))
  = Throw (runtime_error "Unknown proposal name").
Proof.
  destruct (getbudgetvotes_by_name Lab.World Bench.node Lab.manager
              (Lab.services true false) (Lab.world Bench.store true)
              "gamma" true) as (_ & Hsame & _).
  apply Hsame. reflexivity.
Defined.

Lemma gmfinalbudget_casts_only_final_yes_witness :
  exists plan,
    (forall voting : Voting Lab.World,
        gmfinalbudget Bench.node Lab.manager (Lab.services true false) voting
          (Lab.call_with [VSTR "vote-many"; VSTR "0x63"])
          (Lab.world Bench.store true)
        = run_plan voting plan (Lab.world Bench.store true))
    /\ match plan_casts plan with
       | None => True
       | Some (fFinal, nVote) =>
         fFinal = true /\ nVote = CBudgetVote.VOTE_YES
       end.
Proof.
  exact (gmfinalbudget_casts_only_final_yes Lab.World Bench.node Lab.manager
           (Lab.services true false)
           (Lab.call_with [VSTR "vote-many"; VSTR "0x63"])
           (Lab.world Bench.store true)).
Defined.
